(** * Titan: execution gating, loan sizing, profit and routing

  A shallow embedding of the decision logic of the Titan arbitrage
  coordinator (Python) and the properties its design document states
  about it.  Every definition follows one source function; the module
  names follow the source files:

  - [ChainRegistry]      core/chain_registry.py
  - [ExecutionManager]   execution/execution_client.py
  - [OmniBrain]          ml/brain.py (graph construction)
  - [TitanCommander]     core/titan_commander_core.py
  - [ProfitEngine]       ml/brain.py (profit equation)
  - [ExecutionModes]     core/execution_modes.py
  - [ExecutionClient]    execution/execution_client.py (HTTP client, batches)
  - [Config]             core/config.py (the chain table)
  - [TokenDiscovery]     core/token_discovery.py
  - [TitanSimulationEngine]  core/titan_simulation_engine.py
  - [Scan]               ml/brain.py (start-up, opportunities, liquidity guard)
  - [SystemReadinessValidator]  core/system_readiness.py *)

From Stdlib Require Import ZArith QArith Qpower String Ascii List Lia.
From Stdlib Require Import Floats.SpecFloat.
From stdpp Require Import gmap strings list pretty.

Local Open Scope Z_scope.

(** ** Python strings

  [str.lower], [in] (substring test) and [str.startswith] on byte
  strings.  [String.prefix p s] is [s.startswith(p)]. *)
Module PyStr.

Definition lower_ascii (c : ascii) : ascii :=
  let n := N_of_ascii c in
  if ((65 <=? n) && (n <=? 90))%N then ascii_of_N (n + 32) else c.

Fixpoint lower (s : string) : string :=
  match s with
  | EmptyString => EmptyString
  | String c s' => String (lower_ascii c) (lower s')
  end.

(** [contains needle hay] is Python's [needle in hay]. *)
Fixpoint contains (needle hay : string) : bool :=
  String.prefix needle hay ||
  match hay with
  | EmptyString => false
  | String _ hay' => contains needle hay'
  end.

(** Python truthiness of a string: non-empty. *)
Definition truthy (s : string) : bool :=
  match s with EmptyString => false | _ => true end.

End PyStr.

(** ** core/chain_registry.py *)
Module ChainRegistry.

Inductive ChainExecutionState := ENABLED | CONFIGURED | DISABLED.

#[global] Instance ChainExecutionState_eq_dec : EqDecision ChainExecutionState.
Proof. solve_decision. Defined.

(** [ChainRegistry.CHAIN_STATES] *)
Definition CHAIN_STATES : gmap Z ChainExecutionState :=
  <[137 := ENABLED]> (<[1 := CONFIGURED]> (<[42161 := CONFIGURED]> ∅)).

Record chain_metadata := {
  name : string;
  native : string;
  rpc_env : string;
  wss_env : string;
  chain_id : Z
}.

(** [ChainRegistry.CHAIN_METADATA] *)
Definition CHAIN_METADATA : gmap Z chain_metadata :=
  <[1 := {| name := "ethereum"; native := "ETH"; rpc_env := "RPC_ETHEREUM";
            wss_env := "WSS_ETHEREUM"; chain_id := 1 |}]>
  (<[137 := {| name := "polygon"; native := "MATIC"; rpc_env := "RPC_POLYGON";
               wss_env := "WSS_POLYGON"; chain_id := 137 |}]>
  (<[42161 := {| name := "arbitrum"; native := "ETH"; rpc_env := "RPC_ARBITRUM";
                 wss_env := "WSS_ARBITRUM"; chain_id := 42161 |}]> ∅)).

(** The instance state set up by [__init__]: the two dictionaries that
    [validate_rpc_health] writes. *)
Record registry := {
  validated_rpcs : gmap Z string;
  health_status : gmap Z bool
}.

(** [is_execution_enabled] is a class method: it reads [CHAIN_STATES]
    and nothing of the instance. *)
Definition is_execution_enabled (chain_id : Z) : bool :=
  bool_decide (CHAIN_STATES !! chain_id = Some ENABLED).

Definition is_configured (chain_id : Z) : bool :=
  match CHAIN_STATES !! chain_id with
  | Some ENABLED | Some CONFIGURED => true
  | _ => false
  end.

Definition get_execution_state (chain_id : Z) : ChainExecutionState :=
  default DISABLED (CHAIN_STATES !! chain_id).

(** [get_enabled_chains]: the keys of [CHAIN_STATES] whose state is
    ENABLED. *)
Definition get_enabled_chains : list Z :=
  (map_to_list (filter (λ kv, kv.2 = ENABLED) CHAIN_STATES)).*1.

(** The process environment, [os.environ]. *)
Abbreviation environ := (gmap string string).

(** [get_rpc_url].  The metadata lookup, the lookup of the variable
    name, [os.getenv], then the two rejections, guarded by the
    truthiness of the configured value as in the source. *)
Definition get_rpc_url (env : environ) (chain_id : Z) : option string :=
  match CHAIN_METADATA !! chain_id with
  | None => None
  | Some metadata =>
    let rpc_env_var := rpc_env metadata in
    if negb (PyStr.truthy rpc_env_var) then None
    else
      match env !! rpc_env_var with
      | None => None
      | Some rpc_url =>
        if PyStr.truthy rpc_url then
          if PyStr.contains "localhost" (PyStr.lower rpc_url)
             || PyStr.contains "127.0.0.1" rpc_url
          then None
          else if negb (String.prefix "http://" rpc_url
                        || String.prefix "https://" rpc_url)
          then None
          else Some rpc_url
        else Some rpc_url
      end
  end.

(** [get_chain_name] *)
Definition get_chain_name (chain_id : Z) : string :=
  match CHAIN_METADATA !! chain_id with
  | Some metadata => name metadata
  | None => "chain-" +:+ pretty chain_id
  end.

(** The items of [CHAIN_STATES], in the order of the source. *)
Definition CHAIN_STATES_items : list (Z * ChainExecutionState) :=
  [(137, ENABLED); (1, CONFIGURED); (42161, CONFIGURED)].

(** [get_configured_chains] *)
Definition get_configured_chains : list Z :=
  (filter (λ item, item.2 = ENABLED ∨ item.2 = CONFIGURED) CHAIN_STATES_items).*1.

(** [get_executor_address] *)
Definition get_executor_address (env : environ) (chain_id : Z) : option string :=
  let executor_env_map : gmap Z string :=
    <[1 := "EXECUTOR_ADDRESS_ETHEREUM"]>
      (<[137 := "EXECUTOR_ADDRESS_POLYGON"]>
         (<[42161 := "EXECUTOR_ADDRESS_ARBITRUM"]> ∅)) in
  match executor_env_map !! chain_id with
  | None => None
  | Some env_var => env !! env_var
  end.

(** What a Web3 provider on a URL answers to [is_connected()] followed
    by [eth.block_number]: connected with a block height, not connected,
    or an exception. *)
Inductive probe :=
| Connected (block_number : Z)
| Unreachable
| ProbeRaises (msg : string).

(** The network: what probing each URL gives. *)
Abbreviation network := (string → probe).

Definition set_health (self : registry) (chain_id : Z) (ok : bool) : registry :=
  {| validated_rpcs := validated_rpcs self;
     health_status := <[chain_id := ok]> (health_status self) |}.

(** [validate_rpc_health]: the answer, the registry afterwards, and the
    URLs that were probed. *)
Definition validate_rpc_health (env : environ) (net : network) (self : registry)
    (chain_id : Z) : bool * registry * list string :=
  match get_rpc_url env chain_id with
  | None => (false, set_health self chain_id false, [])
  | Some rpc_url =>
    if negb (PyStr.truthy rpc_url) then (false, set_health self chain_id false, [])
    else
      match net rpc_url with
      | Connected _ =>
        (true,
         {| validated_rpcs := <[chain_id := rpc_url]> (validated_rpcs self);
            health_status := <[chain_id := true]> (health_status self) |},
         [rpc_url])
      | Unreachable | ProbeRaises _ =>
        (false, set_health self chain_id false, [rpc_url])
      end
  end.

(** The loop of [validate_all_configured_chains] over a list of chains. *)
Fixpoint validate_chains (env : environ) (net : network) (chains : list Z)
    (results : gmap Z bool) (self : registry) (probed : list string)
    : gmap Z bool * registry * list string :=
  match chains with
  | [] => (results, self, probed)
  | chain_id :: rest =>
    let '(ok, self', urls) := validate_rpc_health env net self chain_id in
    validate_chains env net rest (<[chain_id := ok]> results) self' (probed ++ urls)
  end.

(** [validate_all_configured_chains] *)
Definition validate_all_configured_chains (env : environ) (net : network)
    (self : registry) : gmap Z bool * registry * list string :=
  validate_chains env net get_configured_chains ∅ self [].

End ChainRegistry.

(** ** execution/execution_client.py *)
Module ExecutionManager.

(** The JSON object answered by [POST /execute], as read by the client:
    [{success, mode, txHash?, error?}]. *)
Record exec_result := {
  success : bool;
  mode : option string;
  txHash : option string;
  error : option string
}.

(** What one [await self.client.execute_signal(signal)] does: it
    returns a result or raises. *)
Inductive outcome :=
| Returned (r : exec_result)
| Raised (msg : string).

(** [ExecutionManager.stats] *)
Record stats_t := {
  sent : Z;
  succeeded : Z;
  failed : Z;
  retried : Z
}.

Definition stats0 : stats_t :=
  {| sent := 0; succeeded := 0; failed := 0; retried := 0 |}.

Definition incr_sent (s : stats_t) := {| sent := sent s + 1; succeeded := succeeded s; failed := failed s; retried := retried s |}.
Definition incr_succeeded (s : stats_t) := {| sent := sent s; succeeded := succeeded s + 1; failed := failed s; retried := retried s |}.
Definition incr_failed (s : stats_t) := {| sent := sent s; succeeded := succeeded s; failed := failed s + 1; retried := retried s |}.
Definition incr_retried (s : stats_t) := {| sent := sent s; succeeded := succeeded s; failed := failed s; retried := retried s + 1 |}.

(** Observable effects of a submission, in order. *)
Inductive event :=
| EvExecuteSignal (attempt : Z)
| EvSleep (seconds : Z).

Definition is_execute (e : event) : bool :=
  match e with EvExecuteSignal _ => true | EvSleep _ => false end.

(** Number of [execute_signal] invocations in a trace. *)
Definition invocations (tr : list event) : nat :=
  length (List.filter is_execute tr).

Definition sleeps (tr : list event) : nat :=
  length (List.filter (λ e, negb (is_execute e)) tr).

(** The answers of the execution server to the successive
    [execute_signal] calls of one submission, by attempt number. *)
Abbreviation server := (Z → outcome).

(** The body of [for attempt in range(self.max_retries)], from
    [attempt] on, with [n] iterations left. *)
Fixpoint retry_loop (max_retries : Z) (srv : server) (n : nat) (attempt : Z)
    (st : stats_t) : stats_t * exec_result * list event :=
  match n with
  | O =>
    (st, {| success := false; mode := None; txHash := None;
            error := Some "Max retries exceeded" |}, [])
  | S n' =>
    match srv attempt with
    | Returned result =>
      if success result then
        (incr_succeeded st, result, [EvExecuteSignal attempt])
      else if attempt <? max_retries - 1 then
        let '(st', r, tr) :=
          retry_loop max_retries srv n' (attempt + 1) (incr_retried st) in
        (st', r, EvExecuteSignal attempt :: EvSleep 1 :: tr)
      else
        (incr_failed st, result, [EvExecuteSignal attempt])
    | Raised e =>
      if attempt <? max_retries - 1 then
        let '(st', r, tr) :=
          retry_loop max_retries srv n' (attempt + 1) (incr_retried st) in
        (st', r, EvExecuteSignal attempt :: EvSleep 1 :: tr)
      else
        (incr_failed st,
         {| success := false; mode := None; txHash := None; error := Some e |},
         [EvExecuteSignal attempt])
    end
  end.

(** [submit_trade]: count the submission, then run the retry loop over
    [range(self.max_retries)]. *)
Definition submit_trade (max_retries : Z) (srv : server) (st : stats_t)
    : stats_t * exec_result * list event :=
  retry_loop max_retries srv (Z.to_nat max_retries) 0 (incr_sent st).

(** A sequence of completed [submit_trade] calls on one manager, each
    with the answers the server gave during it. *)
Fixpoint submit_all (max_retries : Z) (srvs : list server) (st : stats_t) : stats_t :=
  match srvs with
  | [] => st
  | srv :: rest => submit_all max_retries rest (submit_trade max_retries srv st).1.1
  end.

(** A rejection by the executor's pre-flight validation, as it reaches
    the client: a non-success result carrying the reason. *)
Definition preflight_rejection (reason : string) : exec_result :=
  {| success := false; mode := Some "LIVE"; txHash := None; error := Some reason |}.

End ExecutionManager.

(** ** ml/brain.py: the opportunity graph *)
Module OmniBrain.

(** [TokenDiscovery.BRIDGE_ASSETS] (core/token_discovery.py) *)
Definition BRIDGE_ASSETS : list string :=
  ["USDC"; "USDT"; "DAI"; "WETH"; "WBTC";
   "USDC.e"; "LINK"; "UNI"; "AAVE"; "CRV"].

(** The entries of a token record that the graph reads. *)
Record token_data := { address : string; decimals : Z }.

(** [self.inventory]: chain id -> symbol -> token data.  The outer
    dictionary is kept as its list of items, in insertion order; being
    a dictionary, its keys are pairwise distinct. *)
Abbreviation inventory := (list (Z * gmap string token_data)).

Record node := {
  n_chain : Z;
  n_symbol : string;
  n_address : string;
  n_decimals : Z
}.

Record edge_data := { e_type : string; e_weight : spec_float }.

(** A [rustworkx.PyDiGraph]: nodes are numbered in order of insertion,
    parallel edges are kept. *)
Record graph := {
  nodes : list node;
  edges : list (nat * nat * edge_data)
}.

Definition empty_graph : graph := {| nodes := []; edges := [] |}.

Definition add_node (g : graph) (d : node) : graph * nat :=
  ({| nodes := nodes g ++ [d]; edges := edges g |}, length (nodes g)).

Definition add_edge (g : graph) (u v : nat) (d : edge_data) : graph :=
  {| nodes := nodes g; edges := edges g ++ [(u, v, d)] |}.

Abbreviation node_indices := (gmap (Z * string) nat).

(** A [for] loop whose body may raise ([None]). *)
Fixpoint for_each {A S : Type} (xs : list A) (body : A → S → option S) (s : S)
    : option S :=
  match xs with
  | [] => Some s
  | x :: xs' =>
    match body x s with
    | Some s' => for_each xs' body s'
    | None => None
    end
  end.

(** The body of the inner loop of [_build_graph_nodes]. *)
Definition add_token (chain_id : Z) (st : graph * node_indices)
    (item : string * token_data) : graph * node_indices :=
  let '(g, ni) := st in
  let node_key := (chain_id, item.1) in
  match ni !! node_key with
  | Some _ => st
  | None =>
    let '(g', idx) :=
      add_node g {| n_chain := chain_id; n_symbol := item.1;
                    n_address := address item.2;
                    n_decimals := decimals item.2 |} in
    (g', <[node_key := idx]> ni)
  end.

(** [_build_graph_nodes] *)
Definition _build_graph_nodes (inv : inventory) (st : graph * node_indices)
    : graph * node_indices :=
  foldl (λ st entry, foldl (add_token entry.1) st (map_to_list entry.2)) st inv.

(** [[cid for cid in self.inventory if symbol in self.inventory[cid]]] *)
Definition chains_with_asset (inv : inventory) (symbol : string) : list Z :=
  (filter (λ entry, is_Some (entry.2 !! symbol)) inv).*1.

Definition bridge : edge_data :=
  {| e_type := "bridge"; e_weight := S754_zero false |}.

(** The body of the loops over [i] and [j] in [_build_bridge_edges];
    a failed dictionary or list access raises. *)
Definition link (cwa : list Z) (ni : node_indices) (symbol : string)
    (i j : nat) (g : graph) : option graph :=
  chain_a ← cwa !! i;
  chain_b ← cwa !! j;
  u ← ni !! (chain_a, symbol);
  v ← ni !! (chain_b, symbol);
  Some (add_edge (add_edge g u v bridge) v u bridge).

(** One iteration of the loop over [TokenDiscovery.BRIDGE_ASSETS]. *)
Definition build_edges_for_symbol (inv : inventory) (ni : node_indices)
    (symbol : string) (g : graph) : option graph :=
  let cwa := chains_with_asset inv symbol in
  for_each (seq 0 (length cwa))
    (λ i, for_each (seq (i + 1) (length cwa - (i + 1))) (link cwa ni symbol i)) g.

(** [_build_bridge_edges] *)
Definition _build_bridge_edges (inv : inventory) (ni : node_indices) (g : graph)
    : option graph :=
  for_each BRIDGE_ASSETS (build_edges_for_symbol inv ni) g.

(** Step C of [initialize]: nodes, then bridge edges, on a fresh graph. *)
Definition build_graph (inv : inventory) : option graph :=
  let '(g, ni) := _build_graph_nodes inv (empty_graph, ∅) in
  _build_bridge_edges inv ni g.

(** The symbol carried by the node an index refers to. *)
Definition symbol_at (g : graph) (idx : nat) : option string :=
  n_symbol <$> nodes g !! idx.

Definition chain_at (g : graph) (idx : nat) : option Z :=
  n_chain <$> nodes g !! idx.

(** The directed edges of [g] between two nodes of [symbol]. *)
Definition edges_of_symbol (g : graph) (symbol : string)
    : list (nat * nat * edge_data) :=
  filter (λ e, symbol_at g e.1.1 = Some symbol ∧ symbol_at g e.1.2 = Some symbol)
         (edges g).

End OmniBrain.

(** ** Python floats

  A Python [float] is an IEEE 754 binary64 number; [spec_float] with
  precision 53 and maximal exponent 1024 is its specification, and the
  operations below are the correctly rounded ones (round to nearest,
  ties to even). *)
Module PyFloat.

Definition prec : Z := 53.
Definition emax : Z := 1024.

(** [float(n)] for an [int]: the nearest double; [OverflowError]
    ([None]) when [n] is out of range. *)
Definition of_int (n : Z) : option spec_float :=
  match binary_normalize prec emax n 0 false with
  | S754_infinity _ => None
  | f => Some f
  end.

Definition mul (x y : spec_float) : spec_float := SFmul prec emax x y.

(** [int(x)]: truncation towards zero; raises on infinities and NaN. *)
Definition to_int (x : spec_float) : option Z :=
  match x with
  | S754_zero _ => Some 0
  | S754_finite s m e =>
    let a := if 0 <=? e then Z.pos m * 2 ^ e else Z.pos m / 2 ^ (- e) in
    Some (if s then - a else a)
  | S754_infinity _ | S754_nan => None
  end.

(** [int * float]: the integer is converted first. *)
Definition int_mul (n : Z) (y : spec_float) : option spec_float :=
  x ← of_int n; Some (mul x y).

(** The literal [0.20]: the double nearest to one fifth,
    [0x1.999999999999ap-3]. *)
Definition lit_0_20 : spec_float := S754_finite false 7205759403792794 (-55).

(** The literal [0.85], [0x1.b333333333333p-1], and the literal [0.0]. *)
Definition lit_0_85 : spec_float := S754_finite false 7656119366529843 (-53).
Definition lit_0_0 : spec_float := S754_zero false.

(** [x >= y] on floats: false as soon as one side is NaN. *)
Definition ge (x y : spec_float) : bool :=
  match SFcompare x y with
  | Some Gt | Some Eq => true
  | _ => false
  end.

(** Comparison of a float with an [int]: Python compares the exact
    values.  [None] when the float is NaN. *)
Definition cmp_int (x : spec_float) (n : Z) : option comparison :=
  match x with
  | S754_nan => None
  | S754_infinity s => Some (if s then Lt else Gt)
  | S754_zero _ => Some (0 ?= n)
  | S754_finite s m e =>
    let v := if s then Z.neg m else Z.pos m in
    Some (if 0 <=? e then v * 2 ^ e ?= n else v ?= n * 2 ^ (- e))
  end.

(** [float(d)] for the decimal [(-1)^s * c * 10^e]: the nearest
    double (an infinity when out of range). *)
Definition of_decimal_parts (s : bool) (c : N) (e : Z) : spec_float :=
  match c with
  | N0 => S754_zero s
  | Npos p =>
    if 0 <=? e then binary_round prec emax s (Z.to_pos (Z.pos p * 10 ^ e)) 0
    else
      let '(q, e', l) := SFdiv_core_binary prec emax (Z.pos p) 0 (10 ^ (- e)) 0 in
      binary_round_aux prec emax s q e' l
  end.

End PyFloat.

(** ** core/titan_commander_core.py *)
Module TitanCommander.

(** What the call to [get_provider_tvl] does: it returns the pool's
    balance, or raises. *)
Inductive tvl_outcome :=
| TvlValue (pool_liquidity : Z)
| TvlRaises.

Definition MAX_TVL_SHARE : spec_float := PyFloat.lit_0_20.

(** [int(pool_liquidity * self.MAX_TVL_SHARE)] *)
Definition max_cap_of (pool_liquidity : Z) : option Z :=
  x ← PyFloat.int_mul pool_liquidity MAX_TVL_SHARE; PyFloat.to_int x.

Definition min_floor_of (decimals : N) : Z := 500 * 10 ^ Z.of_N decimals.

(** [optimize_loan_size].  [None] is an exception leaving the method
    (the conversion of an out-of-range balance to [float]). *)
Definition optimize_loan_size (tvl : tvl_outcome) (target_amount_raw : Z)
    (decimals : N) : option Z :=
  match tvl with
  | TvlRaises => Some 0
  | TvlValue pool_liquidity =>
    if pool_liquidity =? 0 then Some 0
    else
      max_cap ← max_cap_of pool_liquidity;
      let requested_amount := target_amount_raw in
      let requested_amount :=
        if requested_amount >? max_cap then max_cap else requested_amount in
      let min_floor := min_floor_of decimals in
      if requested_amount <? min_floor then Some 0
      else Some requested_amount
  end.

End TitanCommander.

(** ** Python's [decimal.Decimal]

  Finite decimals [(-1)^sign * coefficient * 10^exponent] and the
  arithmetic of the default context, which both modules that use
  [Decimal] run under ([getcontext().prec = 28] in ml/brain.py, the
  default precision 28 in core/execution_modes.py): every operation
  computes the exact result and then rounds it to 28 significant
  digits, ties to even ([Decimal._fix]). *)
Module PyDecimal.

Record decimal := { d_sign : bool; d_coef : N; d_exp : Z }.

#[global] Instance decimal_eq_dec : EqDecision decimal.
Proof. solve_decision. Defined.

(** The context: [prec], [Emax], [Emin], and the derived [Etiny],
    [Etop]. *)
Definition prec : Z := 28.
Definition Emax : Z := 999999.
Definition Emin : Z := -999999.
Definition Etiny : Z := Emin - prec + 1.
Definition Etop : Z := Emax - prec + 1.

(** [len(self._int)]: the number of digits of the coefficient. *)
Definition ndigits (n : N) : Z :=
  Z.of_nat (Decimal.nb_digits (N.to_uint n)).

Definition signed (d : decimal) : Z :=
  if d_sign d then - Z.of_N (d_coef d) else Z.of_N (d_coef d).

(** [Decimal(n)] for an [int]: exact. *)
Definition of_int (n : Z) : decimal :=
  {| d_sign := n <? 0; d_coef := Z.abs_N n; d_exp := 0 |}.

(** [Decimal._fix] with rounding ROUND_HALF_EVEN and [clamp = 0].
    [None] is the trapped [Overflow] signal (an exception). *)
Definition _fix (d : decimal) : option decimal :=
  if (d_coef d =? 0)%N then
    Some {| d_sign := d_sign d; d_coef := 0;
            d_exp := Z.min (Z.max (d_exp d) Etiny) Emax |}
  else
    let exp_min := ndigits (d_coef d) + d_exp d - prec in
    if exp_min >? Etop then None
    else
      let exp_min := Z.max exp_min Etiny in
      if d_exp d <? exp_min then
        let p := 10 ^ (exp_min - d_exp d) in
        let q := Z.of_N (d_coef d) / p in
        let r := Z.of_N (d_coef d) mod p in
        let up := (2 * r >? p) || ((2 * r =? p) && Z.odd q) in
        let q := if up then q + 1 else q in
        let '(coeff, exp_min) :=
          if ndigits (Z.to_N q) >? prec then (q / 10, exp_min + 1)
          else (q, exp_min) in
        if exp_min >? Etop then None
        else Some {| d_sign := d_sign d; d_coef := Z.to_N coeff; d_exp := exp_min |}
      else Some d.

(** The exact sum, on the smaller exponent; a zero sum is negative
    only when both operands are. *)
Definition add_exact (a b : decimal) : decimal :=
  let e := Z.min (d_exp a) (d_exp b) in
  let s := signed a * 10 ^ (d_exp a - e) + signed b * 10 ^ (d_exp b - e) in
  {| d_sign := if s =? 0 then d_sign a && d_sign b else s <? 0;
     d_coef := Z.abs_N s; d_exp := e |}.

Definition mul_exact (a b : decimal) : decimal :=
  {| d_sign := xorb (d_sign a) (d_sign b);
     d_coef := d_coef a * d_coef b; d_exp := d_exp a + d_exp b |}.

(** [copy_negate] *)
Definition neg (d : decimal) : decimal :=
  {| d_sign := negb (d_sign d); d_coef := d_coef d; d_exp := d_exp d |}.

Definition sub_exact (a b : decimal) : decimal := add_exact a (neg b).

(** [__add__], [__sub__], [__mul__] *)
Definition add (a b : decimal) : option decimal := _fix (add_exact a b).
Definition sub (a b : decimal) : option decimal := _fix (sub_exact a b).
Definition mul (a b : decimal) : option decimal := _fix (mul_exact a b).

(** [_cmp]: exact comparison of the values. *)
Definition cmp (a b : decimal) : comparison :=
  let e := Z.min (d_exp a) (d_exp b) in
  (signed a * 10 ^ (d_exp a - e)) ?= (signed b * 10 ^ (d_exp b - e)).

Definition lt (a b : decimal) : bool :=
  match cmp a b with Lt => true | _ => false end.
Definition gt (a b : decimal) : bool :=
  match cmp a b with Gt => true | _ => false end.

(** The rational number a decimal denotes. *)
Definition value (d : decimal) : Q :=
  (inject_Z (signed d) * Qpower (10 # 1) (d_exp d))%Q.

(** No rounding is needed: at most [prec] digits, exponent in range. *)
Definition fits (d : decimal) : Prop :=
  ndigits (d_coef d) <= prec ∧ Etiny <= d_exp d ∧ d_exp d <= Etop.

(** *** Conversion to and from text *)

Fixpoint zeros (n : nat) : string :=
  match n with O => "" | S n' => String "0" (zeros n') end.

(** ["%+d" % n] *)
Definition signed_str (n : Z) : string :=
  if n <? 0 then pretty n else "+" +:+ pretty n.

(** [Decimal.__str__] (scientific string, [capitals = 1]). *)
Definition to_str (d : decimal) : string :=
  let sign := if d_sign d then "-" else "" in
  let int_ := pretty (d_coef d) in
  let len := Z.of_nat (String.length int_) in
  let leftdigits := d_exp d + len in
  let dotplace :=
    if (d_exp d <=? 0) && (leftdigits >? -6) then leftdigits else 1 in
  let '(intpart, fracpart) :=
    if dotplace <=? 0 then
      ("0", "." +:+ zeros (Z.to_nat (- dotplace)) +:+ int_)
    else if dotplace >=? len then
      (int_ +:+ zeros (Z.to_nat (dotplace - len)), "")
    else
      (String.substring 0 (Z.to_nat dotplace) int_,
       "." +:+ String.substring (Z.to_nat dotplace) (Z.to_nat (len - dotplace)) int_) in
  let exp := if leftdigits =? dotplace then ""
             else "E" +:+ signed_str (leftdigits - dotplace) in
  sign +:+ intpart +:+ fracpart +:+ exp.

Definition digit_of (c : ascii) : option N :=
  let n := N_of_ascii c in
  if ((48 <=? n) && (n <=? 57))%N then Some (n - 48)%N else None.

(** The longest prefix of digits: its value, its length, the rest. *)
Fixpoint take_digits (s : list ascii) (acc : N) (len : nat) : N * nat * list ascii :=
  match s with
  | c :: s' =>
    match digit_of c with
    | Some k => take_digits s' (10 * acc + k)%N (S len)
    | None => (acc, len, s)
    end
  | [] => (acc, len, s)
  end.

Definition take_sign (s : list ascii) : bool * list ascii :=
  match s with
  | "-"%char :: s' => (true, s')
  | "+"%char :: s' => (false, s')
  | _ => (false, s)
  end.

(** [Decimal(text)] for a finite numeral
    [[sign] digits [. digits] [E [sign] digits]]; anything else is
    rejected ([None], the trapped [InvalidOperation]).  Surrounding
    blanks, underscores and the special values are not part of this
    grammar. *)
Definition of_string (text : string) : option decimal :=
  let '(sign, s) := take_sign (list_ascii_of_string text) in
  let '(ip, ilen, s) := take_digits s 0 0 in
  let '(coef, ilen, flen, s) :=
    match s with
    | "."%char :: s' =>
      let '(c, l, s'') := take_digits s' ip 0 in (c, ilen, l, s'')
    | _ => (ip, ilen, O, s)
    end in
  if ((ilen + flen)%nat =? 0)%nat then None
  else
    match s with
    | [] => Some {| d_sign := sign; d_coef := coef; d_exp := - Z.of_nat flen |}
    | c :: s' =>
      if bool_decide (c = "e"%char ∨ c = "E"%char) then
        let '(esign, s'') := take_sign s' in
        match take_digits s'' 0 0 with
        | (_, O, _) => None
        | (e, _, []) =>
          Some {| d_sign := sign; d_coef := coef;
                  d_exp := (if esign then - Z.of_N e else Z.of_N e) - Z.of_nat flen |}
        | _ => None
        end
      else None
    end.

End PyDecimal.

(** ** ml/brain.py: the profit equation *)
Module ProfitEngine.
Import PyDecimal.

(** [ProfitEngine.__init__]: the flash-loan fee rate. *)
Record profit_engine := { flash_fee : decimal }.

(** [Decimal("0.0")], the default rate. *)
Definition default_flash_fee : decimal :=
  {| d_sign := false; d_coef := 0; d_exp := -1 |}.

Record profit := {
  net_profit : decimal;
  gross_spread : decimal;
  total_fees : decimal;
  is_profitable : bool
}.

(** [calculate_enhanced_profit]; [None] when an operation raises. *)
Definition calculate_enhanced_profit (self : profit_engine)
    (amount amount_out bridge_fee_usd gas_cost_usd : decimal) : option profit :=
  let gross_revenue_usd := amount_out in
  let loan_cost_usd := amount in
  flash_fee_cost ← mul amount (flash_fee self);
  fees ← add bridge_fee_usd gas_cost_usd;
  total_operational_costs ← add fees flash_fee_cost;
  spread ← sub gross_revenue_usd loan_cost_usd;
  net_profit ← sub spread total_operational_costs;
  gross_spread ← sub gross_revenue_usd loan_cost_usd;
  Some {| net_profit := net_profit;
          gross_spread := gross_spread;
          total_fees := total_operational_costs;
          is_profitable := gt net_profit (of_int 0) |}.

End ProfitEngine.

(** ** Python values and exceptions *)
Module Py.
Import PyDecimal.

(** The values a trade signal or an execution result carries.  A
    [float] comes with its [repr], the text [str] gives for it; string
    values are taken free of quotes and escapes. *)
#[warnings="-register-all"]
Inductive pyval :=
| VInt (z : Z)
| VFloat (bits : spec_float) (repr : string)
| VStr (s : string)
| VList (l : list pyval).

Fixpoint py_repr (v : pyval) : string :=
  match v with
  | VInt z => pretty z
  | VFloat _ r => r
  | VStr s => "'" +:+ s +:+ "'"
  | VList l =>
    "[" +:+ (fix items (l : list pyval) : string :=
               match l with
               | [] => ""
               | [x] => py_repr x
               | x :: l' => py_repr x +:+ ", " +:+ items l'
               end) l +:+ "]"
  end.

(** [str(v)] *)
Definition py_str (v : pyval) : string :=
  match v with
  | VStr s => s
  | _ => py_repr v
  end.

(** A dictionary with string keys: a trade signal, an execution
    result. *)
Abbreviation dict := (gmap string pyval).

Inductive exn :=
| KeyError (key : string)
| TypeError
| ValueError
| InvalidOperation
| Overflow.

Inductive outcome (A : Type) :=
| Return (a : A)
| Raise (e : exn).
Arguments Return {A} a.
Arguments Raise {A} e.

Definition trapped {A} (e : exn) (o : option A) : outcome A :=
  match o with Some a => Return a | None => Raise e end.

(** [Decimal(str(v))] *)
Definition decimal_of (v : pyval) : outcome decimal :=
  trapped InvalidOperation (of_string (py_str v)).

(** [v > n] for an [int] [n]. *)
Definition gt_int (v : pyval) (n : Z) : outcome bool :=
  match v with
  | VInt z => Return (z >? n)
  | VFloat x _ =>
    Return (match PyFloat.cmp_int x n with Some Gt => true | _ => false end)
  | VStr _ | VList _ => Raise TypeError
  end.

(** [v >= t] for a [float] [t]. *)
Definition ge_float (v : pyval) (t : spec_float) : outcome bool :=
  match v with
  | VInt z =>
    Return (match PyFloat.cmp_int t z with Some Lt | Some Eq => true | _ => false end)
  | VFloat x _ => Return (PyFloat.ge x t)
  | VStr _ | VList _ => Raise TypeError
  end.

(** [f"{v:.2f}"] is defined on numbers only; the text itself is only
    logged. *)
Definition format_2f (v : pyval) : outcome unit :=
  match v with
  | VInt _ | VFloat _ _ => Return tt
  | VStr _ => Raise ValueError
  | VList _ => Raise TypeError
  end.

(** [v == text] *)
Definition eq_str (v : option pyval) (text : string) : bool :=
  match v with
  | Some (VStr s) => String.eqb s text
  | _ => false
  end.

End Py.

(** ** core/execution_modes.py *)
Module ExecutionModes.
Import PyDecimal Py.

Inductive TradeStatus :=
| PENDING | SIMULATED | SUBMITTED | CONFIRMED | FAILED | REVERTED.

#[global] Instance TradeStatus_eq_dec : EqDecision TradeStatus.
Proof. solve_decision. Defined.

(** The dictionary an [execute_trade] returns; entries a variant does
    not set are [None]. *)
Record trade_result := {
  trade_id : string;
  status : TradeStatus;
  error : option string;
  is_paper : bool;
  timestamp : option string;
  expected_profit : option pyval;
  message : option string;
  net_profit : option spec_float;
  capital : option spec_float;
  tx_hash : option string
}.

(** The Redis server behind a client: reachable or not (then every
    command raises, with the given text), the set [pending_txs], the
    messages published on [trade_signals], and the lists the executors
    push to (newest first). *)
Record redis_server := {
  down : option string;
  pending_txs : gset string;
  trade_signals : list dict;
  live_trades : list dict;
  paper_trades : list dict;
  paper_capital : option string
}.

Definition sadd_pending (rs : redis_server) (id : string) : redis_server :=
  {| down := down rs; pending_txs := {[id]} ∪ pending_txs rs;
     trade_signals := trade_signals rs; live_trades := live_trades rs;
     paper_trades := paper_trades rs; paper_capital := paper_capital rs |}.

Definition srem_pending (rs : redis_server) (id : string) : redis_server :=
  {| down := down rs; pending_txs := pending_txs rs ∖ {[id]};
     trade_signals := trade_signals rs; live_trades := live_trades rs;
     paper_trades := paper_trades rs; paper_capital := paper_capital rs |}.

Definition publish_signal (rs : redis_server) (msg : dict) : redis_server :=
  {| down := down rs; pending_txs := pending_txs rs;
     trade_signals := trade_signals rs ++ [msg]; live_trades := live_trades rs;
     paper_trades := paper_trades rs; paper_capital := paper_capital rs |}.

Definition lpush_live (rs : redis_server) (r : dict) : redis_server :=
  {| down := down rs; pending_txs := pending_txs rs;
     trade_signals := trade_signals rs; live_trades := r :: live_trades rs;
     paper_trades := paper_trades rs; paper_capital := paper_capital rs |}.

Definition store_paper (rs : redis_server) (r : dict) (cap : string) : redis_server :=
  {| down := down rs; pending_txs := pending_txs rs;
     trade_signals := trade_signals rs; live_trades := live_trades rs;
     paper_trades := r :: paper_trades rs; paper_capital := Some cap |}.

(** [trade_signal.get(key, default)] *)
Definition get (d : dict) (key : string) (dflt : pyval) : pyval :=
  default dflt (d !! key).

(** *** PaperTradingSimulator *)
Module PaperTradingSimulator.

Record simulator := {
  initial_capital : decimal;
  current_capital : decimal;
  total_trades : Z;
  successful_trades : Z;
  total_profit : decimal;
  trade_history : list dict;
  redis_client : bool;   (* [self.redis_client is not None] *)
  redis_enabled : bool
}.

Definition with_trades (self : simulator) (n : Z) : simulator :=
  {| initial_capital := initial_capital self; current_capital := current_capital self;
     total_trades := n; successful_trades := successful_trades self;
     total_profit := total_profit self; trade_history := trade_history self;
     redis_client := redis_client self; redis_enabled := redis_enabled self |}.

Definition with_capital (self : simulator) (c : decimal) : simulator :=
  {| initial_capital := initial_capital self; current_capital := c;
     total_trades := total_trades self; successful_trades := successful_trades self;
     total_profit := total_profit self; trade_history := trade_history self;
     redis_client := redis_client self; redis_enabled := redis_enabled self |}.

Definition with_profit (self : simulator) (p : decimal) : simulator :=
  {| initial_capital := initial_capital self; current_capital := current_capital self;
     total_trades := total_trades self; successful_trades := successful_trades self;
     total_profit := p; trade_history := trade_history self;
     redis_client := redis_client self; redis_enabled := redis_enabled self |}.

Definition with_success (self : simulator) (n : Z) : simulator :=
  {| initial_capital := initial_capital self; current_capital := current_capital self;
     total_trades := total_trades self; successful_trades := n;
     total_profit := total_profit self; trade_history := trade_history self;
     redis_client := redis_client self; redis_enabled := redis_enabled self |}.

Definition with_history (self : simulator) (h : list dict) : simulator :=
  {| initial_capital := initial_capital self; current_capital := current_capital self;
     total_trades := total_trades self; successful_trades := successful_trades self;
     total_profit := total_profit self; trade_history := h;
     redis_client := redis_client self; redis_enabled := redis_enabled self |}.

(** The simulator [__init__] builds with the default capital:
    [Decimal(str(100000.0))] is [Decimal("100000.0")]. *)
Definition fresh (redis_ok : bool) : simulator :=
  {| initial_capital := {| d_sign := false; d_coef := 1000000; d_exp := -1 |};
     current_capital := {| d_sign := false; d_coef := 1000000; d_exp := -1 |};
     total_trades := 0; successful_trades := 0; total_profit := of_int 0;
     trade_history := []; redis_client := redis_ok; redis_enabled := redis_ok |}.

(** [Decimal("0.998")] and the default [5.0] of [gas_cost]. *)
Definition slippage_factor : decimal := {| d_sign := false; d_coef := 998; d_exp := -3 |}.
Definition default_gas_cost : pyval :=
  VFloat (S754_finite false 5629499534213120 (-50)) "5.0".

(** The part of [execute_trade] between the increment of the counter
    and the first update of the capital: the trade id, the log lines
    that read the signal, and the simulated profit. *)
Definition simulate (self : simulator) (trade_signal : dict)
    : outcome (string * pyval * pyval * pyval * decimal * decimal * decimal * decimal) :=
  match trade_signal !! "chainId" with
  | None => Raise (KeyError "chainId")
  | Some chain =>
    let trade_id := "PAPER_" +:+ py_str chain +:+ "_" +:+ pretty (total_trades self) in
    match trade_signal !! "token" with
    | None => Raise (KeyError "token")
    | Some token =>
      match trade_signal !! "amount" with
      | None => Raise (KeyError "amount")
      | Some amount =>
        match format_2f (get trade_signal "expected_profit" (VInt 0)) with
        | Raise e => Raise e
        | Return _ =>
          match decimal_of (get trade_signal "expected_profit" (VInt 0)) with
          | Raise e => Raise e
          | Return expected =>
            match trapped Overflow (mul expected slippage_factor) with
            | Raise e => Raise e
            | Return actual =>
              match decimal_of (get trade_signal "gas_cost" default_gas_cost) with
              | Raise e => Raise e
              | Return gas_cost =>
                match trapped Overflow (sub actual gas_cost) with
                | Raise e => Raise e
                | Return net =>
                  Return (trade_id, chain, token, amount, expected, actual, gas_cost, net)
                end
              end
            end
          end
        end
      end
    end
  end.

(** [execute_trade]; [now] is [datetime.now().isoformat()]. *)
Definition execute_trade (now : string) (self : simulator) (rs : redis_server)
    (trade_signal : dict) : outcome trade_result * simulator * redis_server :=
  let self := with_trades self (total_trades self + 1) in
  match simulate self trade_signal with
  | Raise e => (Raise e, self, rs)
  | Return (trade_id, chain, token, amount, expected, actual, gas_cost, net) =>
    match add (current_capital self) net with
    | None => (Raise Overflow, self, rs)
    | Some cap =>
      let self := with_capital self cap in
      match add (total_profit self) net with
      | None => (Raise Overflow, self, rs)
      | Some tp =>
        let self := with_profit self tp in
        let won := gt net (of_int 0) in
        let self :=
          if won then with_success self (successful_trades self + 1) else self in
        let trade_record : dict :=
          list_to_map
            [("trade_id", VStr trade_id); ("timestamp", VStr now);
             ("mode", VStr "PAPER"); ("chain_id", chain); ("token", token);
             ("amount", VStr (py_str amount));
             ("expected_profit", VStr (to_str expected));
             ("actual_profit", VStr (to_str actual));
             ("gas_cost", VStr (to_str gas_cost));
             ("net_profit", VStr (to_str net));
             ("status", VStr (if won then "SUCCESS" else "LOSS"));
             ("capital_after", VStr (to_str cap))] in
        let self := with_history self (trade_history self ++ [trade_record]) in
        let rs :=
          if redis_enabled self && redis_client self then
            match down rs with
            | None => store_paper rs trade_record (to_str cap)
            | Some _ => rs
            end
          else rs in
        (Return {| trade_id := trade_id; status := SIMULATED; error := None;
                   is_paper := true; timestamp := None; expected_profit := None;
                   message := None;
                   net_profit := Some (PyFloat.of_decimal_parts (d_sign net) (d_coef net) (d_exp net));
                   capital := Some (PyFloat.of_decimal_parts (d_sign cap) (d_coef cap) (d_exp cap));
                   tx_hash := Some ("SIMULATED_" +:+ trade_id) |},
         self, rs)
      end
    end
  end.

End PaperTradingSimulator.

(** *** LiveMainnetExecutor *)
Module LiveMainnetExecutor.

Record executor := {
  total_trades : Z;
  successful_trades : Z;
  total_volume_usd : decimal;
  total_profit : decimal;
  trade_history : list dict;
  redis_client : bool;   (* [self.redis_client is not None] *)
  redis_enabled : bool;
  min_profit_usd : decimal;
  max_slippage_bps : Z;
  max_concurrent_txs : Z
}.

Definition with_trades (self : executor) (n : Z) : executor :=
  {| total_trades := n; successful_trades := successful_trades self;
     total_volume_usd := total_volume_usd self; total_profit := total_profit self;
     trade_history := trade_history self; redis_client := redis_client self;
     redis_enabled := redis_enabled self; min_profit_usd := min_profit_usd self;
     max_slippage_bps := max_slippage_bps self;
     max_concurrent_txs := max_concurrent_txs self |}.

Definition with_success (self : executor) (n : Z) : executor :=
  {| total_trades := total_trades self; successful_trades := n;
     total_volume_usd := total_volume_usd self; total_profit := total_profit self;
     trade_history := trade_history self; redis_client := redis_client self;
     redis_enabled := redis_enabled self; min_profit_usd := min_profit_usd self;
     max_slippage_bps := max_slippage_bps self;
     max_concurrent_txs := max_concurrent_txs self |}.

Definition with_profit (self : executor) (p : decimal) : executor :=
  {| total_trades := total_trades self; successful_trades := successful_trades self;
     total_volume_usd := total_volume_usd self; total_profit := p;
     trade_history := trade_history self; redis_client := redis_client self;
     redis_enabled := redis_enabled self; min_profit_usd := min_profit_usd self;
     max_slippage_bps := max_slippage_bps self;
     max_concurrent_txs := max_concurrent_txs self |}.

Definition with_history (self : executor) (h : list dict) : executor :=
  {| total_trades := total_trades self; successful_trades := successful_trades self;
     total_volume_usd := total_volume_usd self; total_profit := total_profit self;
     trade_history := h; redis_client := redis_client self;
     redis_enabled := redis_enabled self; min_profit_usd := min_profit_usd self;
     max_slippage_bps := max_slippage_bps self;
     max_concurrent_txs := max_concurrent_txs self |}.

(** The executor [__init__] builds when the three limits are not set in
    the environment: [Decimal("5.0")], 50 and 3. *)
Definition fresh (redis_ok : bool) : executor :=
  {| total_trades := 0; successful_trades := 0;
     total_volume_usd := of_int 0; total_profit := of_int 0;
     trade_history := []; redis_client := redis_ok; redis_enabled := redis_ok;
     min_profit_usd := {| d_sign := false; d_coef := 50; d_exp := -1 |};
     max_slippage_bps := 50; max_concurrent_txs := 3 |}.

Definition required_fields : list string :=
  ["chainId"; "token"; "amount"; "protocols"; "routers"; "path"].

(** [not os.getenv(key) or os.getenv(key) == placeholder] *)
Definition unset_or (env : gmap string string) (key placeholder : string) : bool :=
  match env !! key with
  | None => true
  | Some v => negb (PyStr.truthy v) || String.eqb v placeholder
  end.

(** [pre_execution_checks] *)
Definition pre_execution_checks (env : gmap string string) (self : executor)
    (rs : redis_server) (trade_signal : dict) : outcome (bool * string) :=
  (* Check 1: minimum profit threshold *)
  match decimal_of (get trade_signal "expected_profit" (VInt 0)) with
  | Raise e => Raise e
  | Return expected_profit =>
    if lt expected_profit (min_profit_usd self) then
      Return (false, "Profit $" +:+ to_str expected_profit +:+
                     " below minimum $" +:+ to_str (min_profit_usd self))
    else
      (* Check 2: slippage tolerance *)
      let slippage_bps := get trade_signal "estimated_slippage_bps" (VInt 0) in
      match gt_int slippage_bps (max_slippage_bps self) with
      | Raise e => Raise e
      | Return true =>
        Return (false, "Slippage " +:+ py_str slippage_bps +:+ " BPS exceeds max " +:+
                       pretty (max_slippage_bps self) +:+ " BPS")
      | Return false =>
        (* Check 3: concurrent transaction limit; skipped when the
           counter cannot be read *)
        if redis_enabled self && redis_client self
           && bool_decide (down rs = None)
           && (Z.of_nat (size (pending_txs rs)) >=? max_concurrent_txs self)
        then
          Return (false, "Max concurrent txs (" +:+ pretty (max_concurrent_txs self) +:+
                         ") reached")
        else
          (* Check 4: required fields *)
          let missing :=
            filter (λ f, trade_signal !! f = None) required_fields in
          if negb (bool_decide (missing = [])) then
            Return (false, "Missing required fields: " +:+ py_repr (VList (VStr <$> missing)))
          else if unset_or env "PRIVATE_KEY" "0xYOUR_REAL_PRIVATE_KEY_HERE" then
            Return (false, "PRIVATE_KEY not configured in .env")
          else if unset_or env "EXECUTOR_ADDRESS" "0xYOUR_DEPLOYED_CONTRACT_ADDRESS_HERE" then
            Return (false, "EXECUTOR_ADDRESS not configured - contract not deployed")
          else Return (true, "All checks passed")
      end
  end.

Definition failed_result (id reason : string) : trade_result :=
  {| trade_id := id; status := FAILED; error := Some reason; is_paper := false;
     timestamp := None; expected_profit := None; message := None;
     net_profit := None; capital := None; tx_hash := None |}.

(** [execute_trade]; [now] is [datetime.now().isoformat()].  The three
    entries written into the caller's dictionary are those of the
    published message. *)
Definition execute_trade (env : gmap string string) (now : string) (self : executor)
    (rs : redis_server) (trade_signal : dict)
    : outcome trade_result * executor * redis_server :=
  let self := with_trades self (total_trades self + 1) in
  match trade_signal !! "chainId" with
  | None => (Raise (KeyError "chainId"), self, rs)
  | Some chain =>
    let trade_id := "LIVE_" +:+ py_str chain +:+ "_" +:+ pretty (total_trades self) in
    match pre_execution_checks env self rs trade_signal with
    | Raise e => (Raise e, self, rs)
    | Return (false, reason) => (Return (failed_result trade_id reason), self, rs)
    | Return (true, _) =>
      if negb (redis_enabled self) || negb (redis_client self) then
        (Return (failed_result trade_id
                   "Redis not available - cannot communicate with execution layer"),
         self, rs)
      else
        match down rs with
        | Some msg =>
          (Return (failed_result trade_id ("Redis publish failed: " +:+ msg)), self, rs)
        | None =>
          let rs := sadd_pending rs trade_id in
          let trade_signal :=
            <["mode" := VStr "LIVE"]>
              (<["timestamp" := VStr now]>
                 (<["trade_id" := VStr trade_id]> trade_signal)) in
          let rs := publish_signal rs trade_signal in
          match format_2f (get trade_signal "expected_profit" (VInt 0)) with
          | Raise e => (Raise e, self, rs)
          | Return _ =>
            (Return {| trade_id := trade_id; status := SUBMITTED; error := None;
                       is_paper := false; timestamp := Some now;
                       expected_profit := Some (get trade_signal "expected_profit" (VInt 0));
                       message := Some "Trade submitted to execution layer - awaiting confirmation";
                       net_profit := None; capital := None; tx_hash := None |},
             self, rs)
          end
        end
    end
  end.

(** Whether the executor can reach its Redis server. *)
Definition connected (self : executor) (rs : redis_server) : bool :=
  redis_enabled self && redis_client self && bool_decide (down rs = None).

(** The end of [record_execution_result]: the history and the Redis
    list. *)
Definition store_result (self : executor) (rs : redis_server) (result : dict)
    : outcome unit * executor * redis_server :=
  (Return tt,
   with_history self (trade_history self ++ [result]),
   if connected self rs then lpush_live rs result else rs).

(** [record_execution_result] *)
Definition record_execution_result (self : executor) (rs : redis_server)
    (trade_id : string) (result : dict) : outcome unit * executor * redis_server :=
  let rs := if connected self rs then srem_pending rs trade_id else rs in
  if eq_str (result !! "status") "SUCCESS" then
    let self := with_success self (successful_trades self + 1) in
    match decimal_of (get result "actual_profit" (VInt 0)) with
    | Raise e => (Raise e, self, rs)
    | Return profit =>
      match add (total_profit self) profit with
      | None => (Raise Overflow, self, rs)
      | Some tp => store_result (with_profit self tp) rs result
      end
    end
  else store_result self rs result.

End LiveMainnetExecutor.

(** *** HybridExecutionManager *)
Module HybridExecutionManager.

Record manager := {
  paper_simulator : PaperTradingSimulator.simulator;
  live_executor : LiveMainnetExecutor.executor;
  confidence_threshold : spec_float
}.

(** The manager [__init__] builds with the default threshold 0.85. *)
Definition fresh (redis_ok : bool) : manager :=
  {| paper_simulator := PaperTradingSimulator.fresh redis_ok;
     live_executor := LiveMainnetExecutor.fresh redis_ok;
     confidence_threshold := PyFloat.lit_0_85 |}.

(** What lies outside the manager: the environment and the two Redis
    databases (0 for the live executor, 1 for the simulator). *)
Record world := {
  env : gmap string string;
  live_db : redis_server;
  paper_db : redis_server
}.

Inductive route := ToLive | ToPaper.

(** The branch [execute_trade] takes; an exception when the confidence
    is not a number. *)
Definition routing (self : manager) (trade_signal : dict) : outcome route :=
  let confidence := get trade_signal "confidence_score" (VFloat PyFloat.lit_0_0 "0.0") in
  match ge_float confidence (confidence_threshold self) with
  | Raise e => Raise e
  | Return true => Return ToLive
  | Return false => Return ToPaper
  end.

(** [execute_trade] *)
Definition execute_trade (now : string) (self : manager) (w : world)
    (trade_signal : dict) : outcome trade_result * manager * world :=
  match routing self trade_signal with
  | Raise e => (Raise e, self, w)
  | Return ToLive =>
    let '(r, live, db) :=
      LiveMainnetExecutor.execute_trade (env w) now (live_executor self) (live_db w) trade_signal in
    (r, {| paper_simulator := paper_simulator self; live_executor := live;
           confidence_threshold := confidence_threshold self |},
     {| env := env w; live_db := db; paper_db := paper_db w |})
  | Return ToPaper =>
    let '(r, paper, db) :=
      PaperTradingSimulator.execute_trade now (paper_simulator self) (paper_db w) trade_signal in
    (r, {| paper_simulator := paper; live_executor := live_executor self;
           confidence_threshold := confidence_threshold self |},
     {| env := env w; live_db := live_db w; paper_db := db |})
  end.

End HybridExecutionManager.

End ExecutionModes.

(** * Further source functions *)

(** ** execution/execution_client.py: the client and the rest of the
    manager *)
Module ExecutionClient.
Import ExecutionManager.

(** The dataclass [TradeSignal], with the types of its annotations. *)
Record TradeSignal := {
  chainId : Z;
  token : string;
  amount : string;
  flashSource : Z;
  protocols : list Z;
  routers : list string;
  path : list string;
  extras : list (list Byte.byte);
  expected_profit : spec_float;
  gas_estimate : Z
}.

(** Whether [json.dumps(signal.to_dict())] succeeds: integers, texts,
    floats and lists of them are serialisable, a [bytes] object is not. *)
Definition json_serializable (signal : TradeSignal) : bool :=
  match extras signal with
  | [] => true
  | _ :: _ => false
  end.

(** What the HTTP exchange of one request does. *)
Inductive http_answer (A : Type) :=
| Answered (status : Z) (body : A)
| TimedOut
| Failed (msg : string).
Arguments Answered {A} status body.
Arguments TimedOut {A}.
Arguments Failed {A} msg.

Definition failed_with (msg : string) : exec_result :=
  {| success := false; mode := None; txHash := None; error := Some msg |}.

(** [ExecutionClient.execute_signal]: the result, and whether a request
    was posted.  The signal is serialised for the debug line before the
    session is opened; every exception becomes a non-success result. *)
Definition execute_signal (signal : TradeSignal) (http : http_answer exec_result)
    : exec_result * bool :=
  if json_serializable signal then
    match http with
    | Answered _ result => (result, true)
    | TimedOut => (failed_with "Timeout", true)
    | Failed msg => (failed_with msg, true)
    end
  else (failed_with "Object of type bytes is not JSON serializable", false).

(** The answers of the server as [submit_trade] sees them through the
    client. *)
Definition through_client (signal : TradeSignal) (https : Z → http_answer exec_result)
    : server :=
  λ attempt, Returned (execute_signal signal (https attempt)).1.

(** The body of [GET /health]. *)
Record health := {
  h_status : option string;
  h_mode : option string;
  h_chains : option Z
}.

(** [ExecutionClient.health_check] *)
Definition health_check (http : http_answer health) : health :=
  match http with
  | Answered status data =>
    if status =? 200 then data
    else {| h_status := Some "unhealthy"; h_mode := None; h_chains := None |}
  | TimedOut | Failed _ =>
    {| h_status := Some "error"; h_mode := None; h_chains := None |}
  end.

(** The manager: its mode, its retry bound and its counters. *)
Record manager := {
  m_mode : string;
  m_max_retries : Z;
  m_stats : stats_t
}.

(** [ExecutionManager.initialize] *)
Definition initialize (self : manager) (http : http_answer health) : bool * manager :=
  let health := health_check http in
  if bool_decide (h_status health = Some "healthy") then
    let server_mode := default "UNKNOWN" (h_mode health) in
    (true,
     if bool_decide (server_mode ≠ m_mode self) then
       {| m_mode := server_mode; m_max_retries := m_max_retries self;
          m_stats := m_stats self |}
     else self)
  else (false, self).






End ExecutionClient.

(** ** core/config.py: the chain table *)
Module Config.

(** The entries of a chain's configuration that the functions below
    read. *)
Record chain_config := { cfg_name : string; aave_pool : string }.

(** The items of [CHAINS], in the order of the source. *)
Definition CHAINS_items : list (Z * chain_config) :=
  [(1, {| cfg_name := "ethereum"; aave_pool := "0x87870Bca3F3fD6335C3F4ce8392D69350B4fA4E2" |});
   (137, {| cfg_name := "polygon"; aave_pool := "0x794a61358D6845594F94dc1DB02A252b5b4814aD" |});
   (42161, {| cfg_name := "arbitrum"; aave_pool := "0x794a61358D6845594F94dc1DB02A252b5b4814aD" |});
   (10, {| cfg_name := "optimism"; aave_pool := "0x794a61358D6845594F94dc1DB02A252b5b4814aD" |});
   (8453, {| cfg_name := "base"; aave_pool := "0xA238Dd80C259a72e81d7e4664a9801593F98d1c5" |});
   (56, {| cfg_name := "bsc"; aave_pool := "0x0000000000000000000000000000000000000000" |});
   (43114, {| cfg_name := "avalanche"; aave_pool := "0x794a61358D6845594F94dc1DB02A252b5b4814aD" |});
   (250, {| cfg_name := "fantom"; aave_pool := "0x0000000000000000000000000000000000000000" |});
   (59144, {| cfg_name := "linea"; aave_pool := "0x0000000000000000000000000000000000000000" |});
   (534352, {| cfg_name := "scroll"; aave_pool := "0x0000000000000000000000000000000000000000" |});
   (5000, {| cfg_name := "mantle"; aave_pool := "0x0000000000000000000000000000000000000000" |});
   (324, {| cfg_name := "zksync"; aave_pool := "0x0000000000000000000000000000000000000000" |});
   (81457, {| cfg_name := "blast"; aave_pool := "0x0000000000000000000000000000000000000000" |});
   (42220, {| cfg_name := "celo"; aave_pool := "0x0000000000000000000000000000000000000000" |});
   (204, {| cfg_name := "opbnb"; aave_pool := "0x0000000000000000000000000000000000000000" |})].

Definition CHAINS : gmap Z chain_config := list_to_map CHAINS_items.

Definition BALANCER_V3_VAULT : string := "0xbA1333333333a1BA1108E8412f11850A5C319bA9".

End Config.

(** ** core/token_discovery.py: [TokenDiscovery.fetch_all_chains] *)
Module TokenDiscovery.
Import OmniBrain.

(** [d[k] = v] on a dictionary kept as its list of items: an existing
    key keeps its place, a new key goes to the end. *)
Fixpoint dict_set {V : Type} (d : list (Z * V)) (k : Z) (v : V) : list (Z * V) :=
  match d with
  | [] => [(k, v)]
  | (k', v') :: rest =>
    if decide (k = k') then (k, v) :: rest else (k', v') :: dict_set rest k v
  end.

(** [fetch_all_chains], over the contents of [TOKEN_REGISTRY]. *)
Definition fetch_all_chains (TOKEN_REGISTRY : gmap Z (gmap string token_data))
    (chain_ids : list Z) : inventory :=
  foldl (λ inventory chain_id,
           match TOKEN_REGISTRY !! chain_id with
           | Some tokens => dict_set inventory chain_id tokens
           | None => dict_set inventory chain_id ∅
           end) [] chain_ids.

End TokenDiscovery.

(** ** core/titan_simulation_engine.py *)
Module TitanSimulationEngine.
Import ChainRegistry Config.

(** The node behind an RPC URL: what it answers to the connection probe,
    and what [balanceOf(holder)] on a token contract returns ([None]: the
    call raises). *)
Record rpc_node := {
  answers : probe;
  balanceOf : string → string → option Z
}.

Abbreviation web := (string → rpc_node).

Record engine := {
  chain_id : Z;
  chain_config_of : chain_config;
  w3 : rpc_node
}.

(** [TitanSimulationEngine.__init__]; [None] is an exception. *)
Definition init (env : environ) (net : web) (chain_id : Z) : option engine :=
  match CHAINS !! chain_id with
  | None => None
  | Some config =>
    match get_rpc_url env chain_id with
    | None => None
    | Some rpc_url =>
      if negb (PyStr.truthy rpc_url) then None
      else
        match answers (net rpc_url) with
        | Connected _ =>
          Some {| chain_id := chain_id; chain_config_of := config; w3 := net rpc_url |}
        | Unreachable | ProbeRaises _ => None
        end
    end
  end.

(** [get_lender_tvl] *)
Definition get_lender_tvl (self : engine) (token_address protocol : string) : Z :=
  let lender_address :=
    if String.eqb protocol "BALANCER" then Some BALANCER_V3_VAULT
    else if String.eqb protocol "AAVE" then Some (aave_pool (chain_config_of self))
    else None in
  match lender_address with
  | None => 0
  | Some lender_address =>
    if negb (PyStr.truthy lender_address) then 0
    else
      match balanceOf (w3 self) token_address lender_address with
      | Some balance => balance
      | None => 0
      end
  end.

(** The module-level [get_provider_tvl]: any exception gives 0. *)
Definition get_provider_tvl (env : environ) (net : web) (token_address : string)
    (lender_address : option string) (chain_id : Z) : Z :=
  match init env net chain_id with
  | Some engine => get_lender_tvl engine token_address "BALANCER"
  | None => 0
  end.

End TitanSimulationEngine.

(** ** ml/brain.py: the scan *)
Module Scan.
Import OmniBrain Config.

Record opportunity := {
  src_chain : Z;
  dst_chain : Z;
  token : string;
  token_addr_src : string;
  token_addr_dst : string;
  opp_decimals : Z
}.

(** The body of the loop of [_find_opportunities]; [get_node_data]
    raises on an index that is not a node. *)
Definition inspect_edge (g : graph) (e : nat * nat * edge_data)
    (opportunities : list opportunity) : option (list opportunity) :=
  if String.eqb (e_type e.2) "bridge" then
    src_node ← nodes g !! e.1.1;
    dst_node ← nodes g !! e.1.2;
    if decide (n_chain src_node ≠ n_chain dst_node) then
      Some (opportunities ++
              [{| src_chain := n_chain src_node;
                  dst_chain := n_chain dst_node;
                  token := n_symbol src_node;
                  token_addr_src := n_address src_node;
                  token_addr_dst := n_address dst_node;
                  opp_decimals := n_decimals src_node |}])
    else Some opportunities
  else Some opportunities.

(** [_find_opportunities] *)
Definition _find_opportunities (g : graph) : option (list opportunity) :=
  for_each (edges g) (inspect_edge g) [].

(** Step A of [initialize]: Polygon first, then the other chains of
    [CHAINS]. *)
Definition target_chains : list Z :=
  [137] ++ filter (λ c, c ≠ 137) CHAINS_items.*1.

(** Steps A and C of [initialize]: the inventory, then the graph. *)
Definition initialize (TOKEN_REGISTRY : gmap Z (gmap string token_data))
    : inventory * option graph :=
  let inventory := TokenDiscovery.fetch_all_chains TOKEN_REGISTRY target_chains in
  (inventory, build_graph inventory).


(** [TitanCommander.optimize_loan_size] on top of the simulation
    engine. *)
Definition optimize_loan_size (env : ChainRegistry.environ)
    (net : TitanSimulationEngine.web) (self : Z) (token_address : string)
    (target_amount_raw : Z) (decimals : N) : option Z :=
  TitanCommander.optimize_loan_size
    (TitanCommander.TvlValue
       (TitanSimulationEngine.get_provider_tvl env net token_address
          (Some BALANCER_V3_VAULT) self))
    target_amount_raw decimals.


End Scan.

(** ** core/system_readiness.py *)
Module SystemReadinessValidator.
Import ChainRegistry.

(** The validator: [self.execution_mode] and the entries of
    [self.validation_results] that the two checks below write. *)
Record validator := {
  execution_mode : string;
  chain_rpcs : gmap Z bool;
  executor_contracts : gmap Z bool
}.

Definition set_executor_contract (self : validator) (chain_id : Z) (ok : bool)
    : validator :=
  {| execution_mode := execution_mode self;
     chain_rpcs := chain_rpcs self;
     executor_contracts := <[chain_id := ok]> (executor_contracts self) |}.

(** [validate_executor_contracts] *)
Definition validate_executor_contracts (env : environ) (self : validator)
    : bool * validator :=
  if String.eqb (execution_mode self) "LIVE" then
    match env !! "EXECUTOR_ADDRESS_POLYGON" with
    | None => (false, set_executor_contract self 137 false)
    | Some polygon_executor =>
      if negb (PyStr.truthy polygon_executor) then
        (false, set_executor_contract self 137 false)
      else if String.eqb polygon_executor "0xYOUR_DEPLOYED_CONTRACT_ADDRESS_HERE" then
        (false, set_executor_contract self 137 false)
      else (true, set_executor_contract self 137 true)
    end
  else (true, set_executor_contract self 137 true).

(** [validate_chain_rpcs], on the registry the validator holds. *)
Definition validate_chain_rpcs (env : environ) (net : network) (self : validator)
    (chain_registry : registry) : bool * validator * registry :=
  let '(results, chain_registry, _) :=
    validate_all_configured_chains env net chain_registry in
  let self :=
    {| execution_mode := execution_mode self;
       chain_rpcs := results;
       executor_contracts := executor_contracts self |} in
  let polygon_healthy := default false (results !! 137) in
  if negb polygon_healthy then (false, self, chain_registry)
  else (true, self, chain_registry).

End SystemReadinessValidator.

(** ** Vocabulary of the further properties *)
Module FurtherTerms.
Import PyDecimal Py ExecutionManager ExecutionModes.

(** An attempt that succeeds. *)
Definition succeeds (srv : server) (a : Z) : Prop :=
  ∃ r, srv a = Returned r ∧ success r = true.

(** The simulator's books are consistent: no more wins than recorded
    trades, no more recorded trades than calls. *)
Definition paper_consistent (self : PaperTradingSimulator.simulator) : Prop :=
  0 <= PaperTradingSimulator.successful_trades self
  ∧ PaperTradingSimulator.successful_trades self
    <= Z.of_nat (length (PaperTradingSimulator.trade_history self))
  ∧ Z.of_nat (length (PaperTradingSimulator.trade_history self))
    <= PaperTradingSimulator.total_trades self.

(** A sequence of calls to the simulator, whatever each one does. *)
Fixpoint paper_run (calls : list (string * dict))
    (self : PaperTradingSimulator.simulator) (rs : redis_server)
    : PaperTradingSimulator.simulator * redis_server :=
  match calls with
  | [] => (self, rs)
  | (now, trade_signal) :: rest =>
    let '(_, self', rs') :=
      PaperTradingSimulator.execute_trade now self rs trade_signal in
    paper_run rest self' rs'
  end.

(** The node [_build_graph_nodes] makes of a token of a chain. *)
Definition node_of (chain_id : Z) (item : string * OmniBrain.token_data) : OmniBrain.node :=
  {| OmniBrain.n_chain := chain_id; OmniBrain.n_symbol := item.1;
     OmniBrain.n_address := OmniBrain.address item.2;
     OmniBrain.n_decimals := OmniBrain.decimals item.2 |}.

(** The tokens of an inventory, chain after chain. *)
Definition flat_items (inv : OmniBrain.inventory) : list (Z * (string * OmniBrain.token_data)) :=
  inv ≫= (λ entry, pair entry.1 <$> map_to_list entry.2).

Definition flat_nodes (inv : OmniBrain.inventory) : list OmniBrain.node :=
  (λ p, node_of p.1 p.2) <$> flat_items inv.

Definition key_of (nd : OmniBrain.node) : Z * string :=
  (OmniBrain.n_chain nd, OmniBrain.n_symbol nd).

(** [node_indices] holds exactly the nodes of the graph, each under its
    key. *)
Definition tracks (g : OmniBrain.graph) (ni : OmniBrain.node_indices) : Prop :=
  ∀ k idx, ni !! k = Some idx <-> ∃ nd, OmniBrain.nodes g !! idx = Some nd ∧ key_of nd = k.

(** The number of directed bridge edges of a symbol. *)
Definition bridge_edge_count (inv : OmniBrain.inventory) (symbol : string) : nat :=
  length (OmniBrain.chains_with_asset inv symbol)
  * (length (OmniBrain.chains_with_asset inv symbol) - 1).

(** The token of a chain in an inventory. *)
Definition listed (inv : OmniBrain.inventory) (chain_id : Z) (symbol : string)
    (data : OmniBrain.token_data) : Prop :=
  ∃ tokens, (chain_id, tokens) ∈ inv ∧ tokens !! symbol = Some data.

(** An opportunity between two chains that both list a bridge asset,
    with the addresses and decimals of the inventory. *)
Definition bridges (inv : OmniBrain.inventory) (opp : Scan.opportunity) : Prop :=
  Scan.src_chain opp ≠ Scan.dst_chain opp
  ∧ Scan.token opp ∈ OmniBrain.BRIDGE_ASSETS
  ∧ (∃ data, listed inv (Scan.src_chain opp) (Scan.token opp) data
             ∧ Scan.token_addr_src opp = OmniBrain.address data
             ∧ Scan.opp_decimals opp = OmniBrain.decimals data)
  ∧ (∃ data, listed inv (Scan.dst_chain opp) (Scan.token opp) data
             ∧ Scan.token_addr_dst opp = OmniBrain.address data).

(** A Polygon node that holds [balance] of every token for every
    holder. *)
Definition polygon_env : ChainRegistry.environ :=
  {[ "RPC_POLYGON" := "https://polygon-rpc.com" ]}.


Definition node_holding (balance : Z) : TitanSimulationEngine.rpc_node :=
  {| TitanSimulationEngine.answers := ChainRegistry.Connected 1;
     TitanSimulationEngine.balanceOf := λ _ _, Some balance |}.

(** The chain answers on a URL that the registry hands out. *)
Definition healthy (env : ChainRegistry.environ) (net : ChainRegistry.network)
    (chain_id : Z) : Prop :=
  ∃ url n, ChainRegistry.get_rpc_url env chain_id = Some url ∧ url ≠ ""
           ∧ net url = ChainRegistry.Connected n.

(** A live validator, and an environment that names the Polygon
    executor only. *)
Definition live_validator : SystemReadinessValidator.validator :=
  {| SystemReadinessValidator.execution_mode := "LIVE";
     SystemReadinessValidator.chain_rpcs := ∅;
     SystemReadinessValidator.executor_contracts := ∅ |}.

Definition polygon_executor_env : ChainRegistry.environ :=
  {[ "EXECUTOR_ADDRESS_POLYGON" := "0x5FbDB2315678afecb367f032d93F642f64180aa3" ]}.

(** A URL the registry may hand out: not local, with a scheme. *)
Definition remote_url (url : string) : Prop :=
  PyStr.contains "localhost" (PyStr.lower url) = false
  ∧ PyStr.contains "127.0.0.1" url = false
  ∧ (String.prefix "http://" url || String.prefix "https://" url) = true.

(** Every validated URL of a registry is remote. *)
Definition validated_remote (self : ChainRegistry.registry) : Prop :=
  ∀ chain_id url, ChainRegistry.validated_rpcs self !! chain_id = Some url -> remote_url url.


End FurtherTerms.

(** * Vocabulary of the properties

    Predicates and scenarios the statements below are written with. *)

Module ExecutionManagerTerms.
Import ExecutionManager.

(** Sent equals succeeded plus failed. *)
Definition balanced (st : stats_t) : Prop :=
  sent st = succeeded st + failed st.

(** Exactly one of the two outcome counters moved, by one. *)
Definition settled_once (st st' : stats_t) : Prop :=
  (succeeded st' = succeeded st + 1 ∧ failed st' = failed st)
  ∨ (succeeded st' = succeeded st ∧ failed st' = failed st + 1).

(** An answer that is not a success: an exception or a result whose
    [success] entry is false. *)
Definition failure (o : outcome) : Prop :=
  match o with
  | Returned r => success r = false
  | Raised _ => True
  end.

End ExecutionManagerTerms.

Module OmniBrainTerms.
Import OmniBrain.

(** Every index recorded in [node_indices] refers to the node of its
    key. *)
Definition indexed (g : graph) (ni : node_indices) : Prop :=
  ∀ c s u, ni !! (c, s) = Some u ->
    ∃ nd, nodes g !! u = Some nd ∧ n_chain nd = c ∧ n_symbol nd = s.

(** A bridge edge of [symbol]: both ends are nodes of that symbol, on
    different chains. *)
Definition bridge_edge_of (g : graph) (symbol : string) (e : nat * nat * edge_data) : Prop :=
  symbol_at g e.1.1 = Some symbol ∧ symbol_at g e.1.2 = Some symbol
  ∧ chain_at g e.1.1 ≠ chain_at g e.1.2 ∧ e.2 = bridge.

(** Three chains carrying USDC (two of them WETH as well), a fourth
    chain without it. *)
Definition usdc : token_data := {| address := "0x2791"; decimals := 6 |}.
Definition weth : token_data := {| address := "0x7ceB"; decimals := 18 |}.
Definition three_chains : inventory :=
  [(137, <["USDC" := usdc]> (<["WETH" := weth]> ∅));
   (1, <["USDC" := usdc]> ∅);
   (42161, <["USDC" := usdc]> (<["WETH" := weth]> ∅));
   (10, <["DAI" := usdc]> ∅)].

End OmniBrainTerms.

Module ProfitEngineTerms.
Import PyDecimal ProfitEngine.

Local Open Scope Q_scope.

(** The equation over the rationals. *)
Definition exact_fees (fee amount bridge_fee gas_fee : decimal) : Q :=
  value bridge_fee + value gas_fee + value amount * value fee.

Definition exact_net (fee amount amount_out bridge_fee gas_fee : decimal) : Q :=
  value amount_out - value amount - exact_fees fee amount bridge_fee gas_fee.

End ProfitEngineTerms.

Module ExecutionModesTerms.
Import PyDecimal Py ExecutionModes ExecutionModes.HybridExecutionManager.

(** Whether a result reports a success. *)
Definition is_success (result : dict) : bool :=
  eq_str (result !! "status") "SUCCESS".

(** A reachable, empty Redis database. *)
Definition empty_redis : redis_server :=
  {| down := None; pending_txs := ∅; trade_signals := []; live_trades := [];
     paper_trades := []; paper_capital := None |}.

(** An environment with both secrets configured. *)
Definition funded_env : gmap string string :=
  list_to_map [("PRIVATE_KEY", "0x4c0883a69102937d6231471b5dbb6204fe512961708279f1d7b1b8e7e8b1b2c3");
               ("EXECUTOR_ADDRESS", "0x5FbDB2315678afecb367f032d93F642f64180aa3")].

(** A complete signal on Polygon with an expected profit of 15.0. *)
Definition sound_signal : dict :=
  list_to_map
    [("chainId", VInt 137); ("token", VStr "0x2791Bca1f2de4661ED88A30C99A7a9449Aa84174");
     ("amount", VStr "10000000000");
     ("protocols", VList [VInt 1; VInt 2]);
     ("routers", VList [VStr "0xE592427A0AEce92De3Edee1F18E0157C05861564";
                        VStr "0x445FE580eF8d70FF569aB36e80c647af338db351"]);
     ("path", VList [VStr "0x7ceB23fD6bC0adD59E62ac25578270cFf1b9f619";
                     VStr "0x2791Bca1f2de4661ED88A30C99A7a9449Aa84174"]);
     ("expected_profit", VFloat (S754_finite false 8444249301319680 (-49)) "15.0");
     ("estimated_slippage_bps", VInt 20)].

(** The call handed to the live executor: its result, its new state,
    its Redis database; the simulator is not touched. *)
Definition via_live (now : string) (self : manager) (w : world) (trade_signal : dict)
    : outcome trade_result * manager * world :=
  let '(r, live, db) :=
    LiveMainnetExecutor.execute_trade (env w) now (live_executor self) (live_db w) trade_signal in
  (r, {| paper_simulator := paper_simulator self; live_executor := live;
         confidence_threshold := confidence_threshold self |},
   {| env := env w; live_db := db; paper_db := paper_db w |}).

(** The call handed to the simulator. *)
Definition via_paper (now : string) (self : manager) (w : world) (trade_signal : dict)
    : outcome trade_result * manager * world :=
  let '(r, paper, db) :=
    PaperTradingSimulator.execute_trade now (paper_simulator self) (paper_db w) trade_signal in
  (r, {| paper_simulator := paper; live_executor := live_executor self;
         confidence_threshold := confidence_threshold self |},
   {| env := env w; live_db := live_db w; paper_db := db |}).

(** A manager with the default threshold 0.85. *)
Definition hybrid_085 : manager := HybridExecutionManager.fresh true.

End ExecutionModesTerms.

(** * Properties *)

(** ** Strings *)
Module PyStrFacts.
Import PyStr.




End PyStrFacts.

(** ** ChainRegistry *)
Module ChainRegistrySpec.
Import ChainRegistry.

Lemma enabled_chains : get_enabled_chains = [137].
Proof. vm_compute. reflexivity. Qed.

Lemma is_execution_enabled_137 (chain_id : Z) :
  is_execution_enabled chain_id = bool_decide (chain_id = 137).
Proof.
  unfold is_execution_enabled, CHAIN_STATES.
  destruct (decide (chain_id = 137)) as [->|H137].
  { rewrite lookup_insert_eq. by rewrite !bool_decide_eq_true_2. }
  rewrite lookup_insert_ne by done.
  rewrite (bool_decide_eq_false_2 (chain_id = 137)) by done.
  apply bool_decide_eq_false_2.
  destruct (decide (chain_id = 1)) as [->|H1].
  { by rewrite lookup_insert_eq. }
  rewrite lookup_insert_ne by done.
  destruct (decide (chain_id = 42161)) as [->|H2].
  { by rewrite lookup_insert_eq. }
  rewrite lookup_insert_ne by done. by rewrite lookup_empty.
Qed.

(** C2.  Whatever the registry instance holds (in particular whatever
    [health_status] says about the chain), [is_execution_enabled] answers
    true exactly for the chains of the ENABLED whitelist, that is exactly
    for the chains whose state is ENABLED; the whitelist is chain 137
    alone. *)
Theorem is_execution_enabled_whitelist (reg : registry) (chain_id : Z) :
  is_execution_enabled chain_id = bool_decide (chain_id ∈ get_enabled_chains)
  ∧ is_execution_enabled chain_id = bool_decide (get_execution_state chain_id = ENABLED)
  ∧ is_execution_enabled chain_id = bool_decide (CHAIN_STATES !! chain_id = Some ENABLED)
  ∧ get_enabled_chains = [137].
Proof.
  rewrite enabled_chains. split; [|split; [|split]]; try done.
  - rewrite is_execution_enabled_137. apply bool_decide_ext.
    rewrite list_elem_of_singleton. done.
  - unfold is_execution_enabled, get_execution_state. apply bool_decide_ext.
    destruct (CHAIN_STATES !! chain_id) as [st|]; simpl; [|done].
    split; congruence.
Qed.

(** A chain that is healthy but not whitelisted stays blocked. *)
Example ethereum_healthy_but_blocked :
  let reg := {| validated_rpcs := {[1 := "https://eth.example"]};
                health_status := {[1 := true]} |} in
  health_status reg !! 1 = Some true ∧ is_execution_enabled 1 = false.
Proof. split; reflexivity. Qed.




(** A variable set to the empty text counts as not configured: the
    rejections are skipped and the empty (false) value comes back. *)
Example empty_value_is_returned :
  get_rpc_url {["RPC_POLYGON" := ""]} 137 = Some "".
Proof. vm_compute. reflexivity. Qed.

(** No fallback: a URL that is returned is the configured one. *)
Lemma get_rpc_url_from_env (env : environ) (chain_id : Z) (url : string) :
  get_rpc_url env chain_id = Some url ->
  ∃ metadata, CHAIN_METADATA !! chain_id = Some metadata
              ∧ env !! rpc_env metadata = Some url.
Proof.
  unfold get_rpc_url. destruct (CHAIN_METADATA !! chain_id) as [md|]; [|done].
  cbn zeta. destruct (negb _); [done|].
  destruct (env !! rpc_env md) as [u|] eqn:Henv; [|done].
  intros H. exists md. split; [done|].
  revert H. repeat case_match; congruence.
Qed.

(** A returned, non-empty URL is remote and carries a scheme. *)
Lemma get_rpc_url_safe (env : environ) (chain_id : Z) (url : string) :
  get_rpc_url env chain_id = Some url -> url ≠ "" ->
  PyStr.contains "localhost" (PyStr.lower url) = false
  ∧ PyStr.contains "127.0.0.1" url = false
  ∧ (String.prefix "http://" url || String.prefix "https://" url) = true.
Proof.
  unfold get_rpc_url. destruct (CHAIN_METADATA !! chain_id) as [md|]; [|done].
  cbn zeta. destruct (negb _); [done|].
  destruct (env !! rpc_env md) as [u|]; [|done].
  destruct u as [|c u]; [by intros [= <-]|]. cbn [PyStr.truthy].
  destruct (PyStr.contains "localhost" _) eqn:E1; [done|].
  destruct (PyStr.contains "127.0.0.1" _) eqn:E2; [done|]. cbn [orb].
  destruct (String.prefix "http://" _ || String.prefix "https://" _) eqn:E3; [|done].
  cbn [negb]. intros [= <-] _. done.
Qed.

End ChainRegistrySpec.

(** ** ExecutionManager *)
Module ExecutionManagerSpec.
Import ExecutionManager ExecutionManagerTerms.

Lemma retry_loop_settles (max_retries : Z) (srv : server) (n : nat) :
  ∀ attempt st, Z.of_nat n = max_retries - attempt -> (1 <= n)%nat ->
    let st' := (retry_loop max_retries srv n attempt st).1.1 in
    sent st' = sent st ∧ settled_once st st'.
Proof.
  induction n as [|n IH]; intros attempt st Hn Hpos; [lia|].
  cbn [retry_loop].
  assert (Hstep : (attempt <? max_retries - 1) = true ->
                  let st' := (retry_loop max_retries srv n (attempt + 1) (incr_retried st)).1.1 in
                  sent st' = sent st ∧ settled_once st st').
  { intros Hlt%Z.ltb_lt. destruct (IH (attempt + 1) (incr_retried st)) as [Hs Hso]; [lia|lia|].
    cbn zeta. split; [exact Hs|exact Hso]. }
  destruct (srv attempt) as [r|e].
  - destruct (success r).
    + cbn. split; [done|left; done].
    + destruct (attempt <? max_retries - 1) eqn:Hlt.
      * specialize (Hstep eq_refl). cbn zeta in Hstep.
        destruct (retry_loop max_retries srv n (attempt + 1) (incr_retried st)) as [[st' r'] tr].
        exact Hstep.
      * cbn. split; [done|right; done].
  - destruct (attempt <? max_retries - 1) eqn:Hlt.
    + specialize (Hstep eq_refl). cbn zeta in Hstep.
      destruct (retry_loop max_retries srv n (attempt + 1) (incr_retried st)) as [[st' r'] tr].
      exact Hstep.
    + cbn. split; [done|right; done].
Qed.

Lemma submit_trade_settles (max_retries : Z) (srv : server) (st : stats_t) :
  1 <= max_retries ->
  let st' := (submit_trade max_retries srv st).1.1 in
  sent st' = sent st + 1 ∧ settled_once st st'.
Proof.
  intros H. unfold submit_trade.
  destruct (retry_loop_settles max_retries srv (Z.to_nat max_retries) 0 (incr_sent st))
    as [Hs Hso]; [lia|lia|].
  cbn zeta. split; [exact Hs|exact Hso].
Qed.

Lemma submit_trade_balanced (max_retries : Z) (srv : server) (st : stats_t) :
  1 <= max_retries -> balanced st -> balanced (submit_trade max_retries srv st).1.1.
Proof.
  intros H Hb. destruct (submit_trade_settles max_retries srv st H) as [Hs Hso].
  unfold balanced, settled_once in *. lia.
Qed.

(** C10.  With [max_retries >= 1], a completed [submit_trade] adds one
    to [sent] and one to exactly one of [succeeded] and [failed],
    whatever the server answers; hence after any sequence of completed
    calls on a fresh manager, sent = succeeded + failed. *)
Theorem submit_trade_counters (max_retries : Z) (srvs : list server) :
  1 <= max_retries ->
  (∀ srv st,
     let st' := (submit_trade max_retries srv st).1.1 in
     sent st' = sent st + 1 ∧ settled_once st st')
  ∧ balanced (submit_all max_retries srvs stats0).
Proof.
  intros H. split.
  - intros srv st. by apply submit_trade_settles.
  - assert (Hgen : ∀ st, balanced st -> balanced (submit_all max_retries srvs st)).
    { induction srvs as [|srv rest IH]; intros st Hb; [done|].
      cbn [submit_all]. apply IH. by apply submit_trade_balanced. }
    apply Hgen. reflexivity.
Qed.

Lemma submit_trade_counters_witness :
  balanced
    (submit_all 3
       [(λ a, if a <? 2 then Raised "timeout"
              else Returned {| success := true; mode := Some "PAPER";
                               txHash := None; error := None |});
        (λ _, Returned (preflight_rejection "Slippage 80 BPS exceeds max 50 BPS"))]
       stats0).
Proof.
  apply (submit_trade_counters 3). lia.
Defined.

(** How often [execute_signal] runs. *)
Lemma retry_loop_invocations_le (max_retries : Z) (srv : server) (n : nat) :
  ∀ attempt st,
    (invocations (retry_loop max_retries srv n attempt st).2 <= n)%nat.
Proof.
  induction n as [|n IH]; intros attempt st; cbn [retry_loop]; [cbn; lia|].
  specialize (IH (attempt + 1) (incr_retried st)).
  destruct (retry_loop max_retries srv n (attempt + 1) (incr_retried st)) as [[st' r'] tr].
  destruct (srv attempt) as [r|e]; [destruct (success r)|];
    try destruct (attempt <? max_retries - 1); cbn in *; lia.
Qed.

Lemma retry_loop_all_fail (max_retries : Z) (srv : server) (n : nat) :
  ∀ attempt st, Z.of_nat n = max_retries - attempt ->
    (∀ a, attempt <= a < max_retries -> failure (srv a)) ->
    let tr := (retry_loop max_retries srv n attempt st).2 in
    invocations tr = n ∧ sleeps tr = (n - 1)%nat.
Proof.
  induction n as [|n IH]; intros attempt st Hn Hfail; cbn [retry_loop]; [done|].
  assert (Hf : failure (srv attempt)) by (apply Hfail; lia).
  destruct (attempt <? max_retries - 1) eqn:Hlt.
  - apply Z.ltb_lt in Hlt.
    destruct (IH (attempt + 1) (incr_retried st)) as [Hi Hs]; [lia| |].
    { intros a Ha. apply Hfail. lia. }
    destruct (retry_loop max_retries srv n (attempt + 1) (incr_retried st)) as [[st' r'] tr].
    cbn zeta in *. cbn [snd] in *.
    assert (n ≠ O) by lia.
    destruct (srv attempt) as [r|e]; [cbn in Hf; rewrite Hf|];
      unfold invocations, sleeps in *; cbn; lia.
  - apply Z.ltb_ge in Hlt. assert (n = O) as -> by lia.
    destruct (srv attempt) as [r|e]; [cbn in Hf; rewrite Hf|]; done.
Qed.

(** C4, as the code has it.  [submit_trade] never runs [execute_signal]
    more than [max_retries] times; it runs it once when the first answer
    is a success; and it retries after every other answer, whatever its
    cause, pausing one second before each new attempt: when no answer is
    a success, [execute_signal] runs exactly [max_retries] times. *)
Theorem submit_trade_retries (max_retries : Z) (srv : server) (st : stats_t) :
  1 <= max_retries ->
  let tr := (submit_trade max_retries srv st).2 in
  (invocations tr <= Z.to_nat max_retries)%nat
  ∧ ((∃ r, srv 0 = Returned r ∧ success r = true) -> invocations tr = 1%nat)
  ∧ ((∀ a, 0 <= a < max_retries -> failure (srv a)) ->
     invocations tr = Z.to_nat max_retries
     ∧ sleeps tr = (Z.to_nat max_retries - 1)%nat).
Proof.
  intros H. cbn zeta. unfold submit_trade. split; [|split].
  - apply retry_loop_invocations_le.
  - intros (r & Hr & Hs).
    destruct (Z.to_nat max_retries) as [|n] eqn:Hn; [lia|].
    cbn [retry_loop]. rewrite Hr, Hs. reflexivity.
  - intros Hfail. apply retry_loop_all_fail; [lia|done].
Qed.

Lemma submit_trade_retries_witness :
  let tr := (submit_trade 3 (λ _, Returned (preflight_rejection "Profit $4.99 below minimum $5.0"))
               stats0).2 in
  invocations tr = 3%nat ∧ sleeps tr = 2%nat.
Proof.
  apply (submit_trade_retries 3 (λ _, Returned (preflight_rejection "Profit $4.99 below minimum $5.0"))
           stats0); [lia|].
  intros a _. reflexivity.
Defined.

(** The claim as stated fails: a submission whose every answer, the
    first included, is a pre-flight rejection runs [execute_signal]
    three times with the default [max_retries]. *)
Lemma preflight_rejection_is_retried :
  ¬ (∀ (srv : server) (st : stats_t) (reason : string),
       srv 0 = Returned (preflight_rejection reason) ->
       invocations (submit_trade 3 srv st).2 = 1%nat).
Proof.
  intros Hclaim.
  specialize (Hclaim (λ _, Returned (preflight_rejection "Profit $4.99 below minimum $5.0"))
                     stats0 "Profit $4.99 below minimum $5.0" eq_refl).
  vm_compute in Hclaim. discriminate.
Qed.

End ExecutionManagerSpec.

(** ** The opportunity graph *)
Module OmniBrainSpec.
Import OmniBrain OmniBrainTerms.

(** A loop whose body always succeeds, keeps an invariant and grows a
    measure by a known amount. *)
Lemma for_each_spec {A S : Type} (I : S → Prop) (m : S → nat) (k : A → nat)
    (xs : list A) (body : A → S → option S) :
  (∀ x s, x ∈ xs -> I s -> ∃ s', body x s = Some s' ∧ I s' ∧ m s' = (m s + k x)%nat) ->
  ∀ s, I s ->
    ∃ s', for_each xs body s = Some s' ∧ I s' ∧ m s' = (m s + sum_list (k <$> xs))%nat.
Proof.
  induction xs as [|x xs IH]; intros Hbody s Hs.
  - exists s. cbn. repeat split; auto with lia.
  - destruct (Hbody x s) as (s1 & Hb & HI & Hm); [left|done|].
    destruct (IH (λ y t Hy, Hbody y t (list_elem_of_further _ _ _ Hy)) s1 HI)
      as (s2 & Hf & HI2 & Hm2).
    exists s2. cbn [for_each]. rewrite Hb. repeat split; auto. csimpl. lia.
Qed.

(** The number of ordered pairs of distinct positions. *)
Lemma pairs_sum (m : nat) : ∀ a : nat,
  sum_list ((λ i, 2 * ((a + m) - (i + 1)))%nat <$> seq a m) = (m * (m - 1))%nat.
Proof.
  induction m as [|m IH]; intros a; [done|].
  cbn [seq]. rewrite fmap_cons.
  replace (a + S m)%nat with (S a + m)%nat by lia.
  change (sum_list (?x :: ?l)) with (x + sum_list l)%nat.
  rewrite IH. replace (S a + m - (a + 1))%nat with m by lia.
  destruct m; cbn; lia.
Qed.

Lemma indexed_nodes (g g' : graph) (ni : node_indices) :
  nodes g' = nodes g -> indexed g ni -> indexed g' ni.
Proof. intros Hn Hi c s u Hu. rewrite Hn. eauto. Qed.

Lemma add_token_spec (c : Z) (st : graph * node_indices) (item : string * token_data) :
  indexed st.1 st.2 ->
  let st' := add_token c st item in
  indexed st'.1 st'.2
  ∧ is_Some (st'.2 !! (c, item.1))
  ∧ (∀ k, is_Some (st.2 !! k) -> is_Some (st'.2 !! k))
  ∧ edges st'.1 = edges st.1.
Proof.
  destruct st as [g ni]. cbn [fst snd]. intros Hi. unfold add_token.
  destruct (ni !! (c, item.1)) as [u|] eqn:E; cbn [fst snd add_node].
  { rewrite E. eauto. }
  split; [|split; [|split]]; [| |intros k Hk|done].
  - intros c' s' u' Hu'. cbn [nodes].
    destruct (decide ((c, item.1) = (c', s'))) as [Heq|Hne].
    + rewrite Heq, lookup_insert_eq in Hu'. injection Hu' as <-. injection Heq as <- <-.
      eexists. split; [apply list_lookup_middle; done|done].
    + rewrite lookup_insert_ne in Hu' by done.
      destruct (Hi _ _ _ Hu') as (nd & Hnd & Hc & Hs).
      exists nd. split; [|done].
      rewrite lookup_app_l; [done|]. by eapply lookup_lt_Some.
  - rewrite lookup_insert_eq. eauto.
  - destruct (decide ((c, item.1) = k)) as [<-|Hne].
    + rewrite lookup_insert_eq. eauto.
    + by rewrite lookup_insert_ne.
Qed.

Lemma add_tokens_spec (c : Z) (items : list (string * token_data)) :
  ∀ st, indexed st.1 st.2 ->
    let st' := foldl (add_token c) st items in
    indexed st'.1 st'.2
    ∧ (∀ item, item ∈ items -> is_Some (st'.2 !! (c, item.1)))
    ∧ (∀ k, is_Some (st.2 !! k) -> is_Some (st'.2 !! k))
    ∧ edges st'.1 = edges st.1.
Proof.
  induction items as [|item items IH]; intros st Hi; cbn [foldl].
  { split; [done|]. split; [|done]. intros item Hin. by apply elem_of_nil in Hin. }
  destruct (add_token_spec c st item Hi) as (Hi1 & Hk1 & Hm1 & He1).
  destruct (IH _ Hi1) as (Hi2 & Hk2 & Hm2 & He2).
  split; [done|]. split; [|split; [auto|congruence]].
  intros it [->|Hin]%elem_of_cons; auto.
Qed.

Lemma build_graph_nodes_spec (inv : inventory) :
  ∀ st, indexed st.1 st.2 ->
    let st' := _build_graph_nodes inv st in
    indexed st'.1 st'.2
    ∧ (∀ c toks s, (c, toks) ∈ inv -> is_Some (toks !! s) -> is_Some (st'.2 !! (c, s)))
    ∧ (∀ k, is_Some (st.2 !! k) -> is_Some (st'.2 !! k))
    ∧ edges st'.1 = edges st.1.
Proof.
  unfold _build_graph_nodes.
  induction inv as [|[c toks] inv IH]; intros st Hi; cbn [foldl].
  { split; [done|]. split; [|done]. intros c toks s Hin. by apply elem_of_nil in Hin. }
  cbn [fst snd].
  destruct (add_tokens_spec c (map_to_list toks) st Hi) as (Hi1 & Hk1 & Hm1 & He1).
  destruct (IH _ Hi1) as (Hi2 & Hk2 & Hm2 & He2).
  split; [done|]. split; [|split; [auto|congruence]].
  intros c' toks' s [Heq|Hin]%elem_of_cons [d Hd]; [|eauto].
  injection Heq as -> ->. apply Hm2.
  apply (Hk1 (s, d)). by apply elem_of_map_to_list.
Qed.

Lemma chains_with_asset_NoDup (inv : inventory) (symbol : string) :
  NoDup inv.*1 -> NoDup (chains_with_asset inv symbol).
Proof.
  intros Hnd. unfold chains_with_asset.
  eapply sublist_NoDup; [exact Hnd|]. apply fmap_sublist, sublist_filter.
Qed.

Lemma build_edges_for_symbol_spec (inv : inventory) (ni : node_indices)
    (symbol : string) (g : graph) :
  NoDup inv.*1 -> indexed g ni ->
  (∀ c, c ∈ chains_with_asset inv symbol -> is_Some (ni !! (c, symbol))) ->
  let n := length (chains_with_asset inv symbol) in
  ∃ g' new,
    build_edges_for_symbol inv ni symbol g = Some g'
    ∧ nodes g' = nodes g ∧ edges g' = edges g ++ new
    ∧ length new = (n * (n - 1))%nat ∧ Forall (bridge_edge_of g symbol) new.
Proof.
  intros Hnd Hidx Hcov. cbn zeta. unfold build_edges_for_symbol.
  pose proof (chains_with_asset_NoDup inv symbol Hnd) as Hnd'.
  set (cwa := chains_with_asset inv symbol) in *.
  set (I := λ s : graph, nodes s = nodes g
             ∧ ∃ new, edges s = edges g ++ new ∧ Forall (bridge_edge_of g symbol) new).
  assert (HI0 : I g). { split; [done|]. exists []. by rewrite app_nil_r. }
  destruct (for_each_spec I (λ s, length (edges s))
              (λ i, 2 * ((0 + length cwa) - (i + 1)))%nat (seq 0 (length cwa))
              (λ i, for_each (seq (i + 1) (length cwa - (i + 1))) (link cwa ni symbol i)))
    with (s := g) as (g' & Hrun & [Hnodes (new & Hnew & HQ)] & Hm); [|done|].
  - intros i s Hi%elem_of_seq Hs.
    destruct (for_each_spec I (λ s, length (edges s)) (λ _, 2%nat)
                (seq (i + 1) (length cwa - (i + 1))) (link cwa ni symbol i))
      with (s := s) as (s' & Hrun & HI' & Hm); [|done|].
    + intros j t Hj%elem_of_seq [Hnt (nw & Hnw & HQ)].
      destruct (lookup_lt_is_Some_2 cwa i) as [a Ha]; [lia|].
      destruct (lookup_lt_is_Some_2 cwa j) as [b Hb]; [lia|].
      destruct (Hcov a) as [u Hu]; [by eapply list_elem_of_lookup_2|].
      destruct (Hcov b) as [v Hv]; [by eapply list_elem_of_lookup_2|].
      destruct (Hidx _ _ _ Hu) as (na & Hna & Hca & Hsa).
      destruct (Hidx _ _ _ Hv) as (nb & Hnb & Hcb & Hsb).
      assert (a ≠ b) as Hab.
      { intros ->. pose proof (NoDup_lookup _ _ _ _ Hnd' Ha Hb). lia. }
      exists (add_edge (add_edge t u v bridge) v u bridge).
      split; [|split; [split|]].
      * unfold link. rewrite Ha. cbn. rewrite Hb. cbn. rewrite Hu. cbn. by rewrite Hv.
      * done.
      * exists (nw ++ [(u, v, bridge); (v, u, bridge)]). cbn [add_edge edges].
        split; [rewrite Hnw, <- !app_assoc; done|].
        apply Forall_app. split; [done|].
        assert (symbol_at g u = Some symbol ∧ symbol_at g v = Some symbol
                ∧ chain_at g u = Some a ∧ chain_at g v = Some b) as (Su & Sv & Cu & Cv).
        { unfold symbol_at, chain_at. rewrite Hna, Hnb. cbn. by rewrite Hsa, Hsb, Hca, Hcb. }
        repeat constructor; unfold bridge_edge_of; cbn [fst snd];
          rewrite ?Su, ?Sv, ?Cu, ?Cv; try done; congruence.
      * cbn [add_edge edges]. rewrite !length_app. cbn. lia.
    + exists s'. split; [done|]. split; [done|].
      rewrite Hm, sum_list_fmap_const, length_seq. lia.
  - exists g', new. split; [done|]. split; [done|]. split; [done|]. split; [|done].
    rewrite pairs_sum in Hm. rewrite Hnew, length_app in Hm. lia.
Qed.

Lemma symbol_at_nodes (g g' : graph) (u : nat) :
  nodes g' = nodes g -> symbol_at g' u = symbol_at g u.
Proof. unfold symbol_at. by intros ->. Qed.

Lemma chain_at_nodes (g g' : graph) (u : nat) :
  nodes g' = nodes g -> chain_at g' u = chain_at g u.
Proof. unfold chain_at. by intros ->. Qed.

Lemma filter_all {A} (P : A → Prop) `{!∀ x, Decision (P x)} (l : list A) :
  Forall P l -> filter P l = l.
Proof.
  induction 1 as [|x l Hx Hl IH]; [done|]. rewrite filter_cons_True by done. by f_equal.
Qed.

Lemma filter_none {A} (P : A → Prop) `{!∀ x, Decision (P x)} (l : list A) :
  Forall (λ x, ¬ P x) l -> filter P l = [].
Proof.
  induction 1 as [|x l Hx Hl IH]; [done|]. by rewrite filter_cons_False.
Qed.

(** The whole loop over a list of distinct symbols. *)
Lemma build_edges_spec (inv : inventory) (ni : node_indices) (syms : list string) :
  NoDup inv.*1 -> NoDup syms ->
  (∀ s c, c ∈ chains_with_asset inv s -> is_Some (ni !! (c, s))) ->
  ∀ g, indexed g ni ->
    ∃ g', for_each syms (build_edges_for_symbol inv ni) g = Some g'
      ∧ nodes g' = nodes g
      ∧ ∀ s, ∃ extra,
          edges_of_symbol g' s = edges_of_symbol g s ++ extra
          ∧ length extra =
              (if decide (s ∈ syms)
               then length (chains_with_asset inv s) * (length (chains_with_asset inv s) - 1)
               else 0)%nat
          ∧ Forall (bridge_edge_of g s) extra.
Proof.
  intros Hnd Hsyms Hcov. induction Hsyms as [|sym syms Hnotin Hsyms IH]; intros g Hidx.
  { exists g. split; [done|]. split; [done|]. intros s. exists [].
    rewrite app_nil_r. split; [done|]. split; [|done].
    destruct (decide (s ∈ [])) as [Hin|]; [by apply elem_of_nil in Hin|done]. }
  destruct (build_edges_for_symbol_spec inv ni sym g Hnd Hidx (Hcov sym))
    as (g1 & new & Hrun1 & Hn1 & He1 & Hlen1 & HQ1).
  destruct (IH g1 (indexed_nodes _ _ _ Hn1 Hidx)) as (g' & Hrun & Hn & Hall).
  exists g'. cbn [for_each]. rewrite Hrun1. split; [done|]. split; [congruence|].
  intros s. destruct (Hall s) as (extra & Hex & Hlen & HQ).
  assert (Hsame : ∀ e, bridge_edge_of g1 s e ↔ bridge_edge_of g s e).
  { intros e. unfold bridge_edge_of.
    by rewrite !(symbol_at_nodes g g1), !(chain_at_nodes g g1). }
  assert (Hg1 : edges_of_symbol g1 s =
                edges_of_symbol g s ++ (if decide (s = sym) then new else [])).
  { unfold edges_of_symbol. rewrite He1, filter_app. f_equal.
    - apply list_filter_iff. intros e. by rewrite !(symbol_at_nodes g g1).
    - destruct (decide (s = sym)) as [->|Hne].
      + apply filter_all. eapply Forall_impl; [exact HQ1|].
        intros e (Hs1 & Hs2 & _). by rewrite !(symbol_at_nodes g g1).
      + apply filter_none. eapply Forall_impl; [exact HQ1|].
        intros e (Hs1 & _) [Hs1' _]. rewrite (symbol_at_nodes g g1) in Hs1' by done.
        congruence. }
  exists ((if decide (s = sym) then new else []) ++ extra).
  rewrite Hex, Hg1, <- app_assoc. split; [done|]. split.
  - rewrite length_app, Hlen.
    destruct (decide (s = sym)) as [->|Hne].
    + destruct (decide (sym ∈ sym :: syms)) as [_|Hbad]; [|exfalso; apply Hbad; left].
      destruct (decide (sym ∈ syms)); [done|]. lia.
    + destruct (decide (s ∈ syms)) as [Hin|Hin];
        destruct (decide (s ∈ sym :: syms)) as [Hin'|Hin']; try done.
      * exfalso. apply Hin'. by right.
      * by apply elem_of_cons in Hin' as [?|?].
  - apply Forall_app. split.
    + destruct (decide (s = sym)) as [->|]; [done|constructor].
    + eapply Forall_impl; [exact HQ|]. intros e. apply Hsame.
Qed.

Lemma BRIDGE_ASSETS_NoDup : NoDup BRIDGE_ASSETS.
Proof. apply (bool_decide_unpack _). vm_compute. exact I. Qed.

(** C9.  For an inventory (a dictionary: distinct chain ids) and a
    bridgeable symbol carried by [n] of its chains, graph construction
    succeeds and the graph holds exactly [n * (n - 1)] directed edges
    between nodes of that symbol, each a bridge edge joining two
    different chains. *)
Theorem bridge_edges_per_symbol (inv : inventory) (symbol : string) :
  NoDup inv.*1 -> symbol ∈ BRIDGE_ASSETS ->
  ∃ g, build_graph inv = Some g
       ∧ length (edges_of_symbol g symbol)
         = (length (chains_with_asset inv symbol)
            * (length (chains_with_asset inv symbol) - 1))%nat
       ∧ Forall (bridge_edge_of g symbol) (edges_of_symbol g symbol).
Proof.
  intros Hnd Hin. unfold build_graph.
  destruct (build_graph_nodes_spec inv (empty_graph, ∅)) as (Hidx & Hcov & _ & Hedges).
  { intros c s u Hu. cbn in Hu. by rewrite lookup_empty in Hu. }
  destruct (_build_graph_nodes inv (empty_graph, ∅)) as [g0 ni]. cbn [fst snd] in *.
  destruct (build_edges_spec inv ni BRIDGE_ASSETS Hnd BRIDGE_ASSETS_NoDup) with (g := g0)
    as (g & Hrun & Hn & Hall); [|done|].
  { intros s c Hc. unfold chains_with_asset in Hc.
    apply list_elem_of_fmap in Hc as ([c' toks] & -> & [Hs Hi]%list_elem_of_filter).
    by eapply Hcov. }
  exists g. split; [exact Hrun|].
  destruct (Hall symbol) as (extra & Hex & Hlen & HQ).
  assert (Hnil : edges_of_symbol g0 symbol = []).
  { unfold edges_of_symbol. by rewrite Hedges. }
  rewrite Hex, Hnil. cbn [app]. rewrite decide_True in Hlen by done.
  split; [done|].
  eapply Forall_impl; [exact HQ|]. intros e. unfold bridge_edge_of.
  by rewrite !(symbol_at_nodes g0 g), !(chain_at_nodes g0 g).
Qed.

Lemma bridge_edges_per_symbol_witness :
  ∃ g, build_graph three_chains = Some g
       ∧ length (edges_of_symbol g "USDC") = (3 * (3 - 1))%nat
       ∧ Forall (bridge_edge_of g "USDC") (edges_of_symbol g "USDC").
Proof.
  apply (bridge_edges_per_symbol three_chains "USDC").
  - apply (bool_decide_unpack _). vm_compute. exact I.
  - apply (bool_decide_unpack _). vm_compute. exact I.
Defined.

(** The scenario, computed: six USDC edges, two WETH edges. *)
Example three_chains_six_edges :
  (λ g, (length (edges_of_symbol g "USDC"), length (edges_of_symbol g "WETH"),
         length (edges g))) <$> build_graph three_chains
  = Some (6%nat, 2%nat, 8%nat).
Proof. vm_compute. reflexivity. Qed.

End OmniBrainSpec.

(** ** The loan-sizing guard *)
Module TitanCommanderSpec.
Import TitanCommander.

(** No verified liquidity, no loan. *)
Lemma abort_without_liquidity (tvl : tvl_outcome) (target : Z) (decimals : N) :
  tvl = TvlRaises ∨ tvl = TvlValue 0 ->
  optimize_loan_size tvl target decimals = Some 0.
Proof. intros [->| ->]; reflexivity. Qed.


(** A clamped amount below the floor aborts. *)
Lemma abort_below_floor (pool_liquidity target : Z) (decimals : N) (max_cap : Z) :
  max_cap_of pool_liquidity = Some max_cap ->
  Z.min target max_cap < min_floor_of decimals ->
  optimize_loan_size (TvlValue pool_liquidity) target decimals = Some 0.
Proof.
  intros Hcap Hlt. unfold optimize_loan_size.
  destruct (pool_liquidity =? 0); [done|]. rewrite Hcap. cbn.
  destruct (target >? max_cap) eqn:Hgt; rewrite Z.gtb_ltb in Hgt.
  - apply Z.ltb_lt in Hgt. rewrite (proj2 (Z.ltb_lt _ _)); [done|lia].
  - apply Z.ltb_ge in Hgt. rewrite (proj2 (Z.ltb_lt _ _)); [done|lia].
Qed.

(** The scenario of the design document: liquidity 1,000,000 gives the
    cap 200,000; the request 500,000 is clamped to it; with 6 decimals
    the floor is 500,000,000, so the guard aborts. *)
Example scenario_one_million :
  max_cap_of 1000000 = Some 200000
  ∧ min_floor_of 6 = 500000000
  ∧ optimize_loan_size (TvlValue 1000000) 500000 6 = Some 0.
Proof. repeat split; vm_compute; reflexivity. Qed.

(** C1, at an input where the code leaves the bound.  A pool holding
    30000.000000000002097152 tokens of 18 decimals, and the scan loop's
    request of 10000 tokens: the guard answers
    6000.000000000001048576 tokens.  One fifth of the pool, rounded
    down, is 6000.000000000000419430 tokens; and the pool times the
    double written [0.20], computed exactly and rounded down, is
    6000.000000000000752497 tokens.  The floating-point product
    [pool_liquidity * 0.20] was rounded upwards. *)
Theorem loan_above_share_of_pool :
  let pool_liquidity := 30000000000000002097152 in
  let returned := 6000000000000001048576 in
  optimize_loan_size (TvlValue pool_liquidity) (10000 * 10 ^ 18) 18 = Some returned
  ∧ pool_liquidity / 5 = 6000000000000000419430
  ∧ pool_liquidity * 7205759403792794 / 2 ^ 55 = 6000000000000000752497
  ∧ returned > pool_liquidity / 5
  ∧ returned > pool_liquidity * 7205759403792794 / 2 ^ 55.
Proof. repeat split; vm_compute; reflexivity. Qed.

End TitanCommanderSpec.

(** ** Decimal arithmetic *)
Module PyDecimalFacts.
Import PyDecimal.

Local Open Scope Q_scope.

Lemma ten_nonzero : ¬ (10 # 1) == 0.
Proof. discriminate. Qed.

Lemma pow10_inject (k : Z) : (0 <= k)%Z -> inject_Z (10 ^ k) == (10 # 1) ^ k.
Proof. intros Hk. apply (Zpower_Qpower 10 k Hk). Qed.

Lemma pow10_shift (e e' : Z) :
  (e' <= e)%Z -> inject_Z (10 ^ (e - e')) * (10 # 1) ^ e' == (10 # 1) ^ e.
Proof.
  intros Hle. rewrite pow10_inject by lia.
  rewrite <- Qpower_plus by apply ten_nonzero.
  replace (e - e' + e')%Z with e by lia. reflexivity.
Qed.

Lemma pow10_pos (e : Z) : 0 < (10 # 1) ^ e.
Proof. apply Qpower_0_lt. reflexivity. Qed.

Lemma signed_neg (d : decimal) : signed (neg d) = (- signed d)%Z.
Proof. unfold signed, neg. cbn. destruct (d_sign d); cbn; lia. Qed.

Lemma signed_add_exact (a b : decimal) :
  signed (add_exact a b)
  = (signed a * 10 ^ (d_exp a - Z.min (d_exp a) (d_exp b))
     + signed b * 10 ^ (d_exp b - Z.min (d_exp a) (d_exp b)))%Z.
Proof.
  unfold add_exact. cbn zeta.
  set (s := (signed a * _ + signed b * _)%Z).
  unfold signed at 1. cbn [d_sign d_coef]. rewrite N2Z.inj_abs_N.
  destruct (s =? 0)%Z eqn:E0.
  - apply Z.eqb_eq in E0. rewrite E0. cbn. by destruct (_ && _).
  - apply Z.eqb_neq in E0. destruct (s <? 0)%Z eqn:El.
    + apply Z.ltb_lt in El. lia.
    + apply Z.ltb_ge in El. lia.
Qed.

Lemma signed_mul_exact (a b : decimal) :
  signed (mul_exact a b) = (signed a * signed b)%Z.
Proof.
  unfold signed, mul_exact. cbn [d_sign d_coef]. rewrite N2Z.inj_mul.
  destruct (d_sign a), (d_sign b); cbn; lia.
Qed.

Lemma value_neg (d : decimal) : value (neg d) == - value d.
Proof. unfold value. rewrite signed_neg, inject_Z_opp. cbn [neg d_exp]. ring. Qed.

Lemma value_add_exact (a b : decimal) :
  value (add_exact a b) == value a + value b.
Proof.
  unfold value. rewrite signed_add_exact. cbn [add_exact d_exp].
  set (e := Z.min (d_exp a) (d_exp b)).
  rewrite inject_Z_plus, !inject_Z_mult.
  rewrite <- (pow10_shift (d_exp a) e) by lia.
  rewrite <- (pow10_shift (d_exp b) e) by lia. ring.
Qed.

Lemma value_sub_exact (a b : decimal) :
  value (sub_exact a b) == value a - value b.
Proof. unfold sub_exact. rewrite value_add_exact, value_neg. ring. Qed.

Lemma value_mul_exact (a b : decimal) :
  value (mul_exact a b) == value a * value b.
Proof.
  unfold value. rewrite signed_mul_exact, inject_Z_mult. cbn [mul_exact d_exp].
  rewrite Qpower_plus by apply ten_nonzero. ring.
Qed.

(** A result that fits the context is not rounded. *)
Lemma fix_fits (d : decimal) : fits d -> _fix d = Some d.
Proof.
  unfold fits, _fix, Etiny, Etop, Emax, Emin, prec. intros (Hd & Hlo & Hhi).
  destruct (d_coef d =? 0)%N eqn:E0.
  - apply N.eqb_eq in E0. destruct d as [s c e]. cbn in *. subst c.
    f_equal. f_equal. lia.
  - destruct (_ >? _)%Z eqn:Hgt.
    { rewrite Z.gtb_ltb in Hgt. apply Z.ltb_lt in Hgt. lia. }
    destruct (_ <? _)%Z eqn:Hlt; [|done].
    apply Z.ltb_lt in Hlt. lia.
Qed.

(** [d > 0] holds exactly when the value is positive. *)
Lemma gt_zero (d : decimal) : gt d (of_int 0) = true <-> 0 < value d.
Proof.
  unfold gt, cmp, value. cbn [of_int d_exp]. change (signed (of_int 0)) with 0%Z.
  rewrite Z.mul_0_l.
  set (k := (d_exp d - Z.min (d_exp d) 0)%Z).
  assert (Hk : (0 < 10 ^ k)%Z) by (apply Z.pow_pos_nonneg; lia).
  pose proof (pow10_pos (d_exp d)) as Hp.
  split.
  - destruct (_ ?= _)%Z eqn:Hc; try done. intros _.
    apply Z.compare_gt_iff in Hc.
    assert (0 < signed d)%Z as Hs by nia.
    apply Qmult_lt_0_compat; [|done]. change 0%Q with (inject_Z 0). rewrite <- Zlt_Qlt. exact Hs.
  - intros Hv.
    assert (0 < signed d)%Z as Hs.
    { destruct (Z_lt_le_dec 0 (signed d)) as [|Hle]; [done|exfalso].
      apply (Qlt_irrefl 0). eapply Qlt_le_trans; [exact Hv|].
      rewrite <- (Qmult_0_l ((10 # 1) ^ d_exp d)).
      apply Qmult_le_compat_r; [|by apply Qlt_le_weak].
      change 0%Q with (inject_Z 0). rewrite <- Zle_Qle. exact Hle. }
    rewrite (proj2 (Z.compare_gt_iff _ _)); [done|nia].
Qed.

End PyDecimalFacts.

(** ** The profit equation *)
Module ProfitEngineSpec.
Import PyDecimal PyDecimalFacts ProfitEngine ProfitEngineTerms.

Local Open Scope Q_scope.

(** Whatever was rounded on the way, the flag is the strict sign of the
    net profit that is returned: zero is not profitable. *)
Lemma is_profitable_strict (self : profit_engine)
    (amount amount_out bridge_fee gas_fee : decimal) (r : profit) :
  calculate_enhanced_profit self amount amount_out bridge_fee gas_fee = Some r ->
  (is_profitable r = true <-> 0 < value (net_profit r)).
Proof.
  unfold calculate_enhanced_profit. intros H.
  repeat (match type of H with
          | context [mbind _ ?o] => destruct o; cbn in H; [|done]
          end).
  injection H as <-. cbn [is_profitable net_profit]. apply gt_zero.
Qed.

(** C6, as the code has it.  Each [+], [-] and [*] of the method is a
    [Decimal] operation of the 28-digit context: exact, then rounded.
    When no intermediate result needs rounding, the method returns, and
    the three amounts are exactly those of the equation; the flag is
    the strict sign of the net profit. *)
Theorem calculate_enhanced_profit_exact (self : profit_engine)
    (amount amount_out bridge_fee gas_fee : decimal) :
  fits (mul_exact amount (flash_fee self)) ->
  fits (add_exact bridge_fee gas_fee) ->
  fits (add_exact (add_exact bridge_fee gas_fee) (mul_exact amount (flash_fee self))) ->
  fits (sub_exact amount_out amount) ->
  fits (sub_exact (sub_exact amount_out amount)
          (add_exact (add_exact bridge_fee gas_fee) (mul_exact amount (flash_fee self)))) ->
  ∃ r, calculate_enhanced_profit self amount amount_out bridge_fee gas_fee = Some r
    ∧ value (net_profit r) == exact_net (flash_fee self) amount amount_out bridge_fee gas_fee
    ∧ value (total_fees r) == exact_fees (flash_fee self) amount bridge_fee gas_fee
    ∧ value (gross_spread r) == value amount_out - value amount
    ∧ (is_profitable r = true <-> 0 < value (net_profit r)).
Proof.
  intros H1 H2 H3 H4 H5.
  unfold calculate_enhanced_profit, mul, add, sub.
  rewrite (fix_fits _ H1). cbn [mbind option_bind].
  rewrite (fix_fits _ H2). cbn [mbind option_bind].
  rewrite (fix_fits _ H3). cbn [mbind option_bind].
  rewrite (fix_fits _ H4). cbn [mbind option_bind].
  rewrite (fix_fits _ H5). cbn [mbind option_bind].
  eexists. split; [reflexivity|]. cbn [net_profit total_fees gross_spread is_profitable].
  unfold exact_net, exact_fees.
  split; [|split; [|split]]; [| | |apply gt_zero];
    rewrite ?value_sub_exact, ?value_add_exact, ?value_mul_exact; ring.
Qed.

(** Borrow 10000.00, get 10025.50 back, pay 2.00 of gas and a flash fee
    of 0.05 %: 18.495000 of net profit. *)
Lemma calculate_enhanced_profit_exact_witness :
  ∃ r, calculate_enhanced_profit
         {| flash_fee := {| d_sign := false; d_coef := 5; d_exp := -4 |} |}
         {| d_sign := false; d_coef := 1000000; d_exp := -2 |}
         {| d_sign := false; d_coef := 1002550; d_exp := -2 |}
         (of_int 0)
         {| d_sign := false; d_coef := 200; d_exp := -2 |} = Some r
    ∧ value (net_profit r)
      == exact_net {| d_sign := false; d_coef := 5; d_exp := -4 |}
           {| d_sign := false; d_coef := 1000000; d_exp := -2 |}
           {| d_sign := false; d_coef := 1002550; d_exp := -2 |}
           (of_int 0)
           {| d_sign := false; d_coef := 200; d_exp := -2 |}
    ∧ value (total_fees r)
      == exact_fees {| d_sign := false; d_coef := 5; d_exp := -4 |}
           {| d_sign := false; d_coef := 1000000; d_exp := -2 |}
           (of_int 0)
           {| d_sign := false; d_coef := 200; d_exp := -2 |}
    ∧ value (gross_spread r)
      == value {| d_sign := false; d_coef := 1002550; d_exp := -2 |}
         - value {| d_sign := false; d_coef := 1000000; d_exp := -2 |}
    ∧ (is_profitable r = true <-> 0 < value (net_profit r)).
Proof.
  apply (calculate_enhanced_profit_exact
           {| flash_fee := {| d_sign := false; d_coef := 5; d_exp := -4 |} |});
    (split; [|split]); vm_compute; discriminate.
Defined.

(** The claim as stated fails.  Borrow 1, get
    3.00000000000000000000000000001 back (30 digits), pay 2.00 of gas,
    no flash fee: the spread is rounded to 28 digits, the net profit
    returned is 0 and the trade is reported unprofitable, while the
    equation gives 0.00000000000000000000000000001 > 0. *)
Lemma net_profit_is_rounded :
  let engine := {| flash_fee := default_flash_fee |} in
  let amount := of_int 1 in
  let amount_out :=
    {| d_sign := false; d_coef := 300000000000000000000000000001; d_exp := -29 |} in
  let bridge_fee := of_int 0 in
  let gas_fee := {| d_sign := false; d_coef := 200; d_exp := -2 |} in
  ∃ r, calculate_enhanced_profit engine amount amount_out bridge_fee gas_fee = Some r
    ∧ net_profit r = {| d_sign := false; d_coef := 0; d_exp := -27 |}
    ∧ is_profitable r = false
    ∧ 0 < exact_net (flash_fee engine) amount amount_out bridge_fee gas_fee
    ∧ ¬ value (net_profit r)
        == exact_net (flash_fee engine) amount amount_out bridge_fee gas_fee.
Proof.
  cbn zeta. eexists. split; [vm_compute; reflexivity|].
  split; [reflexivity|]. split; [reflexivity|].
  split; vm_compute; [reflexivity|discriminate].
Qed.

End ProfitEngineSpec.

(** ** Execution modes *)
Module ExecutionModesSpec.
Import PyDecimal Py ExecutionModes ExecutionModesTerms.

(** *** Recording results *)

(** Projections of the updated records, without touching the decimal
    arithmetic. *)
Ltac record_simpl :=
  cbn [LiveMainnetExecutor.with_success LiveMainnetExecutor.with_profit LiveMainnetExecutor.with_history LiveMainnetExecutor.with_trades
       LiveMainnetExecutor.total_profit LiveMainnetExecutor.successful_trades LiveMainnetExecutor.total_trades
       LiveMainnetExecutor.redis_enabled LiveMainnetExecutor.redis_client LiveMainnetExecutor.trade_history
       srem_pending lpush_live sadd_pending publish_signal
       pending_txs down trade_signals live_trades fst snd].

(** What one delivery does. *)
Lemma record_execution_result_once (self : LiveMainnetExecutor.executor) (rs : redis_server)
    (trade_id : string) (result : dict) :
  let '(o, self', rs') := LiveMainnetExecutor.record_execution_result self rs trade_id result in
  LiveMainnetExecutor.connected self' rs' = LiveMainnetExecutor.connected self rs
  ∧ pending_txs rs'
    = (if LiveMainnetExecutor.connected self rs then pending_txs rs ∖ {[trade_id]} else pending_txs rs)
  ∧ LiveMainnetExecutor.successful_trades self'
    = (if is_success result then LiveMainnetExecutor.successful_trades self + 1
       else LiveMainnetExecutor.successful_trades self)
  ∧ (if is_success result then
       o = Return tt ->
       ∃ profit, decimal_of (get result "actual_profit" (VInt 0)) = Return profit
                 ∧ add (LiveMainnetExecutor.total_profit self) profit = Some (LiveMainnetExecutor.total_profit self')
     else o = Return tt ∧ LiveMainnetExecutor.total_profit self' = LiveMainnetExecutor.total_profit self).
Proof.
  unfold LiveMainnetExecutor.record_execution_result, is_success.
  set (rs1 := if LiveMainnetExecutor.connected self rs then srem_pending rs trade_id else rs).
  assert (Hdown : down rs1 = down rs) by (subst rs1; by destruct (LiveMainnetExecutor.connected self rs)).
  assert (Hpend : pending_txs rs1
                  = (if LiveMainnetExecutor.connected self rs then pending_txs rs ∖ {[trade_id]}
                     else pending_txs rs)) by (subst rs1; by destruct (LiveMainnetExecutor.connected self rs)).
  assert (Hstore : ∀ self0, LiveMainnetExecutor.redis_enabled self0 = LiveMainnetExecutor.redis_enabled self ->
                            LiveMainnetExecutor.redis_client self0 = LiveMainnetExecutor.redis_client self ->
            let '(o, self', rs') := LiveMainnetExecutor.store_result self0 rs1 result in
            o = Return tt ∧ LiveMainnetExecutor.connected self' rs' = LiveMainnetExecutor.connected self rs
            ∧ pending_txs rs' = pending_txs rs1
            ∧ LiveMainnetExecutor.successful_trades self' = LiveMainnetExecutor.successful_trades self0
            ∧ LiveMainnetExecutor.total_profit self' = LiveMainnetExecutor.total_profit self0).
  { intros self0 He Hc. unfold LiveMainnetExecutor.store_result, LiveMainnetExecutor.connected. record_simpl.
    rewrite He, Hc, Hdown.
    destruct (LiveMainnetExecutor.redis_enabled self && LiveMainnetExecutor.redis_client self
              && bool_decide (down rs = None)) eqn:E; record_simpl;
      rewrite ?He, ?Hc, ?Hdown, ?E; repeat split; reflexivity. }
  clearbody rs1.
  destruct (eq_str (result !! "status") "SUCCESS").
  - destruct (decimal_of (get result "actual_profit" (VInt 0))) as [profit|e].
    + record_simpl.
      destruct (add (LiveMainnetExecutor.total_profit self) profit) as [tp|] eqn:Ha.
      * specialize (Hstore (LiveMainnetExecutor.with_profit
                              (LiveMainnetExecutor.with_success self (LiveMainnetExecutor.successful_trades self + 1)) tp)
                           eq_refl eq_refl).
        destruct (LiveMainnetExecutor.store_result _ rs1 result) as [[o self'] rs'].
        destruct Hstore as (-> & Hc & Hp & Hn & Ht).
        split; [exact Hc|]. split; [by rewrite Hp|]. split; [exact Hn|].
        intros _. exists profit. split; [reflexivity|]. rewrite Ht. exact Ha.
      * unfold LiveMainnetExecutor.connected. record_simpl. rewrite Hdown.
        split; [reflexivity|]. split; [exact Hpend|]. split; [reflexivity|]. discriminate.
    + unfold LiveMainnetExecutor.connected. record_simpl. rewrite Hdown.
      split; [reflexivity|]. split; [exact Hpend|]. split; [reflexivity|]. discriminate.
  - specialize (Hstore self eq_refl eq_refl).
    destruct (LiveMainnetExecutor.store_result self rs1 result) as [[o self'] rs'].
    destruct Hstore as (-> & Hc & Hp & Hn & Ht).
    split; [exact Hc|]. split; [by rewrite Hp|]. split; [exact Hn|].
    split; [reflexivity|exact Ht].
Qed.

(** C3, as the code has it.  Nothing in [record_execution_result]
    remembers which trade ids were recorded.  Delivering the same
    [(trade_id, result)] a second time changes neither counter when the
    result is not a success, and leaves the pending set as the first
    delivery left it; a success is counted again: [successful_trades]
    grows by one more, and when the call returns, [total_profit] has
    grown by the profit once more. *)
Theorem record_execution_result_twice (self : LiveMainnetExecutor.executor) (rs : redis_server)
    (trade_id : string) (result : dict) :
  let '(o1, self1, rs1) := LiveMainnetExecutor.record_execution_result self rs trade_id result in
  let '(o2, self2, rs2) := LiveMainnetExecutor.record_execution_result self1 rs1 trade_id result in
  pending_txs rs2 = pending_txs rs1
  ∧ if is_success result then
      LiveMainnetExecutor.successful_trades self2 = LiveMainnetExecutor.successful_trades self1 + 1
      ∧ (o2 = Return tt ->
         ∃ profit, decimal_of (get result "actual_profit" (VInt 0)) = Return profit
                   ∧ add (LiveMainnetExecutor.total_profit self1) profit = Some (LiveMainnetExecutor.total_profit self2))
    else
      o1 = Return tt ∧ o2 = Return tt
      ∧ LiveMainnetExecutor.successful_trades self2 = LiveMainnetExecutor.successful_trades self1
      ∧ LiveMainnetExecutor.total_profit self2 = LiveMainnetExecutor.total_profit self1.
Proof.
  pose proof (record_execution_result_once self rs trade_id result) as H1.
  destruct (LiveMainnetExecutor.record_execution_result self rs trade_id result) as [[o1 self1] rs1].
  pose proof (record_execution_result_once self1 rs1 trade_id result) as H2.
  destruct (LiveMainnetExecutor.record_execution_result self1 rs1 trade_id result) as [[o2 self2] rs2].
  destruct H1 as (Hc1 & Hp1 & Hn1 & Ht1), H2 as (Hc2 & Hp2 & Hn2 & Ht2).
  split.
  - rewrite Hp2, Hc1, Hp1.
    destruct (LiveMainnetExecutor.connected self rs); [|reflexivity].
    apply set_eq. intros x. rewrite !elem_of_difference. tauto.
  - destruct (is_success result).
    + split; [done|]. exact Ht2.
    + destruct Ht1 as [-> Ht1], Ht2 as [-> Ht2]. done.
Qed.

(** The claim as stated fails: the same confirmation of a profit of
    12.5, delivered twice, is counted twice. *)
Lemma second_delivery_counts_again :
  let self := LiveMainnetExecutor.with_trades (LiveMainnetExecutor.fresh true) 1 in
  let rs := sadd_pending empty_redis "LIVE_137_1" in
  let result : dict :=
    list_to_map [("status", VStr "SUCCESS");
                 ("actual_profit", VFloat (S754_finite false 7036874417766400 (-49)) "12.5")] in
  let '(o1, self1, rs1) := LiveMainnetExecutor.record_execution_result self rs "LIVE_137_1" result in
  let '(o2, self2, rs2) := LiveMainnetExecutor.record_execution_result self1 rs1 "LIVE_137_1" result in
  o1 = Return tt ∧ o2 = Return tt
  ∧ LiveMainnetExecutor.successful_trades self1 = 1 ∧ LiveMainnetExecutor.successful_trades self2 = 2
  ∧ LiveMainnetExecutor.total_profit self1 = {| d_sign := false; d_coef := 125; d_exp := -1 |}
  ∧ LiveMainnetExecutor.total_profit self2 = {| d_sign := false; d_coef := 250; d_exp := -1 |}
  ∧ (LiveMainnetExecutor.successful_trades self2, LiveMainnetExecutor.total_profit self2)
    ≠ (LiveMainnetExecutor.successful_trades self1, LiveMainnetExecutor.total_profit self1).
Proof. vm_compute. repeat split; discriminate. Qed.

(** *** Pre-flight validation *)

(** The part of C5 that holds.  When the signal carries [chainId] and a
    pre-execution check fails, [execute_trade] returns FAILED with the
    reason of that check and leaves the Redis server as it was: nothing
    was marked pending, nothing was published. *)
Lemma execute_trade_rejects (env : gmap string string) (now : string)
    (self : LiveMainnetExecutor.executor) (rs : redis_server) (trade_signal : dict)
    (chain : pyval) (reason : string) :
  trade_signal !! "chainId" = Some chain ->
  LiveMainnetExecutor.pre_execution_checks env (LiveMainnetExecutor.with_trades self (LiveMainnetExecutor.total_trades self + 1))
    rs trade_signal = Return (false, reason) ->
  ∃ id, LiveMainnetExecutor.execute_trade env now self rs trade_signal
        = (Return (LiveMainnetExecutor.failed_result id reason),
           LiveMainnetExecutor.with_trades self (LiveMainnetExecutor.total_trades self + 1), rs).
Proof.
  intros Hc Hpre. unfold LiveMainnetExecutor.execute_trade. rewrite Hc, Hpre. eauto.
Qed.

(** The checks do not depend on the trade counter. *)
Lemma pre_execution_checks_counter (env : gmap string string) (self : LiveMainnetExecutor.executor)
    (rs : redis_server) (trade_signal : dict) (n : Z) :
  LiveMainnetExecutor.pre_execution_checks env (LiveMainnetExecutor.with_trades self n) rs trade_signal
  = LiveMainnetExecutor.pre_execution_checks env self rs trade_signal.
Proof. reflexivity. Qed.

(** The scenario of the design document: an expected profit of 4.99
    against the minimum 5.0. *)
Example profit_below_minimum :
  LiveMainnetExecutor.execute_trade funded_env "2025-12-09T10:00:00" (LiveMainnetExecutor.fresh true) empty_redis
    (<["expected_profit" := VFloat (S754_finite false 5618240535144694 (-50)) "4.99"]>
       sound_signal)
  = (Return (LiveMainnetExecutor.failed_result "LIVE_137_1" "Profit $4.99 below minimum $5.0"),
     LiveMainnetExecutor.with_trades (LiveMainnetExecutor.fresh true) 1, empty_redis).
Proof. vm_compute. reflexivity. Qed.

(** A signal that passes is marked pending and published. *)
Example sound_signal_submitted :
  let '(o, _, rs) :=
    LiveMainnetExecutor.execute_trade funded_env "2025-12-09T10:00:00" (LiveMainnetExecutor.fresh true) empty_redis
      sound_signal in
  (status <$> (match o with Return r => Some r | Raise _ => None end)) = Some SUBMITTED
  ∧ pending_txs rs = {["LIVE_137_1"]} ∧ length (trade_signals rs) = 1%nat.
Proof. vm_compute. repeat split. Qed.

(** C5, at an input where the code leaves it.  The signal lacks
    [chainId], one of the six required fields.  The check of the required
    fields fails with its reason, but [execute_trade] reads
    [trade_signal['chainId']] to build the trade id before it runs the
    checks: the call raises [KeyError] instead of returning FAILED.
    (Nothing was marked pending or published.) *)
Theorem missing_chain_id_raises :
  let trade_signal := delete "chainId" sound_signal in
  LiveMainnetExecutor.pre_execution_checks funded_env (LiveMainnetExecutor.fresh true) empty_redis trade_signal
  = Return (false, "Missing required fields: ['chainId']")
  ∧ LiveMainnetExecutor.execute_trade funded_env "2025-12-09T10:00:00" (LiveMainnetExecutor.fresh true) empty_redis
      trade_signal
    = (Raise (KeyError "chainId"), LiveMainnetExecutor.with_trades (LiveMainnetExecutor.fresh true) 1, empty_redis).
Proof. vm_compute. split; reflexivity. Qed.

End ExecutionModesSpec.

(** ** Hybrid routing *)
Module HybridSpec.
Import PyDecimal Py ExecutionModes ExecutionModes.HybridExecutionManager ExecutionModesTerms.

(** Both executors count every call, whatever its outcome. *)
Lemma live_counts_call (e : gmap string string) (now : string) (self : LiveMainnetExecutor.executor)
    (rs : redis_server) (trade_signal : dict) :
  LiveMainnetExecutor.total_trades (LiveMainnetExecutor.execute_trade e now self rs trade_signal).1.2
  = LiveMainnetExecutor.total_trades self + 1.
Proof.
  unfold LiveMainnetExecutor.execute_trade.
  repeat (case_match; try reflexivity).
Qed.

Lemma paper_counts_call (now : string) (self : PaperTradingSimulator.simulator)
    (rs : redis_server) (trade_signal : dict) :
  PaperTradingSimulator.total_trades (PaperTradingSimulator.execute_trade now self rs trade_signal).1.2
  = PaperTradingSimulator.total_trades self + 1.
Proof.
  unfold PaperTradingSimulator.execute_trade.
  repeat (case_match; try reflexivity).
Qed.

Lemma via_live_counts (now : string) (self : manager) (w : world) (trade_signal : dict) :
  LiveMainnetExecutor.total_trades (live_executor (via_live now self w trade_signal).1.2)
  = LiveMainnetExecutor.total_trades (live_executor self) + 1
  ∧ paper_simulator (via_live now self w trade_signal).1.2 = paper_simulator self.
Proof.
  unfold via_live.
  pose proof (live_counts_call (env w) now (live_executor self) (live_db w) trade_signal) as H.
  destruct (LiveMainnetExecutor.execute_trade _ _ _ _ _) as [[r live] db]. done.
Qed.

Lemma via_paper_counts (now : string) (self : manager) (w : world) (trade_signal : dict) :
  PaperTradingSimulator.total_trades (paper_simulator (via_paper now self w trade_signal).1.2)
  = PaperTradingSimulator.total_trades (paper_simulator self) + 1
  ∧ live_executor (via_paper now self w trade_signal).1.2 = live_executor self.
Proof.
  unfold via_paper.
  pose proof (paper_counts_call now (paper_simulator self) (paper_db w) trade_signal) as H.
  destruct (PaperTradingSimulator.execute_trade _ _ _ _) as [[r paper] db]. done.
Qed.

(** The route decides which executor runs, and each executor's counter
    tells which one ran. *)
Lemma routing_decides (now : string) (self : manager) (w : world)
    (trade_signal : dict) :
  (routing self trade_signal = Return ToLive
   <-> execute_trade now self w trade_signal = via_live now self w trade_signal)
  ∧ (routing self trade_signal = Return ToPaper
     <-> execute_trade now self w trade_signal = via_paper now self w trade_signal).
Proof.
  unfold execute_trade.
  destruct (via_live_counts now self w trade_signal) as [Hl1 Hl2].
  destruct (via_paper_counts now self w trade_signal) as [Hp1 Hp2].
  destruct (routing self trade_signal) as [[|]|e].
  - split; (split; [|try done]); try done.
    change (let '(r, live, db) := LiveMainnetExecutor.execute_trade (env w) now (live_executor self)
                                    (live_db w) trade_signal in _)
      with (via_live now self w trade_signal).
    intros Heq. rewrite Heq in Hl1. rewrite Hp2 in Hl1. lia.
  - split; (split; [|try done]); try done.
    change (let '(r, paper, db) := PaperTradingSimulator.execute_trade now (paper_simulator self)
                                     (paper_db w) trade_signal in _)
      with (via_paper now self w trade_signal).
    intros Heq. rewrite Heq in Hp1. rewrite Hl2 in Hp1. lia.
  - split; (split; [done|]); intros Heq.
    + rewrite <- Heq in Hl1. cbn in Hl1. lia.
    + rewrite <- Heq in Hp1. cbn in Hp1. lia.
Qed.

Lemma routing_by_confidence (self : manager) (trade_signal : dict) :
  let confidence := get trade_signal "confidence_score" (VFloat PyFloat.lit_0_0 "0.0") in
  (ge_float confidence (confidence_threshold self) = Return true
   <-> routing self trade_signal = Return ToLive)
  ∧ (ge_float confidence (confidence_threshold self) = Return false
     <-> routing self trade_signal = Return ToPaper).
Proof.
  cbn zeta. unfold routing.
  destruct (ge_float _ _) as [[|]|e]; repeat split; congruence.
Qed.


(** On floats the test is the IEEE comparison, and a tie goes to the
    live executor. *)
Lemma ge_float_float (x t : spec_float) (repr : string) :
  ge_float (VFloat x repr) t = Return (PyFloat.ge x t).
Proof. reflexivity. Qed.

Lemma ge_tie (x : spec_float) : x ≠ S754_nan -> PyFloat.ge x x = true.
Proof.
  intros Hx. unfold PyFloat.ge.
  destruct x as [[]|[]| |[] m e]; try done; cbn;
    rewrite Z.compare_refl, Pos.compare_cont_refl; done.
Qed.

Lemma tie_goes_live (now : string) (self : manager) (w : world)
    (trade_signal : dict) (repr : string) :
  trade_signal !! "confidence_score" = Some (VFloat (confidence_threshold self) repr) ->
  confidence_threshold self ≠ S754_nan ->
  execute_trade now self w trade_signal = via_live now self w trade_signal.
Proof.
  intros Hc Hn.
  apply routing_decides. apply routing_by_confidence.
  unfold get. rewrite Hc. cbn [default from_option id].
  rewrite ge_float_float. f_equal. by apply ge_tie.
Qed.

(** The scenario of the design document: threshold 0.85, confidence
    0.85.  The call reaches the live executor, which counts it. *)
Example tie_at_085 :
  let w := {| env := funded_env;
              live_db := empty_redis;
              paper_db := empty_redis |} in
  let trade_signal :=
    <["confidence_score" := VFloat PyFloat.lit_0_85 "0.85"]> sound_signal in
  let '(o, self', w') := execute_trade "2025-12-09T10:00:00" hybrid_085 w trade_signal in
  (is_paper <$> (match o with Return r => Some r | Raise _ => None end)) = Some false
  ∧ LiveMainnetExecutor.total_trades (live_executor self') = 1
  ∧ PaperTradingSimulator.total_trades (paper_simulator self') = 0.
Proof. vm_compute. repeat split. Qed.

(** Just below the threshold the simulator gets the signal. *)
Example below_085 :
  let w := {| env := funded_env;
              live_db := empty_redis;
              paper_db := empty_redis |} in
  let trade_signal :=
    <["confidence_score" := VFloat (S754_finite false 7656119366529842 (-53)) "0.8499999999999999"]>
      sound_signal in
  let '(o, self', w') := execute_trade "2025-12-09T10:00:00" hybrid_085 w trade_signal in
  (status <$> (match o with Return r => Some r | Raise _ => None end)) = Some SIMULATED
  ∧ LiveMainnetExecutor.total_trades (live_executor self') = 0
  ∧ PaperTradingSimulator.total_trades (paper_simulator self') = 1.
Proof. vm_compute. repeat split. Qed.

End HybridSpec.


(** * Further properties *)

(** ** The execution client and manager *)
Module ExecutionClientSpec.
Import ExecutionManager ExecutionManagerTerms ExecutionClient FurtherTerms.

Lemma retry_loop_retried (max_retries : Z) (srv : server) (n : nat) :
  ∀ attempt st, Z.of_nat n = max_retries - attempt -> (1 <= n)%nat ->
    let '(st', _, tr) := retry_loop max_retries srv n attempt st in
    retried st' = retried st + Z.of_nat (sleeps tr)
    ∧ invocations tr = S (sleeps tr).
Proof.
  induction n as [|n IH]; intros attempt st Hn Hpos; [lia|].
  cbn [retry_loop].
  assert (Hstep : (attempt <? max_retries - 1) = true ->
            let '(st', _, tr) :=
              retry_loop max_retries srv n (attempt + 1) (incr_retried st) in
            retried st' = retried st + 1 + Z.of_nat (sleeps tr)
            ∧ invocations tr = S (sleeps tr)).
  { intros Hlt%Z.ltb_lt. specialize (IH (attempt + 1) (incr_retried st)).
    destruct (retry_loop max_retries srv n (attempt + 1) (incr_retried st)) as [[st' r'] tr].
    destruct IH as [Hr Hi]; [lia|lia|]. split; [exact Hr|exact Hi]. }
  destruct (srv attempt) as [r|e]; [destruct (success r)|];
    try (cbn; split; [lia|reflexivity]);
    (destruct (attempt <? max_retries - 1) eqn:Hlt;
     [specialize (Hstep eq_refl);
      destruct (retry_loop max_retries srv n (attempt + 1) (incr_retried st)) as [[st' r'] tr];
      destruct Hstep as [Hr Hi]; unfold invocations, sleeps in *; cbn in *; lia
     |cbn; split; [lia|reflexivity]]).
Qed.

(** X1.  With [max_retries >= 1], [execute_signal] runs once more than
    the manager sleeps, and [retried] grows by the number of sleeps:
    every retry is counted and preceded by its pause. *)
Theorem submit_trade_retried (max_retries : Z) (srv : server) (st : stats_t) :
  1 <= max_retries ->
  let '(st', _, tr) := submit_trade max_retries srv st in
  retried st' = retried st + Z.of_nat (sleeps tr)
  ∧ invocations tr = S (sleeps tr).
Proof.
  intros H. unfold submit_trade.
  apply (retry_loop_retried max_retries srv (Z.to_nat max_retries) 0 (incr_sent st)); lia.
Qed.

Lemma submit_trade_retried_witness :
  let '(st', _, tr) :=
    submit_trade 3 (λ a, if a <? 1 then Raised "reset"
                         else Returned {| success := true; mode := None;
                                          txHash := None; error := None |}) stats0 in
  retried st' = retried stats0 + Z.of_nat (sleeps tr)
  ∧ invocations tr = S (sleeps tr).
Proof.
  apply (submit_trade_retried 3). lia.
Defined.

(** X2.  With [max_retries <= 0] the loop body never runs: nothing is
    sent to the server, the answer is "Max retries exceeded", and the
    submission is counted as sent but neither as succeeded nor as
    failed, so a balanced manager is no longer balanced. *)
Theorem submit_trade_no_attempts (max_retries : Z) (srv : server) (st : stats_t) :
  max_retries <= 0 ->
  balanced st ->
  let '(st', result, tr) := submit_trade max_retries srv st in
  tr = [] ∧ success result = false ∧ error result = Some "Max retries exceeded"
  ∧ sent st' = sent st + 1 ∧ succeeded st' = succeeded st ∧ failed st' = failed st
  ∧ ¬ balanced st'.
Proof.
  intros H Hb. unfold submit_trade.
  replace (Z.to_nat max_retries) with O by lia. cbn.
  repeat split. unfold balanced in *. cbn. lia.
Qed.

Lemma submit_trade_no_attempts_witness :
  let '(st', result, tr) :=
    submit_trade 0 (λ _, Returned {| success := true; mode := None;
                                     txHash := None; error := None |}) stats0 in
  tr = [] ∧ success result = false ∧ error result = Some "Max retries exceeded"
  ∧ sent st' = sent stats0 + 1 ∧ succeeded st' = succeeded stats0
  ∧ failed st' = failed stats0 ∧ ¬ balanced st'.
Proof.
  apply (submit_trade_no_attempts 0); [lia|reflexivity].
Defined.

Lemma retry_loop_success (max_retries : Z) (srv : server) (n : nat) :
  ∀ attempt st, Z.of_nat n = max_retries - attempt ->
    let '(st', result, _) := retry_loop max_retries srv n attempt st in
    (success result = true
     <-> ∃ a, attempt <= a < max_retries ∧ succeeds srv a)
    ∧ (success result = true -> succeeded st' = succeeded st + 1)
    ∧ (success result = false -> succeeded st' = succeeded st).
Proof.
  induction n as [|n IH]; intros attempt st Hn; cbn [retry_loop].
  { cbn. split; [|done]. split; [done|]. intros (a & Ha & _). lia. }
  assert (Hnext : (attempt <? max_retries - 1) = true -> ¬ succeeds srv attempt ->
            let '(st', result, _) :=
              retry_loop max_retries srv n (attempt + 1) (incr_retried st) in
            (success result = true
             <-> ∃ a, attempt <= a < max_retries ∧ succeeds srv a)
            ∧ (success result = true -> succeeded st' = succeeded st + 1)
            ∧ (success result = false -> succeeded st' = succeeded st)).
  { intros Hlt%Z.ltb_lt Hno. specialize (IH (attempt + 1) (incr_retried st)).
    destruct (retry_loop max_retries srv n (attempt + 1) (incr_retried st)) as [[st' r'] tr].
    destruct IH as (Hiff & Hs & Hf); [lia|]. split; [|split; [exact Hs|exact Hf]].
    rewrite Hiff. split; intros (a & Ha & Hsa).
    - exists a. split; [lia|done].
    - exists a. split; [|done].
      destruct (decide (a = attempt)) as [->|]; [done|lia]. }
  assert (Hlast : (attempt <? max_retries - 1) = false -> ¬ succeeds srv attempt ->
            ¬ ∃ a, attempt <= a < max_retries ∧ succeeds srv a).
  { intros Hge%Z.ltb_ge Hno (a & Ha & Hsa). assert (a = attempt) as -> by lia. done. }
  destruct (srv attempt) as [r|e] eqn:Hsrv.
  - destruct (success r) eqn:Hr.
    + cbn. split; [|split; [done|congruence]]. rewrite Hr. split; [|done].
      intros _. exists attempt. split; [lia|]. exists r. done.
    + assert (Hno : ¬ succeeds srv attempt).
      { intros (r0 & Hr0 & Hs0). rewrite Hsrv in Hr0. congruence. }
      destruct (attempt <? max_retries - 1) eqn:Hlt.
      * specialize (Hnext eq_refl Hno).
        destruct (retry_loop max_retries srv n (attempt + 1) (incr_retried st))
          as [[st' r'] tr]. exact Hnext.
      * cbn. rewrite Hr. split; [|done]. split; [done|].
        intros Hex. destruct (Hlast eq_refl Hno Hex).
  - assert (Hno : ¬ succeeds srv attempt).
    { intros (r0 & Hr0 & Hs0). rewrite Hsrv in Hr0. congruence. }
    destruct (attempt <? max_retries - 1) eqn:Hlt.
    + specialize (Hnext eq_refl Hno).
      destruct (retry_loop max_retries srv n (attempt + 1) (incr_retried st))
        as [[st' r'] tr]. exact Hnext.
    + cbn. split; [|done]. split; [done|].
      intros Hex. destruct (Hlast eq_refl Hno Hex).
Qed.

(** X3.  [submit_trade] returns a success exactly when one of the first
    [max_retries] answers is a success, and exactly then it counts the
    submission as succeeded. *)
Theorem submit_trade_success (max_retries : Z) (srv : server) (st : stats_t) :
  let '(st', result, _) := submit_trade max_retries srv st in
  (success result = true <-> ∃ a, 0 <= a < max_retries ∧ succeeds srv a)
  ∧ (success result = true -> succeeded st' = succeeded st + 1)
  ∧ (success result = false -> succeeded st' = succeeded st).
Proof.
  unfold submit_trade.
  pose proof (retry_loop_success max_retries srv (Z.to_nat max_retries) 0 (incr_sent st)) as H.
  destruct (Z_le_gt_dec 0 max_retries) as [Hle|Hgt].
  - apply H. lia.
  - replace (Z.to_nat max_retries) with O by lia. cbn.
    split; [|done]. split; [done|]. intros (a & Ha & _). lia.
Qed.

(** A server that always gives the same failure: that failure is what
    the loop returns. *)
Lemma retry_loop_constant_failure (max_retries : Z) (srv : server) (r0 : exec_result) :
  success r0 = false -> (∀ a, srv a = Returned r0) ->
  ∀ n attempt st, Z.of_nat n = max_retries - attempt -> (1 <= n)%nat ->
    (retry_loop max_retries srv n attempt st).1.2 = r0.
Proof.
  intros Hr0 Hsrv. induction n as [|n IH]; intros attempt st Hn Hpos; [lia|].
  cbn [retry_loop]. rewrite Hsrv, Hr0.
  destruct (attempt <? max_retries - 1) eqn:Hlt; [|reflexivity].
  apply Z.ltb_lt in Hlt.
  specialize (IH (attempt + 1) (incr_retried st)).
  destruct (retry_loop max_retries srv n (attempt + 1) (incr_retried st)) as [[st' r'] tr].
  apply IH; lia.
Qed.

(** X4.  A signal that carries [extras] (objects of type [bytes]) is
    never posted: [execute_signal] fails while serialising it, so
    [submit_trade] uses up all its attempts without a single request and
    counts a failure. *)
Theorem bytes_extras_never_posted (signal : TradeSignal)
    (https : Z → http_answer exec_result) (max_retries : Z) (st : stats_t) :
  extras signal ≠ [] -> 1 <= max_retries ->
  (∀ a, (execute_signal signal (https a)).2 = false)
  ∧ let '(st', result, tr) :=
      submit_trade max_retries (through_client signal https) st in
    success result = false
    ∧ error result = Some "Object of type bytes is not JSON serializable"
    ∧ invocations tr = Z.to_nat max_retries
    ∧ failed st' = failed st + 1 ∧ succeeded st' = succeeded st.
Proof.
  intros Hex Hmr.
  assert (Hexec : ∀ a, execute_signal signal (https a)
            = (failed_with "Object of type bytes is not JSON serializable", false)).
  { intros a. unfold execute_signal, json_serializable.
    destruct (extras signal); [done|reflexivity]. }
  split; [intros a; by rewrite Hexec|].
  assert (Hsrv : ∀ a, through_client signal https a
            = Returned (failed_with "Object of type bytes is not JSON serializable")).
  { intros a. unfold through_client. by rewrite Hexec. }
  pose proof (ExecutionManagerSpec.retry_loop_all_fail max_retries
                (through_client signal https) (Z.to_nat max_retries) 0 (incr_sent st)) as Hall.
  pose proof (ExecutionManagerSpec.retry_loop_settles max_retries
                (through_client signal https) (Z.to_nat max_retries) 0 (incr_sent st)) as Hset.
  pose proof (retry_loop_success max_retries
                (through_client signal https) (Z.to_nat max_retries) 0 (incr_sent st)) as Hsuc.
  pose proof (retry_loop_constant_failure max_retries (through_client signal https)
                (failed_with "Object of type bytes is not JSON serializable")
                eq_refl Hsrv) as Hlast.
  specialize (Hlast (Z.to_nat max_retries) 0 (incr_sent st)).
  unfold submit_trade.
  destruct (retry_loop max_retries (through_client signal https)
              (Z.to_nat max_retries) 0 (incr_sent st)) as [[st' result] tr].
  cbn [fst snd] in *.
  destruct Hall as [Hinv _]; [lia| |].
  { intros a _. rewrite Hsrv. reflexivity. }
  destruct Hset as [_ Hso]; [lia|lia|].
  destruct Hsuc as (Hiff & Hs1 & Hs0); [lia|].
  assert (Hfalse : success result = false).
  { destruct (success result) eqn:E; [|done].
    destruct (proj1 Hiff eq_refl) as (a & _ & r & Hr & Hrs).
    rewrite Hsrv in Hr. injection Hr as <-. done. }
  split; [done|]. split; [rewrite Hlast by lia; reflexivity|]. split; [done|].
  specialize (Hs0 Hfalse). unfold settled_once in Hso. cbn in Hso, Hs0. lia.
Qed.

Lemma bytes_extras_never_posted_witness :
  let signal :=
    {| chainId := 137; token := "0x2791Bca1f2de4661ED88A30C99A7a9449Aa84174";
       amount := "10000000000"; flashSource := 1; protocols := [1; 2];
       routers := ["0xE592427A0AEce92De3Edee1F18E0157C05861564";
                   "0x445FE580eF8d70FF569aB36e80c647af338db351"];
       path := ["0x7ceB23fD6bC0adD59E62ac25578270cFf1b9f619";
                "0x2791Bca1f2de4661ED88A30C99A7a9449Aa84174"];
       extras := [[Byte.x30; Byte.x78]];
       expected_profit := S754_finite false 8444249301319680 (-49);
       gas_estimate := 500000 |} in
  let https : Z → http_answer exec_result :=
    λ _, Answered 200 {| success := true; mode := Some "PAPER";
                         txHash := None; error := None |} in
  (∀ a, (execute_signal signal (https a)).2 = false)
  ∧ let '(st', result, tr) := submit_trade 3 (through_client signal https) stats0 in
    success result = false
    ∧ error result = Some "Object of type bytes is not JSON serializable"
    ∧ invocations tr = Z.to_nat 3
    ∧ failed st' = failed stats0 + 1 ∧ succeeded st' = succeeded stats0.
Proof.
  cbn zeta. apply bytes_extras_never_posted; [discriminate|lia].
Defined.

(** X5.  [initialize] answers true exactly when the health request is
    answered with status 200 and the body says "healthy"; the manager
    then runs in the mode the server reports ("UNKNOWN" when it reports
    none), and otherwise keeps its own. *)
Theorem initialize_adopts_server_mode (self : manager) (http : http_answer health) :
  let '(ok, self') := initialize self http in
  (ok = true <-> ∃ data, http = Answered 200 data ∧ h_status data = Some "healthy")
  ∧ (ok = true -> m_mode self' = default "UNKNOWN" (h_mode (health_check http)))
  ∧ (ok = false -> self' = self)
  ∧ m_stats self' = m_stats self ∧ m_max_retries self' = m_max_retries self.
Proof.
  unfold initialize.
  destruct (bool_decide (h_status (health_check http) = Some "healthy")) eqn:Hh.
  - apply bool_decide_eq_true in Hh.
    split; [|split; [|split; [done|]]].
    + split; [intros _|done].
      destruct http as [status data| |msg]; cbn in Hh; try done.
      destruct (status =? 200) eqn:Hs; [|done].
      apply Z.eqb_eq in Hs. subst. eauto.
    + intros _. case_bool_decide as Hm; cbn; [done|].
      destruct (decide (default "UNKNOWN" (h_mode (health_check http)) = m_mode self));
        [done|contradiction].
    + by case_bool_decide.
  - apply bool_decide_eq_false in Hh.
    split; [|done]. split; [done|].
    intros (data & -> & Hd). cbn in Hh. done.
Qed.


End ExecutionClientSpec.

(** ** The simulator and the live executor *)
Module ExecutorsSpec.
Import PyDecimal Py ExecutionModes ExecutionModesTerms FurtherTerms.

Ltac paper_simpl :=
  cbn [PaperTradingSimulator.with_trades PaperTradingSimulator.with_capital
       PaperTradingSimulator.with_profit PaperTradingSimulator.with_success
       PaperTradingSimulator.with_history PaperTradingSimulator.total_trades
       PaperTradingSimulator.successful_trades PaperTradingSimulator.trade_history
       PaperTradingSimulator.redis_enabled PaperTradingSimulator.redis_client
       PaperTradingSimulator.current_capital PaperTradingSimulator.total_profit
       store_paper pending_txs trade_signals live_trades down fst snd
       status is_paper tx_hash trade_id error].

(** X7.  The simulator never submits: whatever the signal, it leaves
    the pending set, the publication channel and the live list alone; and
    when it returns, the status is SIMULATED, the result is marked as
    paper, and the hash is the trade id with the prefix "SIMULATED_". *)
Theorem paper_never_submits (now : string) (self : PaperTradingSimulator.simulator)
    (rs : redis_server) (trade_signal : dict) :
  let '(o, _, rs') := PaperTradingSimulator.execute_trade now self rs trade_signal in
  pending_txs rs' = pending_txs rs ∧ trade_signals rs' = trade_signals rs
  ∧ live_trades rs' = live_trades rs
  ∧ match o with
    | Return r =>
      status r = SIMULATED ∧ is_paper r = true ∧ error r = None
      ∧ tx_hash r = Some ("SIMULATED_" +:+ trade_id r)
    | Raise _ => True
    end.
Proof.
  unfold PaperTradingSimulator.execute_trade.
  destruct (PaperTradingSimulator.simulate _ trade_signal)
    as [[[[[[[[id chain] token] amount] expected] actual] gas] net]|e]; [|done].
  destruct (add _ net) as [cap|]; [|done]. paper_simpl.
  destruct (add _ net) as [tp|]; [|done]. paper_simpl.
  destruct (gt net (of_int 0)); paper_simpl;
    destruct (PaperTradingSimulator.redis_enabled self && PaperTradingSimulator.redis_client self);
    try destruct (down rs); paper_simpl; done.
Qed.

Lemma paper_step_consistent (now : string) (self : PaperTradingSimulator.simulator)
    (rs : redis_server) (trade_signal : dict) :
  paper_consistent self ->
  paper_consistent (PaperTradingSimulator.execute_trade now self rs trade_signal).1.2.
Proof.
  unfold paper_consistent, PaperTradingSimulator.execute_trade.
  intros (H0 & H1 & H2).
  destruct (PaperTradingSimulator.simulate _ trade_signal)
    as [[[[[[[[id chain] token] amount] expected] actual] gas] net]|e];
    [|paper_simpl; lia].
  destruct (add _ net) as [cap|]; [|paper_simpl; lia]. paper_simpl.
  destruct (add _ net) as [tp|]; [|paper_simpl; lia]. paper_simpl.
  destruct (gt net (of_int 0)); paper_simpl; rewrite length_app; cbn [length]; lia.
Qed.

(** X8.  Whatever signals a fresh simulator is given, and whether its
    calls return or raise, its books stay consistent:
    0 <= successful_trades <= len(trade_history) <= total_trades. *)
Theorem paper_books_consistent (calls : list (string * dict)) (redis_ok : bool)
    (rs : redis_server) :
  paper_consistent (paper_run calls (PaperTradingSimulator.fresh redis_ok) rs).1.
Proof.
  assert (Hgen : ∀ self rs0, paper_consistent self ->
            paper_consistent (paper_run calls self rs0).1).
  { induction calls as [|[now sig] rest IH]; intros self rs0 Hc; [done|].
    cbn [paper_run].
    pose proof (paper_step_consistent now self rs0 sig Hc) as Hstep.
    destruct (PaperTradingSimulator.execute_trade now self rs0 sig) as [[o self'] rs'].
    apply IH. exact Hstep. }
  apply Hgen. unfold paper_consistent. cbn. lia.
Qed.

(** X9.  A signal without [chainId], [token] or [amount] makes the
    simulator raise [KeyError] on the first of them that is missing;
    the call is counted all the same, and nothing else changes. *)
Theorem paper_missing_field (now : string) (self : PaperTradingSimulator.simulator)
    (rs : redis_server) (trade_signal : dict) :
  trade_signal !! "chainId" = None ∨ trade_signal !! "token" = None
  ∨ trade_signal !! "amount" = None ->
  ∃ key,
    trade_signal !! key = None
    ∧ PaperTradingSimulator.execute_trade now self rs trade_signal
      = (Raise (KeyError key),
         PaperTradingSimulator.with_trades self (PaperTradingSimulator.total_trades self + 1),
         rs).
Proof.
  intros Hmiss. unfold PaperTradingSimulator.execute_trade, PaperTradingSimulator.simulate.
  destruct (trade_signal !! "chainId") as [chain|] eqn:Hc; [|by exists "chainId"].
  destruct (trade_signal !! "token") as [token|] eqn:Ht; [|by exists "token"].
  destruct (trade_signal !! "amount") as [amount|] eqn:Ha; [|by exists "amount"].
  destruct Hmiss as [?|[?|?]]; done.
Qed.

Lemma paper_missing_field_witness :
  ∃ key,
    delete "amount" sound_signal !! key = None
    ∧ PaperTradingSimulator.execute_trade "2025-12-09T10:00:00"
        (PaperTradingSimulator.fresh true) empty_redis (delete "amount" sound_signal)
      = (Raise (KeyError key),
         PaperTradingSimulator.with_trades (PaperTradingSimulator.fresh true)
           (PaperTradingSimulator.total_trades (PaperTradingSimulator.fresh true) + 1),
         empty_redis).
Proof.
  apply paper_missing_field. right. right. reflexivity.
Defined.






(** The id a call gives its trade. *)
Lemma live_trade_id (e : gmap string string) (now : string)
    (self : LiveMainnetExecutor.executor) (rs : redis_server) (trade_signal : dict)
    (r : trade_result) :
  (LiveMainnetExecutor.execute_trade e now self rs trade_signal).1.1 = Return r ->
  ∃ chain, trade_signal !! "chainId" = Some chain
    ∧ trade_id r = "LIVE_" +:+ py_str chain +:+ "_" +:+
                   pretty (LiveMainnetExecutor.total_trades self + 1).
Proof.
  unfold LiveMainnetExecutor.execute_trade.
  destruct (trade_signal !! "chainId") as [chain|]; [|done].
  intros H. exists chain. split; [done|]. revert H.
  destruct (LiveMainnetExecutor.pre_execution_checks _ _ _ _) as [[[|] reason]|err];
    [|by intros [= <-]|done].
  destruct (negb _ || negb _); [by intros [= <-]|].
  destruct (down rs); [by intros [= <-]|].
  destruct (format_2f _); [|done]. by intros [= <-].
Qed.

(** X13.  Trade ids do not repeat while the executor lives: two calls
    that return, made at different values of the trade counter on
    signals of the same chain, give different trade ids. *)
Theorem live_trade_ids_differ (e1 e2 : gmap string string) (now1 now2 : string)
    (self1 self2 : LiveMainnetExecutor.executor) (rs1 rs2 : redis_server)
    (signal1 signal2 : dict) (r1 r2 : trade_result) :
  (LiveMainnetExecutor.execute_trade e1 now1 self1 rs1 signal1).1.1 = Return r1 ->
  (LiveMainnetExecutor.execute_trade e2 now2 self2 rs2 signal2).1.1 = Return r2 ->
  signal1 !! "chainId" = signal2 !! "chainId" ->
  LiveMainnetExecutor.total_trades self1 ≠ LiveMainnetExecutor.total_trades self2 ->
  trade_id r1 ≠ trade_id r2.
Proof.
  intros H1 H2 Hc Hn Heq.
  apply live_trade_id in H1 as (c1 & Hc1 & Hid1).
  apply live_trade_id in H2 as (c2 & Hc2 & Hid2).
  rewrite Hc1, Hc2 in Hc. injection Hc as ->.
  rewrite Hid1, Hid2 in Heq.
  do 3 apply (inj (String.append _)) in Heq.
  apply (inj pretty) in Heq. lia.
Qed.

Lemma live_trade_ids_differ_witness :
  trade_id (LiveMainnetExecutor.failed_result "LIVE_137_1"
              "EXECUTOR_ADDRESS not configured - contract not deployed")
  ≠ trade_id (LiveMainnetExecutor.failed_result "LIVE_137_2"
                "EXECUTOR_ADDRESS not configured - contract not deployed").
Proof.
  apply (live_trade_ids_differ (delete "EXECUTOR_ADDRESS" funded_env)
           (delete "EXECUTOR_ADDRESS" funded_env) "t1" "t2"
           (LiveMainnetExecutor.fresh true)
           (LiveMainnetExecutor.with_trades (LiveMainnetExecutor.fresh true) 1)
           empty_redis empty_redis sound_signal sound_signal).
  - vm_compute. reflexivity.
  - vm_compute. reflexivity.
  - reflexivity.
  - vm_compute. discriminate.
Defined.



End ExecutorsSpec.

(** ** The hybrid manager *)
Module HybridIsolationSpec.
Import PyDecimal Py ExecutionModes ExecutionModes.HybridExecutionManager
       ExecutionModesTerms FurtherTerms.


End HybridIsolationSpec.

(** ** The registry: states, names and health *)
Module ChainRegistryHealthSpec.
Import ChainRegistry FurtherTerms.

Lemma configured_chains : get_configured_chains = [137; 1; 42161].
Proof. vm_compute. reflexivity. Qed.

Lemma chain_states_items : list_to_map CHAIN_STATES_items = CHAIN_STATES.
Proof. reflexivity. Qed.

Lemma three_cases (P : Z → Prop) (chain_id : Z) :
  P 137 -> P 1 -> P 42161 ->
  (chain_id ≠ 137 -> chain_id ≠ 1 -> chain_id ≠ 42161 -> P chain_id) -> P chain_id.
Proof.
  intros H137 H1 H42161 Hother.
  destruct (decide (chain_id = 137)) as [->|]; [done|].
  destruct (decide (chain_id = 1)) as [->|]; [done|].
  destruct (decide (chain_id = 42161)) as [->|]; [done|]. auto.
Qed.

Lemma states_other (chain_id : Z) :
  chain_id ≠ 137 -> chain_id ≠ 1 -> chain_id ≠ 42161 -> CHAIN_STATES !! chain_id = None.
Proof.
  intros. unfold CHAIN_STATES. by rewrite !lookup_insert_ne, lookup_empty by done.
Qed.

Lemma metadata_other (chain_id : Z) :
  chain_id ≠ 137 -> chain_id ≠ 1 -> chain_id ≠ 42161 -> CHAIN_METADATA !! chain_id = None.
Proof.
  intros. unfold CHAIN_METADATA. by rewrite !lookup_insert_ne, lookup_empty by done.
Qed.

Lemma unconfigured_no_url (env : environ) (chain_id : Z) :
  is_configured chain_id = false -> get_rpc_url env chain_id = None.
Proof.
  apply (three_cases (λ c, is_configured c = false -> get_rpc_url env c = None) chain_id);
    try done.
  intros H1 H2 H3 _. unfold get_rpc_url. by rewrite metadata_other.
Qed.

(** X16.  The tables of the registry agree.  A chain is configured
    exactly when it is one of [get_configured_chains] (137, 1, 42161),
    exactly when it has metadata, and exactly when its state is not
    DISABLED; a chain enabled for execution is configured; and outside
    the three chains neither an RPC URL nor an executor address is ever
    returned, whatever the environment holds. *)
Theorem registry_tables_agree (env : environ) (chain_id : Z) :
  is_configured chain_id = bool_decide (chain_id ∈ get_configured_chains)
  ∧ is_configured chain_id = bool_decide (is_Some (CHAIN_METADATA !! chain_id))
  ∧ is_configured chain_id = bool_decide (get_execution_state chain_id ≠ DISABLED)
  ∧ (is_execution_enabled chain_id = true -> is_configured chain_id = true)
  ∧ (is_configured chain_id = false ->
     get_rpc_url env chain_id = None ∧ get_executor_address env chain_id = None).
Proof.
  rewrite configured_chains.
  apply (three_cases (λ c, _ ∧ _ ∧ _ ∧ _ ∧ _) chain_id).
  - repeat split; try done.
  - repeat split; try done.
  - repeat split; try done.
  - intros H1 H2 H3.
    assert (is_configured chain_id = false) as Hc
      by (unfold is_configured; by rewrite states_other).
    rewrite Hc. split; [|split; [|split; [|split]]].
    + symmetry. apply bool_decide_eq_false.
      intros Hin. repeat (apply elem_of_cons in Hin as [?|Hin]; [done|]).
      by apply elem_of_nil in Hin.
    + symmetry. apply bool_decide_eq_false. rewrite metadata_other by done.
      by intros [? ?].
    + symmetry. apply bool_decide_eq_false. unfold get_execution_state.
      rewrite states_other by done. cbn. by intros H.
    + unfold is_execution_enabled. rewrite states_other by done. done.
    + intros _. split.
      * unfold get_rpc_url. by rewrite metadata_other.
      * unfold get_executor_address. cbn zeta.
        by rewrite !lookup_insert_ne, lookup_empty by done.
Qed.

Lemma get_rpc_url_remote (env : environ) (chain_id : Z) (url : string) :
  get_rpc_url env chain_id = Some url -> PyStr.truthy url = true -> remote_url url.
Proof.
  intros Hu Ht. apply (ChainRegistrySpec.get_rpc_url_safe env chain_id url Hu).
  intros ->. done.
Qed.

Lemma validate_rpc_health_cases (env : environ) (net : network) (self : registry)
    (chain_id : Z) :
  (∃ probed,
     validate_rpc_health env net self chain_id
     = (false, set_health self chain_id false, probed)
     ∧ Forall remote_url probed
     ∧ ¬ ∃ url n, get_rpc_url env chain_id = Some url ∧ url ≠ ""
                   ∧ net url = Connected n)
  ∨ (∃ url n,
       get_rpc_url env chain_id = Some url ∧ url ≠ "" ∧ remote_url url
       ∧ net url = Connected n
       ∧ validate_rpc_health env net self chain_id
         = (true,
            {| validated_rpcs := <[chain_id := url]> (validated_rpcs self);
               health_status := <[chain_id := true]> (health_status self) |},
            [url])).
Proof.
  unfold validate_rpc_health.
  destruct (get_rpc_url env chain_id) as [url|] eqn:Hu.
  - destruct (PyStr.truthy url) eqn:Ht; cbn [negb].
    + pose proof (get_rpc_url_remote env chain_id url Hu Ht) as Hrem.
      assert (url ≠ "") as Hne by (intros ->; done).
      destruct (net url) as [n| |msg] eqn:Hn.
      * right. exists url, n. done.
      * left. exists [url]. split; [done|]. split; [by constructor|].
        intros (u & n & [= <-] & _ & Hc). congruence.
      * left. exists [url]. split; [done|]. split; [by constructor|].
        intros (u & n & [= <-] & _ & Hc). congruence.
    + left. exists []. split; [done|]. split; [constructor|].
      intros (u & n & [= <-] & Hne & _). by destruct url.
  - left. exists []. split; [done|]. split; [constructor|].
    intros (u & n & Hc & _). done.
Qed.

(** X17.  [validate_rpc_health] records its answer as the chain's health
    and touches no other chain.  The answer is true exactly when the
    registry hands out a non-empty URL for the chain and the probe of
    that URL connects; the URL is then stored as validated.  A false
    answer leaves the validated URLs alone (an earlier URL of the chain
    stays).  Only a remote URL is ever probed. *)
Theorem validate_rpc_health_records (env : environ) (net : network) (self : registry)
    (chain_id : Z) :
  let '(ok, self', probed) := validate_rpc_health env net self chain_id in
  health_status self' !! chain_id = Some ok
  ∧ (∀ c, c ≠ chain_id ->
       health_status self' !! c = health_status self !! c
       ∧ validated_rpcs self' !! c = validated_rpcs self !! c)
  ∧ (ok = true <-> ∃ url n, get_rpc_url env chain_id = Some url ∧ url ≠ ""
                            ∧ net url = Connected n)
  ∧ (ok = true -> validated_rpcs self' !! chain_id = get_rpc_url env chain_id)
  ∧ (ok = false -> validated_rpcs self' = validated_rpcs self)
  ∧ Forall remote_url probed.
Proof.
  destruct (validate_rpc_health_cases env net self chain_id)
    as [(probed & -> & Hp & Hno)|(url & n & Hu & Hne & Hrem & Hn & ->)];
    cbn [set_health health_status validated_rpcs].
  - rewrite lookup_insert_eq. split; [done|]. split.
    { intros c Hc. by rewrite lookup_insert_ne by done. }
    split; [split; [done|by intros ?]|]. done.
  - rewrite !lookup_insert_eq. split; [done|]. split.
    { intros c Hc. by rewrite !lookup_insert_ne by done. }
    split; [split; [intros _; eauto|done]|]. split; [done|]. split; [done|].
    by constructor.
Qed.

Lemma validate_rpc_health_frame (env : environ) (net : network) (self : registry)
    (chain_id : Z) :
  let '(ok, self', probed) := validate_rpc_health env net self chain_id in
  health_status self' !! chain_id = Some ok
  ∧ (∀ c, c ≠ chain_id ->
       health_status self' !! c = health_status self !! c
       ∧ validated_rpcs self' !! c = validated_rpcs self !! c)
  ∧ Forall remote_url probed
  ∧ (validated_remote self -> validated_remote self').
Proof.
  destruct (validate_rpc_health_cases env net self chain_id)
    as [(probed & -> & Hp & Hno)|(url & n & Hu & Hne & Hrem & Hn & ->)];
    cbn [set_health health_status validated_rpcs].
  - rewrite lookup_insert_eq. split; [done|]. split.
    { intros c Hc. by rewrite lookup_insert_ne by done. }
    done.
  - rewrite !lookup_insert_eq. split; [done|]. split.
    { intros c Hc. by rewrite !lookup_insert_ne by done. }
    split; [by constructor|].
    intros Hinv c u. unfold validated_remote in *. cbn [validated_rpcs].
    destruct (decide (c = chain_id)) as [->|Hc].
    + rewrite lookup_insert_eq. by intros [= <-].
    + rewrite lookup_insert_ne by done. eauto.
Qed.

Lemma validate_rpc_health_probes (env : environ) (net : network) (self : registry)
    (chain_id : Z) :
  (length (validate_rpc_health env net self chain_id).2 <= 1)%nat.
Proof.
  unfold validate_rpc_health.
  destruct (get_rpc_url env chain_id) as [url|]; [|cbn; lia].
  destruct (negb (PyStr.truthy url)); [cbn; lia|].
  destruct (net url); cbn; lia.
Qed.

Lemma validate_chains_spec (env : environ) (net : network) (chains : list Z) :
  ∀ results self probed,
    let '(results', self', probed') := validate_chains env net chains results self probed in
    (validated_remote self -> validated_remote self')
    ∧ (Forall remote_url probed -> Forall remote_url probed')
    ∧ (length probed' <= length probed + length chains)%nat
    ∧ (∀ c, c ∈ chains -> is_Some (results' !! c)
                          ∧ results' !! c = health_status self' !! c)
    ∧ (∀ c, c ∉ chains ->
         results' !! c = results !! c
         ∧ health_status self' !! c = health_status self !! c
         ∧ validated_rpcs self' !! c = validated_rpcs self !! c).
Proof.
  induction chains as [|chain rest IH]; intros results self probed; cbn [validate_chains].
  { split; [done|]. split; [done|]. split; [lia|]. split; [|done].
    intros c Hc. by apply elem_of_nil in Hc. }
  pose proof (validate_rpc_health_frame env net self chain) as Hone.
  destruct (validate_rpc_health env net self chain) as [[ok self1] urls] eqn:Hv.
  destruct Hone as (Hh & Hother & Hurls & Hrem).
  specialize (IH (<[chain := ok]> results) self1 (probed ++ urls)).
  destruct (validate_chains env net rest (<[chain:=ok]> results) self1 (probed ++ urls))
    as [[results' self'] probed'].
  destruct IH as (Hinv & Hpr & Hlen & Hin & Hout).
  pose proof (validate_rpc_health_probes env net self chain) as Hlu.
  rewrite Hv in Hlu. cbn [snd] in Hlu.
  split; [auto|]. split.
  { intros Hp. apply Hpr. apply Forall_app. done. }
  split.
  { rewrite length_app in Hlen. cbn [length]. lia. }
  split.
  - intros c Hc. apply elem_of_cons in Hc as [->|Hc].
    + destruct (decide (chain ∈ rest)) as [Hr|Hr]; [by apply Hin|].
      destruct (Hout chain Hr) as (Hres & Hhs & _).
      rewrite Hres, Hhs, lookup_insert_eq, Hh. eauto.
    + by apply Hin.
  - intros c Hc. apply not_elem_of_cons in Hc as [Hne Hc].
    destruct (Hout c Hc) as (Hres & Hhs & Hvs).
    destruct (Hother c Hne) as [Hh1 Hv1].
    rewrite Hres, Hhs, Hvs, lookup_insert_ne by done. done.
Qed.


End ChainRegistryHealthSpec.

(** ** The liquidity guard on top of the simulation engine *)
Module LiquidityGuardSpec.
Import ChainRegistry Config TitanSimulationEngine FurtherTerms.

Lemma get_provider_tvl_cases (env : environ) (net : web) (token_address : string)
    (lender_address : option string) (chain : Z) :
  get_provider_tvl env net token_address lender_address chain = 0
  ∨ ∃ url n, get_rpc_url env chain = Some url ∧ remote_url url
             ∧ answers (net url) = Connected n
             ∧ balanceOf (net url) token_address BALANCER_V3_VAULT
               = Some (get_provider_tvl env net token_address lender_address chain).
Proof.
  unfold get_provider_tvl, init.
  destruct (CHAINS !! chain) as [config|]; [|by left].
  destruct (get_rpc_url env chain) as [url|] eqn:Hu; [|by left].
  destruct (PyStr.truthy url) eqn:Ht; cbn [negb]; [|by left].
  destruct (answers (net url)) as [n| |msg] eqn:Ha; [|by left|by left].
  unfold get_lender_tvl. cbn [String.eqb Ascii.eqb Bool.eqb w3 andb].
  change (negb (PyStr.truthy BALANCER_V3_VAULT)) with false. cbn iota.
  destruct (balanceOf (net url) token_address BALANCER_V3_VAULT) as [b|] eqn:Hb; [|by left].
  right. exists url, n. split; [done|]. split; [|done].
  by apply (ChainRegistryHealthSpec.get_rpc_url_remote env chain).
Qed.

Lemma unconfigured_no_tvl (env : environ) (net : web) (token_address : string)
    (lender_address : option string) (chain : Z) :
  is_configured chain = false ->
  get_provider_tvl env net token_address lender_address chain = 0.
Proof.
  intros Hc.
  destruct (get_provider_tvl_cases env net token_address lender_address chain)
    as [H|(url & n & Hu & _)]; [done|].
  by rewrite (ChainRegistryHealthSpec.unconfigured_no_url env chain Hc) in Hu.
Qed.



(** X20.  Off the registry no loan is sized.  On a chain that the
    registry does not list as configured (every chain of [CHAINS] but
    Ethereum, Polygon and Arbitrum), [get_provider_tvl] is 0 and
    [optimize_loan_size] returns 0, whatever the environment, the
    network, the token and the request. *)
Theorem no_loan_off_registry (env : environ) (net : web) (chain : Z)
    (token_address : string) (target_amount_raw : Z) (decimals : N) :
  is_configured chain = false ->
  get_provider_tvl env net token_address (Some BALANCER_V3_VAULT) chain = 0
  ∧ Scan.optimize_loan_size env net chain token_address target_amount_raw decimals
    = Some 0.
Proof.
  intros Hc. unfold Scan.optimize_loan_size.
  rewrite (unconfigured_no_tvl env net token_address _ chain Hc). done.
Qed.

Lemma no_loan_off_registry_witness :
  is_Some (CHAINS !! 10)
  ∧ Scan.optimize_loan_size polygon_env (λ _, node_holding 1000000000000) 10
      "0x0b2C" 10000000000 6 = Some 0.
Proof.
  split; [by eexists|].
  apply (no_loan_off_registry polygon_env (λ _, node_holding 1000000000000) 10
           "0x0b2C" 10000000000 6).
  reflexivity.
Defined.



End LiquidityGuardSpec.

(** ** The graph of the brain and its opportunities *)
Module ScanSpec.
Import OmniBrain OmniBrainTerms Scan FurtherTerms.

Lemma flat_items_cons (entry : Z * gmap string token_data) (inv : inventory) :
  flat_items (entry :: inv) = (pair entry.1 <$> map_to_list entry.2) ++ flat_items inv.
Proof. reflexivity. Qed.

Lemma build_graph_nodes_flat (inv : inventory) :
  ∀ st, _build_graph_nodes inv st
        = foldl (λ st p, add_token p.1 st p.2) st (flat_items inv).
Proof.
  unfold _build_graph_nodes.
  induction inv as [|entry inv IH]; intros st; [done|].
  rewrite flat_items_cons, foldl_app, foldl_fmap. cbn [foldl fst snd]. apply IH.
Qed.

Lemma flat_items_elem (inv : inventory) (c : Z) (s : string) (data : token_data) :
  (c, (s, data)) ∈ flat_items inv <-> listed inv c s data.
Proof.
  unfold flat_items, listed. rewrite list_elem_of_bind. split.
  - intros ([c' toks] & Hin & Hentry).
    apply list_elem_of_fmap in Hin as ([s' d'] & [= -> -> ->] & Hin).
    apply elem_of_map_to_list in Hin. by exists toks.
  - intros (toks & Hentry & Hs). exists (c, toks). split; [|done].
    apply list_elem_of_fmap. exists (s, data). split; [done|].
    by apply elem_of_map_to_list.
Qed.

Lemma flat_keys_NoDup (inv : inventory) :
  NoDup inv.*1 -> NoDup ((λ p, (p.1, p.2.1)) <$> flat_items inv).
Proof.
  induction inv as [|[c toks] inv IH]; intros Hnd; [constructor|].
  apply NoDup_cons in Hnd as [Hc Hnd].
  rewrite flat_items_cons, fmap_app. apply NoDup_app. split; [|split].
  - rewrite <- list_fmap_compose.
    replace ((λ p : Z * (string * token_data), (p.1, p.2.1)) ∘ pair (c, toks).1)
      with (pair (B := string) c ∘ fst (B := token_data)) by done.
    rewrite list_fmap_compose. apply NoDup_fmap_2; [|apply NoDup_fst_map_to_list].
    by intros ?? [= ->].
  - intros k Hk1 Hk2.
    apply list_elem_of_fmap in Hk1 as ([c1 [s1 d1]] & -> & Hk1).
    apply list_elem_of_fmap in Hk1 as ([s1' d1'] & [= -> -> ->] & _).
    apply list_elem_of_fmap in Hk2 as ([c2 [s2 d2]] & [= <- <-] & Hk2).
    apply flat_items_elem in Hk2 as (toks2 & Hin & _). apply Hc.
    apply list_elem_of_fmap. by exists (c, toks2).
  - by apply IH.
Qed.

Lemma tracks_empty : tracks empty_graph ∅.
Proof.
  intros k idx. rewrite lookup_empty. split; [done|]. by intros (nd & Hnd & _).
Qed.

Lemma add_token_tracks (c : Z) (g : graph) (ni : node_indices)
    (item : string * token_data) :
  tracks g ni ->
  let st' := add_token c (g, ni) item in
  tracks st'.1 st'.2
  ∧ edges st'.1 = edges g
  ∧ nodes st'.1
    = nodes g ++ (if decide ((c, item.1) ∈ key_of <$> nodes g) then []
                  else [node_of c item]).
Proof.
  intros Ht. unfold add_token.
  destruct (ni !! (c, item.1)) as [idx|] eqn:E; cbn [fst snd].
  - split; [done|]. split; [done|].
    apply Ht in E as (nd & Hnd & Hk).
    rewrite decide_True, app_nil_r; [done|].
    apply list_elem_of_fmap. exists nd. split; [done|].
    by eapply list_elem_of_lookup_2.
  - assert ((c, item.1) ∉ key_of <$> nodes g) as Hfresh.
    { intros Hin. apply list_elem_of_fmap in Hin as (nd & Hk & Hin).
      apply list_elem_of_lookup_1 in Hin as [idx Hidx].
      assert (ni !! (c, item.1) = Some idx) as Hs by (apply Ht; eauto).
      congruence. }
    rewrite decide_False by done. cbn [add_node nodes edges fst snd].
    split; [|done].
    intros k idx. destruct (decide (k = (c, item.1))) as [->|Hne].
    + rewrite lookup_insert_eq. split.
      * intros [= <-]. exists (node_of c item). split; [|done].
        by apply list_lookup_middle.
      * intros (nd & Hnd & Hk). apply lookup_app_Some in Hnd as [Hnd|[Hlen Hnd]].
        -- assert (ni !! (c, item.1) = Some idx) as Hs by (apply Ht; eauto).
           congruence.
        -- f_equal. apply lookup_lt_Some in Hnd. cbn in Hnd. lia.
    + rewrite lookup_insert_ne by done. rewrite (Ht k idx). split.
      * intros (nd & Hnd & Hk). exists nd. split; [|done]. by apply lookup_app_l_Some.
      * intros (nd & Hnd & Hk). apply lookup_app_Some in Hnd as [Hnd|[Hlen Hnd]]; [eauto|].
        exfalso. apply Hne. rewrite <- Hk.
        destruct (idx - length (nodes g))%nat; [|done].
        cbn in Hnd. by injection Hnd as <-.
Qed.

Lemma add_tokens_flat (items : list (Z * (string * token_data))) :
  ∀ g ni, tracks g ni ->
    NoDup ((key_of <$> nodes g) ++ ((λ p, (p.1, p.2.1)) <$> items)) ->
    let st' := foldl (λ st p, add_token p.1 st p.2) (g, ni) items in
    tracks st'.1 st'.2
    ∧ edges st'.1 = edges g
    ∧ nodes st'.1 = nodes g ++ ((λ p, node_of p.1 p.2) <$> items).
Proof.
  induction items as [|[c item] items IH]; intros g ni Ht Hnd; cbn [foldl fst snd].
  { by rewrite app_nil_r. }
  destruct (add_token_tracks c g ni item Ht) as (Ht' & He' & Hn').
  assert ((c, item.1) ∉ key_of <$> nodes g) as Hfresh.
  { apply NoDup_app in Hnd as (_ & Hdisj & _). intros Hin.
    apply (Hdisj _ Hin). left. }
  rewrite decide_False in Hn' by done.
  destruct (add_token c (g, ni) item) as [g' ni']. cbn [fst snd] in *.
  destruct (IH g' ni' Ht') as (Ht'' & He'' & Hn'').
  { rewrite Hn', fmap_app, <- app_assoc. exact Hnd. }
  split; [done|]. split; [congruence|].
  rewrite Hn'', Hn', <- app_assoc. done.
Qed.

Lemma build_nodes_spec (inv : inventory) :
  NoDup inv.*1 ->
  let st := _build_graph_nodes inv (empty_graph, ∅) in
  tracks st.1 st.2 ∧ edges st.1 = [] ∧ nodes st.1 = flat_nodes inv.
Proof.
  intros Hnd. rewrite build_graph_nodes_flat.
  apply (add_tokens_flat (flat_items inv) empty_graph ∅ tracks_empty).
  by apply flat_keys_NoDup.
Qed.

Lemma flat_node_listed (inv : inventory) (nd : node) :
  nd ∈ flat_nodes inv ->
  ∃ data, listed inv (n_chain nd) (n_symbol nd) data
          ∧ nd = node_of (n_chain nd) (n_symbol nd, data).
Proof.
  intros Hin. apply list_elem_of_fmap in Hin as ([c [s data]] & -> & Hin).
  apply flat_items_elem in Hin. by exists data.
Qed.




Lemma bridge_edge_of_nodes (g g' : graph) (symbol : string) (e : nat * nat * edge_data) :
  nodes g' = nodes g -> bridge_edge_of g symbol e -> bridge_edge_of g' symbol e.
Proof.
  intros Hn. unfold bridge_edge_of.
  by rewrite !(OmniBrainSpec.symbol_at_nodes g g'), !(OmniBrainSpec.chain_at_nodes g g').
Qed.

(** The whole of step C: the graph exists, its nodes are those of the
    inventory, and its edges are the bridge edges of the bridge
    assets. *)
Lemma build_graph_spec (inv : inventory) :
  NoDup inv.*1 ->
  ∃ g, build_graph inv = Some g
       ∧ nodes g = flat_nodes inv
       ∧ length (edges g) = sum_list (bridge_edge_count inv <$> BRIDGE_ASSETS)
       ∧ Forall (λ e, ∃ s, s ∈ BRIDGE_ASSETS ∧ bridge_edge_of g s e) (edges g).
Proof.
  intros Hnd. unfold build_graph.
  pose proof (build_nodes_spec inv Hnd) as Hflat.
  destruct (OmniBrainSpec.build_graph_nodes_spec inv (empty_graph, ∅))
    as (Hidx & Hcov & _ & _).
  { intros c s u Hu. cbn in Hu. by rewrite lookup_empty in Hu. }
  destruct (_build_graph_nodes inv (empty_graph, ∅)) as [g0 ni]. cbn [fst snd] in *.
  destruct Hflat as (_ & He0 & Hn0).
  destruct (OmniBrainSpec.for_each_spec
    (λ g, nodes g = nodes g0 ∧ indexed g ni
          ∧ Forall (λ e, ∃ s, s ∈ BRIDGE_ASSETS ∧ bridge_edge_of g0 s e) (edges g))
    (λ g, length (edges g)) (bridge_edge_count inv) BRIDGE_ASSETS
    (build_edges_for_symbol inv ni)) with (s := g0)
    as (g & Hrun & (Hn & _ & Hall) & Hlen).
  - intros sym g Hsym (Hn & Hi & Hall).
    destruct (OmniBrainSpec.build_edges_for_symbol_spec inv ni sym g Hnd Hi)
      as (g' & new & Hrun & Hn' & He' & Hlen' & Hnew).
    { intros c Hc. unfold chains_with_asset in Hc.
      apply list_elem_of_fmap in Hc as ([c' toks] & -> & [Hs Hin]%list_elem_of_filter).
      by eapply Hcov. }
    exists g'. split; [done|]. split; [|by rewrite He', length_app, Hlen'].
    split; [congruence|]. split; [by eapply OmniBrainSpec.indexed_nodes|].
    rewrite He'. apply Forall_app. split; [done|].
    eapply Forall_impl; [exact Hnew|]. intros e He. exists sym. split; [done|].
    by apply (bridge_edge_of_nodes g g0).
  - rewrite He0. done.
  - exists g. unfold _build_bridge_edges. split; [done|]. split; [congruence|].
    rewrite He0 in Hlen. split; [done|].
    eapply Forall_impl; [exact Hall|]. intros e (s & Hs & He). exists s. split; [done|].
    by apply (bridge_edge_of_nodes g0 g).
Qed.

Lemma inspect_edges_spec (inv : inventory) (g : graph)
    (es : list (nat * nat * edge_data)) :
  nodes g = flat_nodes inv ->
  Forall (λ e, ∃ s, s ∈ BRIDGE_ASSETS ∧ bridge_edge_of g s e) es ->
  ∀ acc, ∃ opps,
    for_each es (inspect_edge g) acc = Some (acc ++ opps)
    ∧ length opps = length es ∧ Forall (bridges inv) opps.
Proof.
  intros Hn Hes. induction Hes as [|e es (s & Hs & Hsrc & Hdst & Hne & Hb) _ IH]; intros acc.
  { exists []. by rewrite app_nil_r. }
  unfold symbol_at in Hsrc, Hdst. unfold chain_at in Hne.
  apply fmap_Some in Hsrc as (src & Hsrc & Hssym).
  apply fmap_Some in Hdst as (dst & Hdst & Hdsym).
  rewrite Hsrc, Hdst in Hne. cbn in Hne.
  assert (n_chain src ≠ n_chain dst) as Hne' by congruence.
  cbn [for_each]. unfold inspect_edge at 1. rewrite Hb, Hsrc, Hdst.
  cbn [e_type bridge String.eqb Ascii.eqb Bool.eqb andb mbind option_bind].
  rewrite decide_True by done.
  destruct (IH (acc ++
    [{| src_chain := n_chain src; dst_chain := n_chain dst; token := n_symbol src;
        token_addr_src := n_address src; token_addr_dst := n_address dst;
        opp_decimals := n_decimals src |}])) as (opps & Hrun & Hlen & Hall).
  eexists (_ :: opps). rewrite Hrun, <- app_assoc. split; [done|].
  split; [cbn; by rewrite Hlen|]. constructor; [|done].
  destruct (flat_node_listed inv src) as (ds & Hls & Hes).
  { rewrite <- Hn. by eapply list_elem_of_lookup_2. }
  destruct (flat_node_listed inv dst) as (dd & Hld & Hed).
  { rewrite <- Hn. by eapply list_elem_of_lookup_2. }
  unfold bridges. cbn [src_chain dst_chain token token_addr_src token_addr_dst opp_decimals].
  split; [done|]. split; [by rewrite <- Hssym|]. split.
  - exists ds. split; [done|]. by rewrite Hes.
  - exists dd. rewrite <- Hssym, Hdsym. split; [done|]. by rewrite Hed.
Qed.

(** X23.  [_find_opportunities] on the graph of step C.  The graph is
    built and the search returns; it reports one opportunity for every
    directed edge, so [n * (n - 1)] for every bridge asset listed on [n]
    chains; and every opportunity joins two different chains that both
    list its token, a bridge asset, and carries the addresses and the
    source decimals of the inventory. *)
Theorem opportunities_of_built_graph (inv : inventory) :
  NoDup inv.*1 ->
  ∃ g opps,
    build_graph inv = Some g
    ∧ _find_opportunities g = Some opps
    ∧ length opps = length (edges g)
    ∧ length opps = sum_list (bridge_edge_count inv <$> BRIDGE_ASSETS)
    ∧ Forall (bridges inv) opps.
Proof.
  intros Hnd. destruct (build_graph_spec inv Hnd) as (g & Hg & Hn & Hlen & Hall).
  destruct (inspect_edges_spec inv g (edges g) Hn Hall []) as (opps & Hrun & Hl & Hb).
  exists g, opps. unfold _find_opportunities. rewrite Hrun. cbn [app].
  repeat split; try done. congruence.
Qed.

Lemma opportunities_of_built_graph_witness :
  ∃ g opps,
    build_graph three_chains = Some g
    ∧ _find_opportunities g = Some opps
    ∧ length opps = 8%nat.
Proof.
  assert (NoDup three_chains.*1) as Hnd by (apply (bool_decide_unpack _); vm_compute; exact I).
  destruct (opportunities_of_built_graph three_chains Hnd)
    as (g & opps & Hg & Ho & _ & Hlen & _).
  exists g, opps. split; [done|]. split; [done|]. rewrite Hlen. vm_compute. reflexivity.
Defined.

End ScanSpec.

(** ** The inventory and the start of the brain *)
Module InventorySpec.
Import OmniBrain OmniBrainTerms TokenDiscovery Scan Config FurtherTerms.

Lemma dict_set_keys {V : Type} (d : list (Z * V)) (k : Z) (v : V) :
  (dict_set d k v).*1 = if decide (k ∈ d.*1) then d.*1 else d.*1 ++ [k].
Proof.
  induction d as [|[k' v'] d IH]; cbn [dict_set].
  { rewrite decide_False; [done|]. cbn. apply not_elem_of_nil. }
  destruct (decide (k = k')) as [->|Hne].
  - rewrite decide_True; [done|]. cbn. left.
  - cbn [fmap list_fmap fst]. cbn [fmap] in IH. rewrite IH.
    destruct (decide (k ∈ d.*1)) as [Hin|Hin].
    + rewrite decide_True; [done|]. by right.
    + rewrite decide_False; [done|]. by intros [?|?]%elem_of_cons.
Qed.

Lemma dict_set_Forall {V : Type} (P : Z * V → Prop) (d : list (Z * V)) (k : Z) (v : V) :
  Forall P d -> P (k, v) -> Forall P (dict_set d k v).
Proof.
  intros Hd Hk. induction Hd as [|[k' v'] d Hx Hd IH]; cbn [dict_set].
  { by constructor. }
  destruct (decide (k = k')); constructor; done.
Qed.

Lemma fetch_step (TOKEN_REGISTRY : gmap Z (gmap string token_data))
    (chain_ids : list Z) :
  ∀ acc : inventory,
    NoDup acc.*1 ->
    Forall (λ entry, entry.2 = default ∅ (TOKEN_REGISTRY !! entry.1)) acc ->
    let inv :=
      foldl (λ inventory chain_id,
               match TOKEN_REGISTRY !! chain_id with
               | Some tokens => dict_set inventory chain_id tokens
               | None => dict_set inventory chain_id ∅
               end) acc chain_ids in
    NoDup inv.*1
    ∧ Forall (λ entry, entry.2 = default ∅ (TOKEN_REGISTRY !! entry.1)) inv
    ∧ (∀ c, c ∈ inv.*1 <-> c ∈ acc.*1 ∨ c ∈ chain_ids)
    ∧ (NoDup (acc.*1 ++ chain_ids) -> inv.*1 = acc.*1 ++ chain_ids).
Proof.
  induction chain_ids as [|c chain_ids IH]; intros acc Hnd Hall; cbn [foldl].
  { split; [done|]. split; [done|]. split; [|by rewrite app_nil_r].
    intros c. split; [by left|]. intros [?|Hin]; [done|]. by apply elem_of_nil in Hin. }
  set (acc' := match TOKEN_REGISTRY !! c with
               | Some tokens => dict_set acc c tokens
               | None => dict_set acc c ∅
               end).
  assert (acc' = dict_set acc c (default ∅ (TOKEN_REGISTRY !! c))) as Hacc
    by (unfold acc'; by destruct (TOKEN_REGISTRY !! c)).
  clearbody acc'. subst acc'.
  pose proof (dict_set_keys acc c (default ∅ (TOKEN_REGISTRY !! c))) as Hkeys.
  destruct (IH (dict_set acc c (default ∅ (TOKEN_REGISTRY !! c)))) as (H1 & H2 & H3 & H4).
  { rewrite Hkeys. destruct (decide (c ∈ acc.*1)); [done|].
    apply NoDup_app. split; [done|]. split; [|apply NoDup_singleton].
    intros x Hx ->%list_elem_of_singleton. done. }
  { by apply dict_set_Forall. }
  split; [done|]. split; [done|]. split.
  - intros x. rewrite H3, Hkeys, elem_of_cons.
    destruct (decide (c ∈ acc.*1)) as [Hin|Hin].
    + split; [tauto|]. intros [?|[->|?]]; tauto.
    + rewrite elem_of_app, list_elem_of_singleton. tauto.
  - intros Hnd'. rewrite H4, Hkeys.
    + destruct (decide (c ∈ acc.*1)) as [Hin|Hin]; [|by rewrite <- app_assoc].
      apply NoDup_app in Hnd' as (_ & Hdisj & _). destruct (Hdisj c Hin). left.
    + rewrite Hkeys. destruct (decide (c ∈ acc.*1)) as [Hin|Hin].
      * apply NoDup_app in Hnd' as (_ & Hdisj & _). destruct (Hdisj c Hin). left.
      * by rewrite <- app_assoc.
Qed.

(** X24.  [fetch_all_chains] returns a dictionary with one entry for
    every requested chain and no other: the chain's tokens of the
    registry, or no token when the registry does not know the chain.
    When no chain is requested twice the entries come in the order of
    the request. *)
Theorem fetch_all_chains_spec (TOKEN_REGISTRY : gmap Z (gmap string token_data))
    (chain_ids : list Z) :
  let inv := fetch_all_chains TOKEN_REGISTRY chain_ids in
  NoDup inv.*1
  ∧ (∀ c, c ∈ inv.*1 <-> c ∈ chain_ids)
  ∧ (∀ c tokens, (c, tokens) ∈ inv -> tokens = default ∅ (TOKEN_REGISTRY !! c))
  ∧ (NoDup chain_ids -> inv.*1 = chain_ids).
Proof.
  destruct (fetch_step TOKEN_REGISTRY chain_ids []) as (H1 & H2 & H3 & H4);
    [constructor|constructor|].
  split; [done|]. split; [|split; [|done]].
  - intros c. rewrite H3. split; [|by right].
    intros [Hin|?]; [|done]. by apply elem_of_nil in Hin.
  - intros c tokens Hin. rewrite Forall_forall in H2. by apply (H2 (c, tokens)).
Qed.

Lemma fetched_entry (TOKEN_REGISTRY : gmap Z (gmap string token_data))
    (entry : Z * gmap string token_data) :
  entry ∈ fetch_all_chains TOKEN_REGISTRY target_chains ->
  entry.2 = default ∅ (TOKEN_REGISTRY !! entry.1).
Proof.
  destruct (fetch_step TOKEN_REGISTRY target_chains []) as (_ & H2 & _);
    [constructor|constructor|].
  rewrite Forall_forall in H2. apply H2.
Qed.

Lemma target_chains_eq :
  target_chains
  = [137; 1; 42161; 10; 8453; 56; 43114; 250; 59144; 534352; 5000; 324; 81457;
     42220; 204].
Proof. vm_compute. reflexivity. Qed.

Lemma target_chains_NoDup : NoDup target_chains.
Proof. apply (bool_decide_unpack _). vm_compute. exact I. Qed.


Lemma initialize_inventory (TOKEN_REGISTRY : gmap Z (gmap string token_data)) :
  let inv := fetch_all_chains TOKEN_REGISTRY target_chains in
  NoDup inv.*1 ∧ inv.*1 = target_chains.
Proof.
  destruct (fetch_step TOKEN_REGISTRY target_chains []) as (H1 & _ & _ & H4);
    [constructor|constructor|].
  split; [done|]. apply H4. apply target_chains_NoDup.
Qed.

(** X25.  Steps A and C of [initialize].  Whatever the registry holds,
    the inventory has the fifteen chains of [CHAINS], Polygon first, and
    the graph is built without an exception: its nodes are the tokens
    of the inventory and it has [n * (n - 1)] edges for every bridge
    asset listed on [n] chains. *)
Theorem initialize_builds_graph (TOKEN_REGISTRY : gmap Z (gmap string token_data)) :
  let '(inv, built) := initialize TOKEN_REGISTRY in
  inv.*1 = [137; 1; 42161; 10; 8453; 56; 43114; 250; 59144; 534352; 5000; 324;
            81457; 42220; 204]
  ∧ (∀ c s data, listed inv c s data
       <-> c ∈ target_chains
           ∧ ∃ tokens, TOKEN_REGISTRY !! c = Some tokens ∧ tokens !! s = Some data)
  ∧ ∃ g, built = Some g
         ∧ nodes g = flat_nodes inv
         ∧ length (edges g) = sum_list (bridge_edge_count inv <$> BRIDGE_ASSETS).
Proof.
  unfold initialize.
  pose proof (fetched_entry TOKEN_REGISTRY) as Hvals.
  destruct (initialize_inventory TOKEN_REGISTRY) as [Hnd Hkeys]. cbn zeta in *.
  split; [by rewrite Hkeys, target_chains_eq|]. split.
  - intros c s data. unfold listed. split.
    + intros (tokens & Hin & Hs). split.
      * rewrite <- Hkeys. apply list_elem_of_fmap. by exists (c, tokens).
      * apply Hvals in Hin. cbn in Hin. subst tokens.
        destruct (TOKEN_REGISTRY !! c) as [tokens|]; [by exists tokens|].
        cbn in Hs. by rewrite lookup_empty in Hs.
    + intros (Hc & tokens & Hreg & Hs). rewrite <- Hkeys in Hc.
      apply list_elem_of_fmap in Hc as ([c' tokens'] & -> & Hin).
      cbn [fst] in *. exists tokens'. split; [done|]. apply Hvals in Hin. cbn in Hin.
      rewrite Hreg in Hin. cbn in Hin. by subst.
  - destruct (ScanSpec.build_graph_spec _ Hnd) as (g & Hg & Hn & Hlen & _). eauto.
Qed.


End InventorySpec.

(** ** System readiness *)
Module ReadinessSpec.
Import ChainRegistry SystemReadinessValidator FurtherTerms ExecutionModes Py.

Lemma validate_chains_answers (env : environ) (net : network) (chains : list Z) :
  ∀ results self probed c b,
    c ∈ chains ->
    (validate_chains env net chains results self probed).1.1 !! c = Some b ->
    (b = true <-> healthy env net c).
Proof.
  induction chains as [|chain rest IH]; intros results self probed c b Hc;
    [by apply elem_of_nil in Hc|].
  cbn [validate_chains].
  pose proof (ChainRegistryHealthSpec.validate_rpc_health_cases env net self chain) as Hcase.
  destruct (validate_rpc_health env net self chain) as [[ok self1] urls].
  destruct (decide (c ∈ rest)) as [Hin|Hnotin]; [by apply IH|].
  apply elem_of_cons in Hc as [->|?]; [|done].
  pose proof (ChainRegistryHealthSpec.validate_chains_spec env net rest
                (<[chain := ok]> results) self1 (probed ++ urls)) as Hrest.
  destruct (validate_chains env net rest (<[chain:=ok]> results) self1 (probed ++ urls))
    as [[results' self'] probed'].
  destruct Hrest as (_ & _ & _ & _ & Hout). cbn [fst].
  destruct (Hout chain Hnotin) as (-> & _). rewrite lookup_insert_eq. intros [= <-].
  destruct Hcase as [(pr & [= -> _ _] & _ & Hno)|(url & n & Hu & Hne & _ & Hn & [= -> _ _])].
  - split; [done|]. intros H. by destruct Hno.
  - split; [|done]. intros _. by exists url, n.
Qed.

(** X27.  [validate_chain_rpcs] stands or falls with Polygon.  It
    answers true exactly when the registry hands out a non-empty URL
    for chain 137 and the node behind it answers the probe; the other
    configured chains are probed and recorded but never fail the check;
    the answer does not depend on what the registry held before; and
    the recorded results are those of the three configured chains. *)
Theorem validate_chain_rpcs_polygon (env : environ) (net : network) (self : validator)
    (chain_registry : registry) :
  let '(ok, self', chain_registry') := validate_chain_rpcs env net self chain_registry in
  (ok = true <-> healthy env net 137)
  ∧ dom (chain_rpcs self') = ({[137; 1; 42161]} : gset Z)
  ∧ (∀ c b, chain_rpcs self' !! c = Some b ->
       (b = true <-> healthy env net c)
       ∧ health_status chain_registry' !! c = Some b)
  ∧ execution_mode self' = execution_mode self
  ∧ executor_contracts self' = executor_contracts self.
Proof.
  unfold validate_chain_rpcs.
  pose proof (ChainRegistryHealthSpec.validate_chains_spec env net get_configured_chains
                ∅ chain_registry []) as Hspec.
  pose proof (validate_chains_answers env net get_configured_chains ∅ chain_registry [])
    as Hans.
  unfold validate_all_configured_chains.
  destruct (validate_chains env net get_configured_chains ∅ chain_registry [])
    as [[results reg'] probed].
  cbn [fst] in Hans. destruct Hspec as (_ & _ & _ & Hin & Hout).
  rewrite ChainRegistryHealthSpec.configured_chains in *.
  assert (∀ c, is_Some (results !! c) <-> c ∈ [137; 1; 42161]) as Hdom.
  { intros c. split; [|apply Hin].
    intros Hs. destruct (decide (c ∈ [137; 1; 42161])) as [|Hn]; [done|].
    destruct (Hout c Hn) as (Hr & _). rewrite Hr, lookup_empty in Hs. by destruct Hs. }
  assert (is_Some (results !! 137)) as [b137 H137] by (apply Hdom; left).
  assert ((default false (results !! 137) = true) <-> healthy env net 137) as Hpoly.
  { rewrite H137. cbn. apply (Hans 137 b137); [left|done]. }
  assert (∀ c b, results !! c = Some b ->
            (b = true <-> healthy env net c) ∧ health_status reg' !! c = Some b) as Hall.
  { intros c b Hc. assert (c ∈ [137; 1; 42161]) as Hcin by (apply Hdom; eauto).
    split; [by apply (Hans c b)|]. destruct (Hin c Hcin) as [_ <-]. done. }
  assert (dom results = ({[137; 1; 42161]} : gset Z)) as Hd.
  { apply set_eq. intros c. rewrite elem_of_dom, Hdom, !elem_of_union, !elem_of_singleton,
      !elem_of_cons. pose proof (elem_of_nil c). tauto. }
  destruct (default false (results !! 137)) eqn:Hdef; cbn [negb chain_rpcs execution_mode
    executor_contracts].
  - split; [tauto|]. done.
  - split; [|done]. split; [done|]. intros Hh. apply Hpoly in Hh. done.
Qed.

(** X28.  Two checks, two variables.  In LIVE mode
    [validate_executor_contracts] passes exactly when the address that
    the registry returns for Polygon ([EXECUTOR_ADDRESS_POLYGON]) is set,
    non-empty and not the placeholder, and it records the answer for
    chain 137; the live executor's [pre_execution_checks] reads
    [EXECUTOR_ADDRESS] instead: without that variable no signal passes
    them, whatever the readiness check said. *)
Theorem executor_address_variables (env : environ) (self : validator)
    (executor : LiveMainnetExecutor.executor) (rs : redis_server) (trade_signal : dict) :
  execution_mode self = "LIVE" ->
  let '(ok, self') := validate_executor_contracts env self in
  (ok = true <->
   ∃ address, get_executor_address env 137 = Some address ∧ address ≠ ""
              ∧ address ≠ "0xYOUR_DEPLOYED_CONTRACT_ADDRESS_HERE")
  ∧ executor_contracts self' !! 137 = Some ok
  ∧ (env !! "EXECUTOR_ADDRESS" = None ->
     ∀ msg, LiveMainnetExecutor.pre_execution_checks env executor rs trade_signal
            ≠ Return (true, msg)).
Proof.
  intros Hmode. unfold validate_executor_contracts. rewrite Hmode.
  change (String.eqb "LIVE" "LIVE") with true. cbn iota.
  change (get_executor_address env 137) with (env !! "EXECUTOR_ADDRESS_POLYGON").
  assert (env !! "EXECUTOR_ADDRESS" = None ->
          ∀ msg, LiveMainnetExecutor.pre_execution_checks env executor rs trade_signal
                 ≠ Return (true, msg)) as Hpre.
  { intros Hnone msg. unfold LiveMainnetExecutor.pre_execution_checks.
    destruct (decimal_of _) as [profit|err]; [|done].
    destruct (PyDecimal.lt profit _); [done|].
    destruct (gt_int _ _) as [[|]|err]; [done| |done].
    destruct (_ && _ && _ && _); [done|].
    destruct (negb _); [done|].
    destruct (LiveMainnetExecutor.unset_or env "PRIVATE_KEY" _); [done|].
    unfold LiveMainnetExecutor.unset_or at 1. rewrite Hnone. done. }
  destruct (env !! "EXECUTOR_ADDRESS_POLYGON") as [a|] eqn:Ha.
  - destruct (PyStr.truthy a) eqn:Ht; cbn [negb].
    + destruct (String.eqb a _) eqn:Hp.
      * apply String.eqb_eq in Hp. cbn [set_executor_contract executor_contracts].
        rewrite lookup_insert_eq. split; [|done]. split; [done|].
        intros (a' & [= <-] & _ & Hne). done.
      * apply String.eqb_neq in Hp. cbn [set_executor_contract executor_contracts].
        rewrite lookup_insert_eq. split; [|done]. split; [|done].
        intros _. exists a. split; [done|]. split; [|done]. intros ->. done.
    + cbn [set_executor_contract executor_contracts].
      rewrite lookup_insert_eq. split; [|done]. split; [done|].
      intros (a' & [= <-] & Hne & _). by destruct a.
  - cbn [set_executor_contract executor_contracts].
    rewrite lookup_insert_eq. split; [|done]. split; [done|].
    intros (a' & Hc & _). done.
Qed.

Lemma executor_address_variables_witness :
  (validate_executor_contracts polygon_executor_env live_validator).1 = true
  ∧ ∀ msg,
      LiveMainnetExecutor.pre_execution_checks polygon_executor_env
        (LiveMainnetExecutor.fresh true) ExecutionModesTerms.empty_redis ∅ ≠ Return (true, msg).
Proof.
  pose proof (executor_address_variables polygon_executor_env live_validator
                (LiveMainnetExecutor.fresh true) ExecutionModesTerms.empty_redis ∅ eq_refl) as H.
  destruct (validate_executor_contracts polygon_executor_env live_validator) as [ok v] eqn:Hv.
  destruct H as (_ & _ & Hpre). split.
  - vm_compute in Hv. by injection Hv as <- _.
  - apply Hpre. reflexivity.
Defined.

End ReadinessSpec.
